(** * EPUB packaging scripts: a shallow embedding and its properties

    The development follows the Python sources
    [create_epub_complete.py], [create_both_epubs.py] and
    [check_metadata.py].  Python [str] values are byte strings, sets are
    [gset string], dictionaries are [gmap string _], the file system is an
    ordered association list from paths to contents, and [print] is a log
    of structured messages. *)

From Stdlib Require Import Ascii ZArith Lia.
From stdpp Require Import base decidable option list sorting strings gmap pretty.

#[local] Set Warnings "-clear-no-such-hyp".

(** ** Python string primitives *)

Module PyStr.

(** Membership of a character in a string. *)
Fixpoint mem (c : ascii) (s : string) : Prop :=
  match s with
  | EmptyString => False
  | String d s' => c = d \/ mem c s'
  end.

(** [s.startswith(p)] *)
Definition startswith (s p : string) : bool := String.prefix p s.

(** [s.endswith(p)] *)
Fixpoint endswith (s p : string) : bool :=
  match s with
  | EmptyString => String.eqb p EmptyString
  | String _ s' => String.eqb s p || endswith s' p
  end.

(** [s.replace(old, new)] for a non-empty [old]: scan from the left, and
    after a match resume behind it ([skip] counts the characters of the
    current match that are still to be passed over). *)
Fixpoint replace_go (old new : string) (skip : nat) (s : string) : string :=
  match s with
  | EmptyString => EmptyString
  | String c s' =>
      match skip with
      | S k => replace_go old new k s'
      | O =>
          if String.prefix old s
          then new +:+ replace_go old new (String.length old - 1) s'
          else String c (replace_go old new 0 s')
      end
  end.

(** [s.replace("", new)] puts [new] before every character and at the end. *)
Fixpoint replace_empty (new s : string) : string :=
  match s with
  | EmptyString => new
  | String c s' => new +:+ String c (replace_empty new s')
  end.

Definition replace (old new s : string) : string :=
  match old with
  | EmptyString => replace_empty new s
  | _ => replace_go old new 0 s
  end.

(** ASCII part of [str.lower]. *)
Definition lower_char (c : ascii) : ascii :=
  let n := nat_of_ascii c in
  if (65 <=? n)%nat && (n <=? 90)%nat then ascii_of_nat (n + 32) else c.

Fixpoint lower (s : string) : string :=
  match s with
  | EmptyString => EmptyString
  | String c s' => String (lower_char c) (lower s')
  end.

(** ASCII part of [str.isspace]: tab, LF, VT, FF, CR, FS, GS, RS, US, space. *)
Definition is_space (c : ascii) : bool :=
  let n := nat_of_ascii c in
  ((9 <=? n)%nat && (n <=? 13)%nat) || ((28 <=? n)%nat && (n <=? 32)%nat).

Fixpoint lstrip (s : string) : string :=
  match s with
  | EmptyString => EmptyString
  | String c s' => if is_space c then lstrip s' else s
  end.

Fixpoint rstrip (s : string) : string :=
  match s with
  | EmptyString => EmptyString
  | String c s' =>
      match rstrip s' with
      | EmptyString => if is_space c then EmptyString else String c EmptyString
      | r => String c r
      end
  end.

(** [s.strip()] *)
Definition strip (s : string) : string := rstrip (lstrip s).

(** [s[n:]] *)
Fixpoint drop (n : nat) (s : string) : string :=
  match n, s with
  | S k, String _ s' => drop k s'
  | _, _ => s
  end.

(** Truthiness of a string: [if s:] *)
Definition truthy (s : string) : bool :=
  match s with EmptyString => false | _ => true end.

#[global] Instance mem_dec (c : ascii) (s : string) : Decision (mem c s).
Proof. induction s as [|d s IH]; cbn [mem]; apply _. Defined.

End PyStr.

(** ** [create_epub_complete.py]: [sanitize_filename] *)

Definition sanitize_filename (filename : string) : string :=
  let sanitized := PyStr.replace " " "-" filename in
  let sanitized := PyStr.replace ")" "" (PyStr.replace "(" "" sanitized) in
  sanitized.


(** ** [os.path] and [pathlib] on POSIX paths *)

Module PyPath.

(** The text behind the last occurrence of [sep], if [sep] occurs. *)
Fixpoint after_last (sep : ascii) (s : string) : option string :=
  match s with
  | EmptyString => None
  | String c s' =>
      match after_last sep s' with
      | Some r => Some r
      | None => if Ascii.eqb c sep then Some s' else None
      end
  end.

(** [os.path.basename(p)]: [p[p.rfind('/') + 1:]] *)
Definition basename (p : string) : string :=
  default p (after_last "/" p).

(** [s.split(sep)] for a one-character separator. *)
Fixpoint split_on (sep : ascii) (s : string) : list string :=
  match s with
  | EmptyString => [EmptyString]
  | String c s' =>
      if Ascii.eqb c sep then EmptyString :: split_on sep s'
      else match split_on sep s' with
           | h :: t => String c h :: t
           | [] => [String c EmptyString]
           end
  end.

(** [Path(p).name]: the last path component, empty and [.] components
    being dropped when the path is parsed. *)
Definition name (p : string) : string :=
  List.last
    (List.filter (fun c => negb (String.eqb c "" || String.eqb c "."))
                 (split_on "/" p))
    "".

(** The text from the last dot of [s] on, if [s] has a dot. *)
Fixpoint from_last_dot (s : string) : option string :=
  match s with
  | EmptyString => None
  | String c s' =>
      match from_last_dot s' with
      | Some r => Some r
      | None => if Ascii.eqb c "." then Some s else None
      end
  end.

(** [PurePath.suffix] of a file name: [i = name.rfind('.')], and
    [name[i:]] when [0 < i < len(name) - 1], otherwise the empty string. *)
Definition suffix_of_name (nm : string) : string :=
  match nm with
  | EmptyString => EmptyString
  | String _ rest =>
      match from_last_dot rest with
      | Some (String _ EmptyString) => EmptyString
      | Some suf => suf
      | None => EmptyString
      end
  end.

(** [PurePath.stem] of a file name: [name[:i]] under the same condition,
    otherwise the whole name. *)
Definition stem_of_name (nm : string) : string :=
  String.substring 0
    (String.length nm - String.length (suffix_of_name nm)) nm.

Definition suffix (p : string) : string := suffix_of_name (name p).

End PyPath.

(** ** The parsed document tree of BeautifulSoup *)

Module Bs4.

Definition attrs := list (string * string).

#[warnings="-register-all"] Inductive node : Type :=
| NavigableString (text : string)
| Comment (text : string)
| Tag (name : string) (attributes : attrs) (contents : list node).

(** [tag.get(key, '')] *)
Fixpoint get (key : string) (a : attrs) : string :=
  match a with
  | [] => ""
  | (k, v) :: a' => if String.eqb k key then v else get key a'
  end.

(** [key in tag.attrs] *)
Fixpoint has_attr (key : string) (a : attrs) : bool :=
  match a with
  | [] => false
  | (k, _) :: a' => String.eqb k key || has_attr key a'
  end.

(** [tag[key] = value] *)
Fixpoint set (key value : string) (a : attrs) : attrs :=
  match a with
  | [] => [(key, value)]
  | (k, v) :: a' =>
      if String.eqb k key then (k, value) :: a' else (k, v) :: set key value a'
  end.

(** The values of a multi-valued attribute such as [class] or [rel]. *)
Definition values (key : string) (a : attrs) : list string :=
  List.filter (fun c => negb (String.eqb c "")) (PyPath.split_on " " (get key a)).

Definition is_named (names : list string) (n : node) : bool :=
  match n with
  | Tag nm _ _ => existsb (String.eqb nm) names
  | _ => false
  end.

(** [find_all(class_=[...])]: some class of the tag is in the list. *)
Definition has_class (classes : list string) (n : node) : bool :=
  match n with
  | Tag _ a _ => existsb (fun c => existsb (String.eqb c) classes) (values "class" a)
  | _ => false
  end.

(** [soup.find(name)]: the first tag of that name below the root, in
    document order. *)
Fixpoint find_self (nm : string) (n : node) : option node :=
  match n with
  | Tag nm' _ cs =>
      if String.eqb nm' nm then Some n
      else (fix first (l : list node) : option node :=
              match l with
              | [] => None
              | c :: l' =>
                  match find_self nm c with
                  | Some r => Some r
                  | None => first l'
                  end
              end) cs
  | _ => None
  end.

Fixpoint find_first (nm : string) (l : list node) : option node :=
  match l with
  | [] => None
  | c :: l' =>
      match find_self nm c with
      | Some r => Some r
      | None => find_first nm l'
      end
  end.

Definition find (nm : string) (root : node) : option node :=
  match root with
  | Tag _ _ cs => find_first nm cs
  | _ => None
  end.

(** [for t in root.find_all(...): t.decompose()]: every matching tag
    below the root goes, with all it contains. *)
Fixpoint decompose_all (matches : node -> bool) (root : node) : node :=
  match root with
  | Tag nm a cs =>
      Tag nm a
        ((fix go (l : list node) : list node :=
            match l with
            | [] => []
            | c :: l' =>
                if matches c then go l' else decompose_all matches c :: go l'
            end) cs)
  | _ => root
  end.

(** [for t in root.find_all(...): t[...] = ...]: the attributes of every
    tag below the root are updated in place. *)
Fixpoint update_self (f : string -> attrs -> attrs) (n : node) : node :=
  match n with
  | Tag nm a cs => Tag nm (f nm a) (List.map (update_self f) cs)
  | _ => n
  end.

Definition update_all (f : string -> attrs -> attrs) (root : node) : node :=
  match root with
  | Tag nm a cs => Tag nm a (List.map (update_self f) cs)
  | _ => root
  end.

(** [tag.string]: the text of a tag with exactly one child, when that
    child is text or again has a [string]. *)
Fixpoint string_of (n : node) : option string :=
  match n with
  | NavigableString s => Some s
  | Comment s => Some s
  | Tag _ _ [c] => string_of c
  | Tag _ _ _ => None
  end.

Definition contents (n : node) : list node :=
  match n with
  | Tag _ _ cs => cs
  | _ => []
  end.

End Bs4.

(** ** Program state: files, archives and the status lines printed *)

Inductive compression : Type := ZIP_STORED | ZIP_DEFLATED.

Record zip_entry : Type := ZipEntry {
  arcname : string;
  compress_type : compression;
  data : string
}.

(** Status lines.  Decorative banners are not recorded; a line that names
    a file or a value carries it as an argument. *)
Inductive message : Type :=
| Line (text : string)
| FileNotFound (file : string)          (* " File not found: ..." *)
| SkippingNotFound (file : string)      (* "   Skipping (not found): ..." *)
| Converted (file : string)             (* "   Converted: ..." *)
| Converting (file : string)            (* "  Converting ...", create_both_epubs *)
| WarningNotFound (file : string)       (* "  Warning: ... not found", create_both_epubs *)
| CopiedImages (count : nat)
| CreatingEpub (file : string)
| MimetypeIsFirst
| WarningMimetypeNotFirst (first : string)
| EpubCreated (file : string)
| EpubcheckSkipped
| EpubcheckOutput (file : string)
| Prompt (text : string).               (* the prompt of an [input(...)] *)

Record world : Type := World {
  files : list (string * string);
  archives : list (string * list zip_entry);
  stdout : list message
}.

Inductive outcome (A : Type) : Type :=
| Returns (a : A)
| Raises (exception : string) (w : world).
Arguments Returns {A} a.
Arguments Raises {A} exception w.

Definition prog (A : Type) : Type := world -> outcome (A * world).

#[global] Instance prog_ret : MRet prog := fun A a w => Returns (a, w).
#[global] Instance prog_bind : MBind prog := fun A B k m w =>
  match m w with
  | Returns (a, w') => k a w'
  | Raises e w' => Raises e w'
  end.

Definition raise {A : Type} (e : string) : prog A := fun w => Raises e w.

(** [try: body / except Exception: handler] *)
Definition try_except {A : Type} (body handler : prog A) : prog A := fun w =>
  match body w with
  | Returns r => Returns r
  | Raises _ w' => handler w'
  end.

(** [for x in l: body(x)] *)
Fixpoint for_each {A : Type} (l : list A) (body : A -> prog unit) : prog unit :=
  match l with
  | [] => mret tt
  | x :: l' => body x ;; for_each l' body
  end.

(** The file store.  Its order stands for the order in which the operating
    system enumerates directory entries. *)
Module Store.

Fixpoint lookup (p : string) (fs : list (string * string)) : option string :=
  match fs with
  | [] => None
  | (q, c) :: fs' => if String.eqb q p then Some c else lookup p fs'
  end.

Fixpoint write (p c : string) (fs : list (string * string)) : list (string * string) :=
  match fs with
  | [] => [(p, c)]
  | (q, d) :: fs' =>
      if String.eqb q p then (q, c) :: fs' else (q, d) :: write p c fs'
  end.

Definition remove {A : Type} (p : string) (fs : list (string * A)) : list (string * A) :=
  List.filter (fun e => negb (String.eqb (fst e) p)) fs.

(** The path of [p] relative to the directory [dir], when [p] lies below it. *)
Definition relative_to (dir p : string) : option string :=
  if String.eqb dir "." then Some p
  else if String.prefix (dir +:+ "/") p
       then Some (String.substring (S (String.length dir))
                    (String.length p - S (String.length dir)) p)
       else None.

Definition below (dir p : string) : bool :=
  match relative_to dir p with Some _ => true | None => false end.

Fixpoint lookup_archive {A : Type} (p : string) (l : list (string * A)) : option A :=
  match l with
  | [] => None
  | (q, c) :: l' => if String.eqb q p then Some c else lookup_archive p l'
  end.

Definition is_file (fs : list (string * string)) (p : string) : bool :=
  match lookup p fs with Some _ => true | None => false end.

Definition is_dir (fs : list (string * string)) (p : string) : bool :=
  existsb (fun e => String.prefix (p +:+ "/") (fst e)) fs.

Definition rmtree (dir : string) (fs : list (string * string)) : list (string * string) :=
  List.filter (fun e => negb (String.prefix (dir +:+ "/") (fst e))) fs.

Fixpoint dedup (seen l : list string) : list string :=
  match l with
  | [] => []
  | x :: l' =>
      if existsb (String.eqb x) seen then dedup seen l'
      else x :: dedup (x :: seen) l'
  end.

(** [os.listdir(dir)]: the entries directly inside [dir], files and
    directories alike. *)
Definition listdir (dir : string) (fs : list (string * string)) : list string :=
  dedup []
    (omap (fun e =>
             match relative_to dir (fst e) with
             | Some r => List.head (PyPath.split_on "/" r)
             | None => None
             end) fs).

(** The files of an [os.walk(dir)], with their paths. *)
Definition walk_files (dir : string) (fs : list (string * string)) : list string :=
  List.filter (below dir) (List.map fst fs).

End Store.

Definition print (m : message) : prog unit :=
  fun w => Returns (tt, World (files w) (archives w) (stdout w ++ [m])).

(** [os.path.exists(p)] *)
Definition path_exists (p : string) : prog bool :=
  fun w => Returns (Store.is_file (files w) p || Store.is_dir (files w) p
                    || existsb (fun a => String.eqb (fst a) p) (archives w), w).

(** [open(p).read()] *)
Definition read_file (p : string) : prog string :=
  fun w => match Store.lookup p (files w) with
           | Some c => Returns (c, w)
           | None => Raises "FileNotFoundError" w
           end.

(** [open(p, 'w').write(c)] *)
Definition write_file (p c : string) : prog unit :=
  fun w => if Store.is_dir (files w) p then Raises "IsADirectoryError" w
           else Returns (tt, World (Store.write p c (files w)) (archives w) (stdout w)).

(** [os.remove(p)] *)
Definition remove_file (p : string) : prog unit :=
  fun w => Returns (tt, World (Store.remove p (files w))
                              (Store.remove p (archives w)) (stdout w)).

(** [shutil.rmtree(dir)] *)
Definition rmtree (dir : string) : prog unit :=
  fun w => if Store.is_file (files w) dir then Raises "NotADirectoryError" w
           else Returns (tt, World (Store.rmtree dir (files w)) (archives w) (stdout w)).

(** [os.listdir(dir)] *)
Definition listdir (dir : string) : prog (list string) :=
  fun w => if Store.is_file (files w) dir then Raises "NotADirectoryError" w
           else Returns (Store.listdir dir (files w), w).

(** The files found by [os.walk(dir)], with their paths. *)
Definition walk_files (dir : string) : prog (list string) :=
  fun w => Returns (Store.walk_files dir (files w), w).

(** [shutil.copy2(src, dst)] *)
Definition copy2 (src dst : string) : prog unit :=
  c ← read_file src; write_file dst c.

(** What the libraries outside the repository compute. *)
Record libs : Type := Libs {
  parse_html : string -> Bs4.node;          (* BeautifulSoup(content, 'html.parser') *)
  render : Bs4.node -> string;              (* str(node) *)
  parse_json : string -> option (gmap string string);  (* json.load *)
  now : string -> string;                   (* datetime.now().strftime(format) *)
  namelist : list zip_entry -> list string  (* ZipFile(...).namelist() on reopening *)
}.

(** The names [zipfile] reports: the entries in the order they were written. *)
Definition zip_namelist (entries : list zip_entry) : list string :=
  List.map arcname entries.

Definition dquote : string := String "034" EmptyString.
Definition newline : string := String "010" EmptyString.

(** [html.escape(s)] *)
Definition html_escape (s : string) : string :=
  let s := PyStr.replace "&" "&amp;" s in
  let s := PyStr.replace "<" "&lt;" s in
  let s := PyStr.replace ">" "&gt;" s in
  let s := PyStr.replace dquote "&quot;" s in
  PyStr.replace "'" "&#x27;" s.

(** [''.join(l)] *)
Definition join (sep : string) (l : list string) : string :=
  match l with
  | [] => ""
  | x :: l' => fold_left (fun acc y => acc +:+ sep +:+ y) l' x
  end.

(** ** [create_epub_complete.py] *)

Module Complete.
Section Program.

Context (lib : libs).

Definition HTML_FILES_ORDER : list string :=
  [ "index.html"; "copyright.html"; "dedication.html"; "toc.html";
    "introduction.html"; "part1.html"; "chapter1.html"; "chapter2.html";
    "part2.html"; "chapter3.html"; "part3.html"; "chapter4.html";
    "chapter5.html"; "part4.html"; "chapter6.html"; "chapter7.html";
    "chapter8.html"; "conclusion.html"; "other-books.html";
    "appendix.html"; "bibliography.html" ].

Definition SPINE_ORDER : list string :=
  [ "cover"; "copyright"; "dedication"; "toc"; "introduction"; "part1";
    "chapter1"; "chapter2"; "part2"; "chapter3"; "part3"; "chapter4";
    "chapter5"; "part4"; "chapter6"; "chapter7"; "chapter8"; "conclusion";
    "other-books"; "appendix"; "bibliography" ].

Definition load_metadata : prog (option (gmap string string)) :=
  e ← path_exists "book_metadata.json";
  if e : bool then
    c ← read_file "book_metadata.json";
    match parse_json lib c with
    | Some md => mret (Some md)
    | None => raise "JSONDecodeError"
    end
  else print (Line "No metadata file found.") ;; mret None.

Definition create_directory_structure : prog unit :=
  print (Line "Directory structure created").

Definition create_mimetype : prog unit :=
  write_file "epub_build/mimetype" "application/epub+zip" ;;
  print (Line "Mimetype file created").

Definition create_container_xml (container_xml : string) : prog unit :=
  write_file "epub_build/META-INF/container.xml" container_xml ;;
  print (Line "Container.xml created").

Definition create_css_file (css_content : string) : prog unit :=
  write_file "epub_build/OEBPS/Styles/style.css" css_content ;;
  print (Line "Comprehensive CSS file created").

(** The image pass of the converter: one [img] tag. *)
Definition fix_image (is_cover : bool) (nm : string) (a : Bs4.attrs) : Bs4.attrs :=
  if String.eqb nm "img" then
    let src := Bs4.get "src" a in
    if PyStr.truthy src then
      let filename := sanitize_filename (PyPath.basename src) in
      let a := Bs4.set "src"
                 ((if is_cover then "images/" else "../images/") +:+ filename) a in
      if PyStr.truthy (Bs4.get "alt" a) then a
      else Bs4.set "alt"
             (PyStr.replace "_" " " (PyStr.replace "-" " "
               (PyStr.replace ".png" "" (PyStr.replace ".jpg" "" filename)))) a
    else a
  else a.

(** The link pass of the converter: the new [href] of one [a] tag. *)
Definition fix_href (is_cover : bool) (href : string) : string :=
  if PyStr.truthy href && PyStr.endswith href ".html" then
    let new_href := PyStr.replace ".html" ".xhtml" href in
    if String.eqb new_href "index.xhtml"
    then (if is_cover then "cover.xhtml" else "../cover.xhtml")
    else new_href
  else href.

Definition fix_link (is_cover : bool) (nm : string) (a : Bs4.attrs) : Bs4.attrs :=
  if String.eqb nm "a" then
    let href := Bs4.get "href" a in
    if PyStr.truthy href && PyStr.endswith href ".html"
    then Bs4.set "href" (fix_href is_cover href) a
    else a
  else a.

Definition is_stylesheet_link (n : Bs4.node) : bool :=
  match n with
  | Bs4.Tag nm a _ =>
      String.eqb nm "link" && existsb (String.eqb "stylesheet") (Bs4.values "rel" a)
  | _ => false
  end.

(** [title_tag.string if title_tag else 'Untitled']; [None] is the
    [None] of Python. *)
Definition document_title (soup : Bs4.node) : option string :=
  match Bs4.find "title" soup with
  | Some title_tag => Bs4.string_of title_tag
  | None => Some "Untitled"
  end.

(** The content root: the [body] tag, or the whole document without one. *)
Definition content_root (soup : Bs4.node) : Bs4.node :=
  match Bs4.find "body" soup with
  | Some body => body
  | None => soup
  end.

(** The tree passes of the converter.  The removals the source applies
    to the whole document act here on the content root, the only part
    that is written out. *)
Definition clean_body (is_cover : bool) (body : Bs4.node) : Bs4.node :=
  let body := Bs4.decompose_all (Bs4.is_named ["nav"; "header"; "footer"]) body in
  let body := Bs4.decompose_all
                (Bs4.has_class ["navigation-buttons"; "nav-button"; "enter-button"]) body in
  let body := Bs4.decompose_all is_stylesheet_link body in
  let body := Bs4.decompose_all (Bs4.is_named ["script"]) body in
  let body := Bs4.decompose_all (Bs4.is_named ["style"]) body in
  let body := Bs4.update_all (fix_image is_cover) body in
  Bs4.update_all (fix_link is_cover) body.

Definition xhtml_page (title css_path body_class_attr body_content : string) : string :=
  join newline
    [ "<?xml version=" +:+ dquote +:+ "1.0" +:+ dquote +:+ " encoding="
        +:+ dquote +:+ "UTF-8" +:+ dquote +:+ "?>";
      "<!DOCTYPE html>";
      "<html xmlns=" +:+ dquote +:+ "http://www.w3.org/1999/xhtml" +:+ dquote
        +:+ " xmlns:epub=" +:+ dquote +:+ "http://www.idpf.org/2007/ops" +:+ dquote
        +:+ " xml:lang=" +:+ dquote +:+ "en" +:+ dquote +:+ ">";
      "<head>";
      "    <meta charset=" +:+ dquote +:+ "UTF-8" +:+ dquote +:+ "/>";
      "    <title>" +:+ title +:+ "</title>";
      "    <link rel=" +:+ dquote +:+ "stylesheet" +:+ dquote +:+ " type="
        +:+ dquote +:+ "text/css" +:+ dquote +:+ " href=" +:+ dquote
        +:+ css_path +:+ dquote +:+ "/>";
      "</head>";
      "<body" +:+ body_class_attr +:+ ">";
      body_content;
      "</body>";
      "</html>" ].

Definition convert_html_to_xhtml (html_file : string) (is_kdp is_cover : bool)
  : prog (option string) :=
  e ← path_exists html_file;
  if e : bool then
    content ← read_file html_file;
    let soup := parse_html lib content in
    let title := document_title soup in
    let body := clean_body is_cover (content_root soup) in
    let body_content := join "" (List.map (render lib) (Bs4.contents body)) in
    let body_class_attr :=
      if is_kdp then " class=" +:+ dquote +:+ "kdp-mode" +:+ dquote else "" in
    let css_path := if is_cover then "Styles/style.css" else "../Styles/style.css" in
    match title with
    | Some t =>
        mret (Some (xhtml_page (html_escape t) css_path body_class_attr body_content))
    | None => raise "AttributeError"      (* html.escape(None) *)
    end
  else print (FileNotFound html_file) ;; mret None.

Definition convert_one (is_kdp : bool) (html_file : string) : prog bool :=
  e ← path_exists html_file;
  if e : bool then
    let is_cover := String.eqb html_file "index.html" in
    xhtml_content ← convert_html_to_xhtml html_file is_kdp is_cover;
    match xhtml_content with
    | Some xhtml =>
        if PyStr.truthy xhtml then
          let output_file :=
            if String.eqb html_file "index.html" then "epub_build/OEBPS/cover.xhtml"
            else "epub_build/OEBPS/Text/" +:+ PyStr.replace ".html" ".xhtml" html_file in
          write_file output_file xhtml ;;
          print (Converted html_file) ;;
          mret true
        else mret false
    | None => mret false
    end
  else print (SkippingNotFound html_file) ;; mret false.

Fixpoint convert_files (is_kdp : bool) (l : list string) : prog (list string) :=
  match l with
  | [] => mret []
  | f :: l' =>
      ok ← convert_one is_kdp f;
      rest ← convert_files is_kdp l';
      mret (if ok : bool then f :: rest else rest)
  end.

Definition convert_all_html_files (is_kdp : bool) : prog (list string) :=
  print (Line (if is_kdp then "Converting HTML files to XHTML (KDP mode)..."
               else "Converting HTML files to XHTML (Standard mode)...")) ;;
  convert_files is_kdp HTML_FILES_ORDER.

Definition image_extensions : list string :=
  [".jpg"; ".jpeg"; ".png"; ".gif"; ".svg"].

Definition is_image (file : string) : bool :=
  existsb (PyStr.endswith (PyStr.lower file)) image_extensions.

(** One directory of [copy_images]; the state is the set of copied
    names and their count. *)
Fixpoint copy_from (src_prefix : string) (l : list string)
    (copied_files : gset string) (copied_count : nat) : prog (gset string * nat) :=
  match l with
  | [] => mret (copied_files, copied_count)
  | file :: l' =>
      if is_image file then
        let dst_filename := sanitize_filename file in
        if decide (dst_filename ∈ copied_files)
        then copy_from src_prefix l' copied_files copied_count
        else
          copy2 (src_prefix +:+ file) ("epub_build/OEBPS/images/" +:+ dst_filename) ;;
          copy_from src_prefix l' ({[dst_filename]} ∪ copied_files) (S copied_count)
      else copy_from src_prefix l' copied_files copied_count
  end.

Definition copy_images : prog nat :=
  print (Line "Copying images...") ;;
  root ← listdir ".";
  '(copied_files, copied_count) ← copy_from "" root ∅ 0;
  e ← path_exists "otherbooks";
  '(copied_files, copied_count) ←
    (if e : bool then
       other ← listdir "otherbooks";
       copy_from "otherbooks/" other copied_files copied_count
     else mret (copied_files, copied_count));
  print (CopiedImages copied_count) ;;
  mret copied_count.


(** *** The package document *)

Record item : Type := Item {
  item_id : string;
  item_href : string;
  media_type : string;
  item_properties : string      (* empty: no [properties] attribute *)
}.

Record package : Type := Package {
  manifest : list item;
  spine : list string
}.

Definition is_id_char (c : ascii) : bool :=
  let n := nat_of_ascii c in
  ((97 <=? n)%nat && (n <=? 122)%nat) || ((65 <=? n)%nat && (n <=? 90)%nat)
  || ((48 <=? n)%nat && (n <=? 57)%nat) || (n =? 95)%nat.

(** [re.sub(r'[^a-zA-Z0-9_]', '_', s)] *)
Fixpoint safe_id (s : string) : string :=
  match s with
  | EmptyString => EmptyString
  | String c s' => String (if is_id_char c then c else "_"%char) (safe_id s')
  end.

(** [while file_id in used_ids: file_id = f"{base_id}_{counter}"; counter += 1],
    run for at most [fuel] further rounds. *)
Fixpoint unique_id (fuel : nat) (used_ids : gset string) (base_id file_id : string)
    (counter : nat) : option string :=
  if decide (file_id ∈ used_ids) then
    match fuel with
    | O => None
    | S fuel' =>
        unique_id fuel' used_ids base_id (base_id +:+ "_" +:+ pretty counter) (S counter)
    end
  else Some file_id.

Definition image_media_type (nm : string) : option string :=
  let ext := PyStr.lower (PyPath.suffix_of_name nm) in
  if String.eqb ext ".jpg" || String.eqb ext ".jpeg" then Some "image/jpeg"
  else if String.eqb ext ".png" then Some "image/png"
  else if String.eqb ext ".gif" then Some "image/gif"
  else if String.eqb ext ".svg" then Some "image/svg+xml"
  else None.

Definition xhtml_item (nm : string) : item :=
  Item (safe_id (PyPath.stem_of_name nm)) ("Text/" +:+ nm) "application/xhtml+xml" "".

(** The loop over the image files; [None] stands for a [while] loop that
    has not ended when its fuel is used up. *)
Fixpoint image_items (cover_filename : string) (image_files : list string)
    (used_ids : gset string) : option (list item) :=
  match image_files with
  | [] => Some []
  | img :: rest =>
      match image_media_type img with
      | None => image_items cover_filename rest used_ids
      | Some mt =>
          let base_id := safe_id (PyPath.stem_of_name img) in
          file_id ← unique_id (size used_ids) used_ids base_id base_id 1;
          items ← image_items cover_filename rest ({[file_id]} ∪ used_ids);
          Some ((if String.eqb img cover_filename
                 then Item "cover_image" ("images/" +:+ img) mt "cover-image"
                 else Item file_id ("images/" +:+ img) mt "") :: items)
      end
  end.

Definition reserved_ids : gset string :=
  {[ "cover"; "cover_image"; "ncx"; "nav"; "css" ]}.

Definition manifest_items (cover_exists : bool) (xhtml_files image_files : list string)
    (cover_filename : string) : option (list item) :=
  images ← image_items cover_filename image_files reserved_ids;
  Some ((if cover_exists
         then [Item "cover" "cover.xhtml" "application/xhtml+xml" ""] else [])
        ++ List.map xhtml_item xhtml_files ++ images).

(** The items the template itself holds. *)
Definition template_items : list item :=
  [ Item "ncx" "toc.ncx" "application/x-dtbncx+xml" "";
    Item "nav" "nav.xhtml" "application/xhtml+xml" "nav";
    Item "css" "Styles/style.css" "text/css" "" ].

(** The spine loop: [exists_text] tells whether
    [epub_build/OEBPS/Text/<id>.xhtml] exists. *)
Fixpoint spine_items (cover_exists : bool) (exists_text : string -> bool)
    (order : list string) : list string :=
  match order with
  | [] => []
  | item_id :: rest =>
      let safe := safe_id item_id in
      if String.eqb item_id "cover" && cover_exists
      then "cover" :: spine_items cover_exists exists_text rest
      else if exists_text item_id
           then safe :: spine_items cover_exists exists_text rest
           else spine_items cover_exists exists_text rest
  end.

(** Template text is written with apostrophes for the double quotes. *)
Definition q (s : string) : string := PyStr.replace "'" dquote s.

Definition render_item (i : item) : string :=
  "        <item id=" +:+ dquote +:+ item_id i +:+ dquote
  +:+ " href=" +:+ dquote +:+ item_href i +:+ dquote
  +:+ " media-type=" +:+ dquote +:+ media_type i +:+ dquote
  +:+ (if PyStr.truthy (item_properties i)
       then " properties=" +:+ dquote +:+ item_properties i +:+ dquote else "")
  +:+ "/>".

Definition render_itemref (idref : string) : string :=
  "        <itemref idref=" +:+ dquote +:+ idref +:+ dquote +:+ "/>".

Definition get_book_id : string :=
  "urn:uuid:escape-hell-myth-" +:+ now lib "%Y%m%d%H%M%S".

Definition opf_text (metadata : gmap string string) (manifest_lines spine_lines : list string)
  : string :=
  let field k d := default d (metadata !! k) in
  join newline
    [ q "<?xml version='1.0' encoding='UTF-8'?>";
      q "<package xmlns='http://www.idpf.org/2007/opf' unique-identifier='book-id' version='3.0'>";
      q "    <metadata xmlns:dc='http://purl.org/dc/elements/1.1/' xmlns:opf='http://www.idpf.org/2007/opf'>";
      q "        <dc:identifier id='book-id'>" +:+ get_book_id +:+ "</dc:identifier>";
      "        <dc:title>" +:+ html_escape (field "title" "Untitled") +:+ "</dc:title>";
      q "        <dc:creator id='author'>" +:+ html_escape (field "author" "Unknown")
        +:+ "</dc:creator>";
      q "        <meta refines='#author' property='role' scheme='marc:relators'>aut</meta>";
      q "        <meta refines='#author' property='file-as'>"
        +:+ html_escape (field "author" "Unknown") +:+ "</meta>";
      "        <dc:publisher>" +:+ html_escape (field "publisher" "Unknown Publisher")
        +:+ "</dc:publisher>";
      "        <dc:date>" +:+ field "publication_date" "2025" +:+ "</dc:date>";
      "        <dc:language>" +:+ field "language" "en" +:+ "</dc:language>";
      "        <dc:subject>" +:+ html_escape (field "tags" "") +:+ "</dc:subject>";
      "        <dc:description>" +:+ html_escape (field "description" "")
        +:+ "</dc:description>";
      q "        <meta property='dcterms:modified'>" +:+ now lib "%Y-%m-%dT%H:%M:%SZ"
        +:+ "</meta>";
      q "        <meta name='cover' content='cover_image'/>";
      "    </metadata>";
      "    ";
      "    <manifest>";
      join newline (List.map render_item template_items);
      join newline manifest_lines;
      "    </manifest>";
      "    ";
      q "    <spine toc='ncx'>";
      join newline spine_lines;
      "    </spine>";
      "    ";
      "    <guide>";
      q "        <reference type='cover' title='Cover' href='cover.xhtml'/>";
      q "        <reference type='toc' title='Table of Contents' href='Text/toc.xhtml'/>";
      "    </guide>";
      "</package>" ].

(** [sorted(dir.glob(pattern))]: the entries of [dir] whose name ends as
    the pattern says, in the order of their names. *)
Definition sorted_glob (dir ext : string) (w : world) : list string :=
  merge_sort String.le
    (List.filter (fun nm => PyStr.endswith nm ext) (Store.listdir dir (files w))).

(** The manifest items and the spine that [create_content_opf] computes
    from the build tree. *)
Definition manifest_and_spine (metadata : gmap string string) (w : world)
  : option (list item * list string) :=
  let xhtml_files := sorted_glob "epub_build/OEBPS/Text" ".xhtml" w in
  let image_files := sorted_glob "epub_build/OEBPS/images" "" w in
  let exists_ p := Store.is_file (files w) p || Store.is_dir (files w) p in
  let cover_exists := exists_ "epub_build/OEBPS/cover.xhtml" in
  let cover_filename :=
    sanitize_filename (PyPath.basename (default "cover.jpg" (metadata !! "cover_image"))) in
  items ← manifest_items cover_exists xhtml_files image_files cover_filename;
  Some (items,
        spine_items cover_exists
          (fun item_id => exists_ ("epub_build/OEBPS/Text/" +:+ item_id +:+ ".xhtml"))
          SPINE_ORDER).

(** The package document as written: the items of the template, the
    computed items, and the spine. *)
Definition package_document (metadata : gmap string string) (w : world)
  : option package :=
  '(items, spine_ids) ← manifest_and_spine metadata w;
  Some (Package (template_items ++ items) spine_ids).

Definition create_content_opf (metadata : gmap string string) (is_kdp : bool)
  : prog unit :=
  fun w =>
    match manifest_and_spine metadata w with
    | Some (items, spine_ids) =>
        (write_file "epub_build/OEBPS/content.opf"
           (opf_text metadata
              (List.map render_item items) (List.map render_itemref spine_ids)) ;;
         print (Line (if is_kdp then "content.opf created (KDP version)"
                      else "content.opf created (Standard version)"))) w
    | None => Raises "the id loop does not end" w
    end.

(** *** Navigation documents *)

Definition nav_structure : list (string * string * string) :=
  [ ("cover", "Cover", "cover.xhtml");
    ("copyright", "Copyright", "Text/copyright.xhtml");
    ("dedication", "Dedication", "Text/dedication.xhtml");
    ("toc", "Table of Contents", "Text/toc.xhtml");
    ("introduction", "Introduction", "Text/introduction.xhtml");
    ("part1", "Part 1: Unmasking the Myth", "Text/part1.xhtml");
    ("chapter1", "Chapter 1: The Invention of Eternal Fire", "Text/chapter1.xhtml");
    ("chapter2", "Chapter 2: Jesus vs. the Punishing God", "Text/chapter2.xhtml");
    ("part2", "Part 2: How Fear Slipped Back In", "Text/part2.xhtml");
    ("chapter3", "Chapter 3: Paul and the Return of Fear", "Text/chapter3.xhtml");
    ("part3", "Part 3: Clearing Up The " +:+ dquote +:+ "Hell" +:+ dquote +:+ " Texts",
      "Text/part3.xhtml");
    ("chapter4", "Chapter 4: The Verses Everyone Can't Unsee", "Text/chapter4.xhtml");
    ("chapter5", "Chapter 5: The Day the World Ended", "Text/chapter5.xhtml");
    ("part4", "Part 4: The Gospel Of Love", "Text/part4.xhtml");
    ("chapter6", "Chapter 6: The Father Who Never Stops Loving", "Text/chapter6.xhtml");
    ("chapter7", "Chapter 7: Escaping the Fear Cycle", "Text/chapter7.xhtml");
    ("chapter8", "Chapter 8: The Wounds We Inherit", "Text/chapter8.xhtml");
    ("conclusion", "Conclusion: Love Wins. Always.", "Text/conclusion.xhtml");
    ("other-books", "Books By Ansilo Boff", "Text/other-books.xhtml");
    ("appendix", "Appendix: Glossary of Key Terms", "Text/appendix.xhtml");
    ("bibliography", "Bibliography", "Text/bibliography.xhtml") ].

Definition present (w : world) (entries : list (string * string * string))
  : list (string * string * string) :=
  List.filter
    (fun e => let p := "epub_build/OEBPS/" +:+ snd e in
              Store.is_file (files w) p || Store.is_dir (files w) p)
    entries.

Fixpoint nav_points (play_order : nat) (entries : list (string * string * string))
  : list string :=
  match entries with
  | [] => []
  | (nav_id, title, src) :: rest =>
      join newline
        [ "    <navPoint id=" +:+ dquote +:+ nav_id +:+ dquote +:+ " playOrder="
            +:+ dquote +:+ pretty play_order +:+ dquote +:+ ">";
          "      <navLabel><text>" +:+ html_escape title +:+ "</text></navLabel>";
          "      <content src=" +:+ dquote +:+ src +:+ dquote +:+ "/>";
          "    </navPoint>" ]
      :: nav_points (S play_order) rest
  end.

Definition create_toc_ncx (metadata : gmap string string) : prog unit :=
  fun w =>
    let field k d := default d (metadata !! k) in
    let toc_ncx :=
      join newline
        [ q "<?xml version='1.0' encoding='UTF-8'?>";
          q "<ncx xmlns='http://www.daisy.org/z3986/2005/ncx/' version='2005-1'>";
          "  <head>";
          q "    <meta name='dtb:uid' content='" +:+ get_book_id +:+ dquote +:+ "/>";
          q "    <meta name='dtb:depth' content='1'/>";
          q "    <meta name='dtb:totalPageCount' content='0'/>";
          q "    <meta name='dtb:maxPageNumber' content='0'/>";
          "  </head>";
          "  <docTitle>";
          "    <text>" +:+ html_escape (field "title" "Untitled") +:+ "</text>";
          "  </docTitle>";
          "  <docAuthor>";
          "    <text>" +:+ html_escape (field "author" "Unknown") +:+ "</text>";
          "  </docAuthor>";
          "  <navMap>";
          join newline (nav_points 1 (present w nav_structure));
          "  </navMap>";
          "</ncx>" ] in
    (write_file "epub_build/OEBPS/toc.ncx" toc_ncx ;; print (Line "toc.ncx created")) w.

(** The entries of [create_nav_xhtml] are those of [create_toc_ncx]
    without the ids, the appendix having a shorter title. *)
Definition nav_xhtml_structure : list (string * string * string) :=
  List.map (fun e => if String.eqb (fst (fst e)) "appendix"
                     then ("appendix", "Appendix", snd e) else e) nav_structure.

Definition create_nav_xhtml (metadata : gmap string string) : prog unit :=
  fun w =>
    let nav_items :=
      List.map (fun e => "                <li><a href=" +:+ dquote +:+ snd e +:+ dquote
                         +:+ ">" +:+ html_escape (snd (fst e)) +:+ "</a></li>")
               (present w nav_xhtml_structure) in
    let nav_xhtml :=
      join newline
        [ q "<?xml version='1.0' encoding='UTF-8'?>";
          "<!DOCTYPE html>";
          q "<html xmlns='http://www.w3.org/1999/xhtml' xmlns:epub='http://www.idpf.org/2007/ops' xml:lang='en'>";
          "<head>";
          q "    <meta charset='UTF-8'/>";
          "    <title>Navigation</title>";
          q "    <link rel='stylesheet' type='text/css' href='Styles/style.css'/>";
          "</head>";
          "<body>";
          q "    <nav epub:type='toc' id='toc'>";
          "        <h1>Table of Contents</h1>";
          "        <ol>";
          join newline nav_items;
          "        </ol>";
          "    </nav>";
          "</body>";
          "</html>" ] in
    (write_file "epub_build/OEBPS/nav.xhtml" nav_xhtml ;; print (Line "nav.xhtml created")) w.

(** *** The archive *)

Definition arc_path (file_path : string) : string :=
  default file_path (Store.relative_to "epub_build" file_path).

(** [zipfile.ZipFile(output_name, 'w', ...)]: a new, empty archive. *)
Definition zip_open (output_name : string) : prog unit :=
  fun w => Returns (tt, World (files w)
                          (Store.remove output_name (archives w) ++ [(output_name, [])])
                          (stdout w)).

Definition append_entry (output_name : string) (e : zip_entry)
    (l : list (string * list zip_entry)) : list (string * list zip_entry) :=
  List.map (fun a => if String.eqb (fst a) output_name then (fst a, snd a ++ [e]) else a) l.

Definition zip_append (output_name : string) (e : zip_entry) : prog unit :=
  fun w => Returns (tt, World (files w) (append_entry output_name e (archives w)) (stdout w)).

(** [epub.write(file_path, arcname, compress_type=...)] *)
Definition zip_write (output_name file_path arcname : string) (method : compression)
  : prog unit :=
  c ← read_file file_path;
  zip_append output_name (ZipEntry arcname method c).

Definition zip_read (output_name : string) : prog (list zip_entry) :=
  fun w => match Store.lookup_archive output_name (archives w) with
           | Some entries => Returns (entries, w)
           | None => Raises "FileNotFoundError" w
           end.

Definition create_epub_file (output_name : string) (metadata : gmap string string)
  : prog string :=
  print (CreatingEpub output_name) ;;
  e ← path_exists output_name;
  (if e : bool then remove_file output_name else mret tt) ;;
  zip_open output_name ;;
  zip_write output_name "epub_build/mimetype" "mimetype" ZIP_STORED ;;
  meta_inf ← walk_files "epub_build/META-INF";
  for_each meta_inf
    (fun file_path => zip_write output_name file_path (arc_path file_path) ZIP_DEFLATED) ;;
  oebps ← walk_files "epub_build/OEBPS";
  for_each oebps
    (fun file_path => zip_write output_name file_path (arc_path file_path) ZIP_DEFLATED) ;;
  archive ← zip_read output_name;
  match namelist lib archive with
  | [] => raise "IndexError"
  | first :: _ =>
      (if String.eqb first "mimetype" then print MimetypeIsFirst
       else print (WarningMimetypeNotFirst first)) ;;
      print (EpubCreated output_name) ;;
      mret output_name
  end.

Definition cleanup : prog unit :=
  e ← path_exists "epub_build";
  if e : bool then rmtree "epub_build" else mret tt.

Definition run_epubcheck (epub_file : string) : prog unit :=
  e ← path_exists "epubcheck-5.2.0/epubcheck.jar";
  if e : bool then print (EpubcheckOutput epub_file)
  else print EpubcheckSkipped.

(** The steps shared by [create_gumroad_epub] and [create_amazon_kdp_epub]. *)
Definition create_epub (is_kdp : bool) (output_name container_xml css_content : string)
    (metadata : gmap string string) : prog string :=
  cleanup ;;
  create_directory_structure ;;
  create_mimetype ;;
  create_container_xml container_xml ;;
  create_css_file css_content ;;
  convert_all_html_files is_kdp ;;
  copy_images ;;
  create_content_opf metadata is_kdp ;;
  create_toc_ncx metadata ;;
  create_nav_xhtml metadata ;;
  create_epub_file output_name metadata.

Context (container_xml css_content : string).

Definition create_gumroad_epub (metadata : gmap string string) : prog string :=
  print (Line "Creating Gumroad EPUB (Standard)") ;;
  create_epub false "Escape_The_Hell_Myth_Gumroad.epub" container_xml css_content metadata.

Definition create_amazon_kdp_epub (metadata : gmap string string) : prog string :=
  print (Line "Creating Amazon KDP EPUB") ;;
  create_epub true "Escape_The_Hell_Myth_KDP.epub" container_xml css_content metadata.

Definition main : prog bool :=
  metadata ← load_metadata;
  match metadata with
  | Some md =>
      if decide (md = ∅) then
        print (Line "Failed to load metadata. Exiting.") ;; mret false
      else
        try_except
          (gumroad_epub ← create_gumroad_epub md;
           kdp_epub ← create_amazon_kdp_epub md;
           cleanup ;;
           run_epubcheck gumroad_epub ;;
           run_epubcheck kdp_epub ;;
           print (Line "EPUB CREATION COMPLETE!") ;;
           mret true)
          (print (Line "Error creating EPUBs") ;; mret false)
  | None => print (Line "Failed to load metadata. Exiting.") ;; mret false
  end.

End Program.
End Complete.

(** ** [create_both_epubs.py] *)

Module Both.
Section Program.

Context (lib : libs).

(** The tree passes and the template of [convert_html_to_xhtml], from the
    removal of navigation elements to the assembled [xhtml_content]; the
    arguments are the path, [kdp_mode], the document and its [body]. *)
Context (assemble : string -> bool -> Bs4.node -> Bs4.node -> string).

Definition FILES_TO_PROCESS : list string :=
  [ "copyright.html"; "dedication.html"; "toc.html"; "introduction.html";
    "part1.html"; "chapter1.html"; "chapter2.html"; "part2.html";
    "chapter3.html"; "part3.html"; "chapter4.html"; "chapter5.html";
    "part4.html"; "chapter6.html"; "chapter7.html"; "chapter8.html";
    "conclusion.html"; "other-books.html"; "appendix.html";
    "bibliography.html"; "acknowledgments.html" ].

Definition CORRECT_SPINE_ORDER : list string :=
  [ "cover"; "copyright"; "dedication"; "toc"; "introduction"; "part1";
    "chapter1"; "chapter2"; "part2"; "chapter3"; "part3"; "chapter4";
    "chapter5"; "part4"; "chapter6"; "chapter7"; "chapter8"; "conclusion";
    "other-books"; "appendix"; "bibliography"; "acknowledgments" ].

(** The link pass: the new [href] of one [a] tag that has one. *)
Definition fix_href (href : string) : string :=
  if PyStr.endswith href ".html" && negb (PyStr.startswith href "http")
  then PyStr.replace ".html" ".xhtml" href
  else href.

Definition fix_link (nm : string) (a : Bs4.attrs) : Bs4.attrs :=
  if String.eqb nm "a" && Bs4.has_attr "href" a then
    let href := Bs4.get "href" a in
    if PyStr.endswith href ".html" && negb (PyStr.startswith href "http")
    then Bs4.set "href" (PyStr.replace ".html" ".xhtml" href) a
    else a
  else a.

(** *** [escape_ampersands] *)

Definition is_alpha (c : ascii) : bool :=
  let n := nat_of_ascii c in
  ((97 <=? n)%nat && (n <=? 122)%nat) || ((65 <=? n)%nat && (n <=? 90)%nat).

Definition is_digit (c : ascii) : bool :=
  let n := nat_of_ascii c in (48 <=? n)%nat && (n <=? 57)%nat.

Definition is_alnum (c : ascii) : bool := is_alpha c || is_digit c.

Definition is_hex (c : ascii) : bool :=
  let n := nat_of_ascii c in
  is_digit c || ((97 <=? n)%nat && (n <=? 102)%nat) || ((65 <=? n)%nat && (n <=? 70)%nat).

(** The number of leading characters of the class, when a semicolon
    follows them. *)
Fixpoint run_semicolon (class : ascii -> bool) (s : string) : option nat :=
  match s with
  | EmptyString => None
  | String c s' =>
      if class c then S <$> run_semicolon class s'
      else if Ascii.eqb c ";" then Some 0 else None
  end.

(** The length of the match of
    [&(?:[a-zA-Z][a-zA-Z0-9]*|#\d+|#x[0-9a-fA-F]+);] at the head of [s].
    The class [\d] is read on the digits [0] to [9]: a text is a byte
    string here, and the decimal digits of other scripts are left out. *)
Definition entity_length (s : string) : option nat :=
  match s with
  | String "&" (String "#" (String "x" t)) =>
      match run_semicolon is_hex t with
      | Some (S n) => Some (S n + 4)
      | _ => None
      end
  | String "&" (String "#" t) =>
      match run_semicolon is_digit t with
      | Some (S n) => Some (S n + 3)
      | _ => None
      end
  | String "&" (String c t) =>
      if is_alpha c then (fun n => n + 3) <$> run_semicolon is_alnum t else None
  | _ => None
  end.

Definition placeholder (entity_counter : nat) : string :=
  "___ENTITY_" +:+ pretty entity_counter +:+ "___".

(** [re.sub(pattern, replace_entity, text)]: the text with a placeholder
    for every match, and the matched entities in the order of their
    placeholders. *)
Fixpoint protect (skip entity_counter : nat) (s : string) : string * list string :=
  match s with
  | EmptyString => (EmptyString, [])
  | String c s' =>
      match skip with
      | S k => protect k entity_counter s'
      | O =>
          match entity_length s with
          | Some len =>
              let '(t, entities) := protect (len - 1) (S entity_counter) s' in
              (placeholder entity_counter +:+ t, String.substring 0 len s :: entities)
          | None =>
              let '(t, entities) := protect 0 entity_counter s' in
              (String c t, entities)
          end
      end
  end.

(** [for placeholder, entity in entity_map.items(): text = text.replace(...)] *)
Fixpoint restore (entity_counter : nat) (entities : list string) (text : string) : string :=
  match entities with
  | [] => text
  | entity :: rest =>
      restore (S entity_counter) rest (PyStr.replace (placeholder entity_counter) entity text)
  end.

Definition escape_ampersands (text : string) : string :=
  let '(text, entities) := protect 0 0 text in
  let text := PyStr.replace "&" "&amp;" text in
  restore 0 entities text.

(** The entity step of the converter: [&nbsp;] first, then the escaping. *)
Definition escape_entities (xhtml_content : string) : string :=
  escape_ampersands (PyStr.replace "&nbsp;" "&#160;" xhtml_content).

(** *** The second link pass, on the text *)

(** The text before the next double quote, when there is one. *)
Fixpoint until_quote (s : string) : option string :=
  match s with
  | EmptyString => None
  | String c s' =>
      if Ascii.eqb c "034" then Some EmptyString
      else String c <$> until_quote s'
  end.

(** Group 1 of the pattern [href=Q([^Q]+\.html)Q], with [Q] the double
    quote, when the pattern matches at the head of [s]. *)
Definition href_match (s : string) : option string :=
  if String.prefix ("href=" +:+ dquote) s then
    match until_quote (PyStr.drop 6 s) with
    | Some href =>
        if PyStr.endswith href ".html" && (6 <=? String.length href)%nat
        then Some href else None
    | None => None
    end
  else None.

Definition replace_html_links (href : string) : string :=
  if PyStr.endswith href ".html" && negb (PyStr.startswith href "http")
  then "href=" +:+ dquote +:+ PyStr.replace ".html" ".xhtml" href +:+ dquote
  else "href=" +:+ dquote +:+ href +:+ dquote.

Fixpoint sub_html_links (skip : nat) (s : string) : string :=
  match s with
  | EmptyString => EmptyString
  | String c s' =>
      match skip with
      | S k => sub_html_links k s'
      | O =>
          match href_match s with
          | Some href =>
              replace_html_links href +:+ sub_html_links (6 + String.length href) s'
          | None => String c (sub_html_links 0 s')
          end
      end
  end.

(** *** The converter and the loop that calls it *)

Definition convert_html_to_xhtml (html_file_path output_dir : string) (kdp_mode : bool)
  : prog (option string) :=
  content ← read_file html_file_path;
  let soup := parse_html lib content in
  match Bs4.find "body" soup with
  | None => mret None
  | Some body =>
      let xhtml_content := assemble html_file_path kdp_mode soup body in
      let xhtml_content := escape_entities xhtml_content in
      let xhtml_content := sub_html_links 0 xhtml_content in
      let filename := PyStr.replace ".html" ".xhtml" (PyPath.basename html_file_path) in
      write_file (output_dir +:+ "/" +:+ filename) xhtml_content ;;
      mret (Some filename)
  end.

(** The conversion loop of [create_epub_version], and its body. *)
Definition convert_step (base_dir : string) (kdp_mode : bool) (html_file : string)
  : prog unit :=
  e ← path_exists html_file;
  if e : bool then
    print (Converting html_file) ;;
    convert_html_to_xhtml html_file (base_dir +:+ "/OEBPS/Text") kdp_mode ;;
    mret tt
  else print (WarningNotFound html_file).

Definition convert_all (base_dir : string) (kdp_mode : bool) : prog unit :=
  print (Line "Converting HTML files to XHTML...") ;;
  for_each FILES_TO_PROCESS (convert_step base_dir kdp_mode).

(** *** The package document *)

Definition image_media_type (nm : string) : string :=
  let ext := PyStr.lower (PyPath.suffix_of_name nm) in
  if String.eqb ext ".jpg" || String.eqb ext ".jpeg" then "image/jpeg"
  else "image/png".

Fixpoint image_items (cover_filename : string) (image_files : list string)
    (used_ids : gset string) : option (list Complete.item) :=
  match image_files with
  | [] => Some []
  | img :: rest =>
      if String.eqb img cover_filename then image_items cover_filename rest used_ids
      else
        let base_id := PyStr.replace " " "_" (PyStr.replace "-" "_" (PyPath.stem_of_name img)) in
        file_id ← Complete.unique_id (size used_ids) used_ids base_id base_id 1;
        items ← image_items cover_filename rest ({[file_id]} ∪ used_ids);
        Some (Complete.Item file_id ("Images/" +:+ img) (image_media_type img) "" :: items)
  end.

Definition manifest_items (cover_exists : bool) (xhtml_files image_files : list string)
    (cover_filename : string) : option (list Complete.item) :=
  images ← image_items cover_filename image_files {[ "cover"; "cover-image" ]};
  Some ((if cover_exists
         then [Complete.Item "cover" "cover.xhtml" "application/xhtml+xml" ""] else [])
        ++ List.map (fun nm => Complete.Item (PyPath.stem_of_name nm) ("Text/" +:+ nm)
                                 "application/xhtml+xml" "") xhtml_files
        ++ images
        ++ [ Complete.Item "css" "Styles/style.css" "text/css" "";
             Complete.Item "ncx" "toc.ncx" "application/x-dtbncx+xml" "" ]).

Definition spine_items : list string := CORRECT_SPINE_ORDER.

(** The manifest and the spine of the package document that
    [create_content_opf] returns for the tree below [base_dir]. *)
Definition package_document (metadata : gmap string string) (base_dir : string)
    (w : world) : option Complete.package :=
  let exists_ p := Store.is_file (files w) p || Store.is_dir (files w) p in
  let xhtml_files := Complete.sorted_glob (base_dir +:+ "/OEBPS/Text") ".xhtml" w in
  let images_dir :=
    if exists_ (base_dir +:+ "/OEBPS/Images") then base_dir +:+ "/OEBPS/Images"
    else base_dir +:+ "/OEBPS/images" in
  let image_files := Store.listdir images_dir (files w) in
  let cover_filename := PyPath.basename (default "" (metadata !! "cover_image")) in
  items ← manifest_items (exists_ (base_dir +:+ "/OEBPS/cover.xhtml"))
            xhtml_files image_files cover_filename;
  Some (Complete.Package
          (Complete.Item "cover-image" ("Images/" +:+ cover_filename) "image/jpeg" "" :: items)
          spine_items).

(** *** The build of one version *)

(** [str(uuid.uuid4())], as a function of the state it is drawn in. *)
Context (uuid4 : world -> string).

(** How [subprocess.run(['java', '-jar', EPUBCCHECK_PATH, epub_file], ...)]
    ends: with a return code, a standard output and a standard error,
    with [subprocess.TimeoutExpired], or with another exception. *)
Inductive completed : Type :=
| Completed (returncode : Z) (out err : string)
| TimeoutExpired
| OtherException (e : string).

Context (java : string -> world -> completed).

Definition str_uuid4 : prog string := fun w => Returns (uuid4 w, w).

Definition METADATA_FILE : string := "book_metadata.json".
Definition EPUBCCHECK_PATH : string := "epubcheck-5.2.0/epubcheck.jar".

Definition load_metadata : prog (option (gmap string string)) :=
  e ← path_exists METADATA_FILE;
  if e : bool then
    c ← read_file METADATA_FILE;
    match parse_json lib c with
    | Some md => mret (Some md)
    | None => raise "JSONDecodeError"
    end
  else print (Line ("No metadata file found: " +:+ METADATA_FILE)) ;; mret None.

(** The directory [p] and the directories above it. *)
Fixpoint ancestors (acc p : string) : list string :=
  match p with
  | EmptyString => [acc]
  | String c p' =>
      if Ascii.eqb c "/" then acc :: ancestors (acc +:+ "/") p'
      else ancestors (acc +:+ String c EmptyString) p'
  end.

(** [os.makedirs(dir_path, exist_ok=True)].  A directory has no entry of
    its own in the store; the call fails when [dir_path] or a directory
    above it is a file. *)
Definition makedirs (dir_path : string) : prog unit :=
  fun w => if existsb (Store.is_file (files w)) (ancestors "" dir_path)
           then Raises "FileExistsError" w
           else Returns (tt, w).

Definition container_xml : string :=
  join newline
    [ Complete.q "<?xml version='1.0' encoding='UTF-8'?>";
      Complete.q "<container version='1.0' xmlns='urn:oasis:names:tc:opendocument:xmlns:container'>";
      "    <rootfiles>";
      Complete.q "        <rootfile full-path='OEBPS/content.opf' media-type='application/oebps-package+xml'/>";
      "    </rootfiles>";
      "</container>" ].

Definition ensure_directory_structure (base_dir : string) : prog unit :=
  for_each [ base_dir +:+ "/META-INF"; base_dir +:+ "/OEBPS/Text";
             base_dir +:+ "/OEBPS/Images"; base_dir +:+ "/OEBPS/Styles" ] makedirs ;;
  let mimetype_path := base_dir +:+ "/mimetype" in
  e ← path_exists mimetype_path;
  (if e : bool then mret tt else write_file mimetype_path "application/epub+zip") ;;
  write_file (base_dir +:+ "/META-INF/container.xml") container_xml.

(** [shutil.copy2(src, dst)], which refuses to copy a file onto itself. *)
Definition shutil_copy2 (src dst : string) : prog unit :=
  if String.eqb src dst then raise "SameFileError" else copy2 src dst.

(** [sub in s] *)
Fixpoint contains (sub s : string) : bool :=
  String.prefix sub s
  || match s with
     | EmptyString => false
     | String _ s' => contains sub s'
     end.

(** [open(p, 'a').write(c)] *)
Definition append_file (p c : string) : prog unit :=
  fun w => write_file p (default "" (Store.lookup p (files w)) +:+ c) w.

Definition basic_styles : string :=
  join newline
    [ "/* EPUB Styles */";
      "body {";
      "    font-family: Georgia, serif;";
      "    line-height: 1.6;";
      "    margin: 1em;";
      "    color: #333;";
      "    background-color: #fff;";
      "}";
      "" ].

Definition kdp_styles : string :=
  join newline
    [ "";
      "";
      "/* Hide navigation in KDP mode */";
      ".kdp-mode .navigation,";
      ".kdp-mode .nav-link,";
      ".kdp-mode .navigation-buttons {";
      "    display: none !important;";
      "}";
      "" ].

Definition copy_styles_file (base_dir : string) (kdp_mode : bool) : prog unit :=
  let styles_source := "epub/OEBPS/styles.css" in
  let styles_dest := base_dir +:+ "/OEBPS/Styles/style.css" in
  e ← path_exists styles_source;
  (if e : bool then shutil_copy2 styles_source styles_dest
   else write_file styles_dest basic_styles) ;;
  if kdp_mode then
    existing_styles ← read_file styles_dest;
    if contains ".kdp-mode" existing_styles then mret tt
    else append_file styles_dest kdp_styles
  else mret tt.

(** [os.path.join(source_dir, file)], as the store names the file: an
    entry [x] of the current directory is [x], not [./x]. *)
Definition path_join (source_dir file : string) : string :=
  if String.eqb source_dir "." then file else source_dir +:+ "/" +:+ file.

(** The loop of [copy_images]; the state is [copied_count]. *)
Fixpoint copy_each (source_dir dest_dir : string) (l : list string) (copied_count : nat)
  : prog nat :=
  match l with
  | [] => mret copied_count
  | file :: l' =>
      if Complete.is_image file then
        shutil_copy2 (path_join source_dir file) (dest_dir +:+ "/" +:+ file) ;;
        copy_each source_dir dest_dir l' (S copied_count)
      else copy_each source_dir dest_dir l' copied_count
  end.

Definition copy_images (source_dir dest_dir : string) : prog nat :=
  l ← listdir source_dir;
  copy_each source_dir dest_dir l 0.

(** The cover copy of [create_epub_version]; both branches of the test
    on [os.path.isabs] do the same. *)
Definition copy_cover (metadata : gmap string string) (images_dir : string) : prog unit :=
  let cover_path := default "" (metadata !! "cover_image") in
  let copy :=
    e ← path_exists cover_path;
    if e : bool then
      let cover_filename := PyPath.basename cover_path in
      shutil_copy2 cover_path (images_dir +:+ "/" +:+ cover_filename) ;;
      print (Line ("Copied cover image: " +:+ cover_filename))
    else print (Line ("Warning: Cover image not found at " +:+ cover_path)) in
  if PyStr.truthy cover_path then
    if PyStr.startswith cover_path "/" then copy else copy
  else mret tt.

Definition create_cover_page (metadata : gmap string string) (base_dir : string)
  : prog unit :=
  let cover_filename := PyPath.basename (default "" (metadata !! "cover_image")) in
  let title := default "Untitled" (metadata !! "title") in
  let cover_xhtml :=
    join newline
      [ Complete.q "<?xml version='1.0' encoding='UTF-8'?>";
        Complete.q "<!DOCTYPE html PUBLIC '-//W3C//DTD XHTML 1.1//EN' 'http://www.w3.org/TR/xhtml11/DTD/xhtml11.dtd'>";
        Complete.q "<html xmlns='http://www.w3.org/1999/xhtml'>";
        "<head>";
        "    <title>Cover</title>";
        Complete.q "    <link rel='stylesheet' type='text/css' href='Styles/style.css'/>";
        Complete.q "    <style type='text/css'>";
        "        body {";
        "            margin: 0;";
        "            padding: 0;";
        "            text-align: center;";
        "            background-color: black;";
        "        }";
        "        .cover {";
        "            margin: 0;";
        "            padding: 0;";
        "            width: 100%;";
        "            height: 100vh;";
        "            display: block;";
        "        }";
        "        .cover img {";
        "            width: 100%;";
        "            height: 100%;";
        "            object-fit: contain;";
        "            display: block;";
        "            margin: 0 auto;";
        "        }";
        "    </style>";
        "</head>";
        "<body>";
        Complete.q "    <div class='cover'>";
        "        <img src=" +:+ dquote +:+ "Images/" +:+ cover_filename +:+ dquote
          +:+ " alt=" +:+ dquote +:+ title +:+ " Cover" +:+ dquote +:+ "/>";
        "    </div>";
        "</body>";
        "</html>" ] in
  write_file (base_dir +:+ "/OEBPS/cover.xhtml") cover_xhtml.

Definition render_item (i : Complete.item) : string :=
  "    <item id=" +:+ dquote +:+ Complete.item_id i +:+ dquote
  +:+ " href=" +:+ dquote +:+ Complete.item_href i +:+ dquote
  +:+ " media-type=" +:+ dquote +:+ Complete.media_type i +:+ dquote +:+ "/>".

Definition render_itemref (item_id : string) : string :=
  "    <itemref idref=" +:+ dquote +:+ item_id +:+ dquote +:+ "/>".

Definition opf_text (metadata : gmap string string) (book_id cover_filename : string)
    (manifest_items spine_items : list string) : string :=
  let field k d := default d (metadata !! k) in
  let title_text :=
    if PyStr.truthy (field "subtitle" "")
    then field "title" "Untitled" +:+ ": " +:+ field "subtitle" ""
    else field "title" "Untitled" in
  join newline
    [ Complete.q "<?xml version='1.0' encoding='UTF-8'?>";
      Complete.q "<package xmlns='http://www.idpf.org/2007/opf' unique-identifier='book-id' version='2.0'>";
      Complete.q "    <metadata xmlns:dc='http://purl.org/dc/elements/1.1/' xmlns:opf='http://www.idpf.org/2007/opf'>";
      Complete.q "        <dc:identifier id='book-id' opf:scheme='UUID'>" +:+ book_id
        +:+ "</dc:identifier>";
      "        <dc:title>" +:+ title_text +:+ "</dc:title>";
      "        <dc:creator opf:file-as=" +:+ dquote +:+ field "author" "Unknown" +:+ dquote
        +:+ " opf:role=" +:+ dquote +:+ "aut" +:+ dquote +:+ ">"
        +:+ field "author" "Unknown" +:+ "</dc:creator>";
      "        <dc:publisher>" +:+ field "publisher" "Unknown Publisher" +:+ "</dc:publisher>";
      Complete.q "        <dc:date opf:event='publication'>" +:+ field "publication_date" "2025"
        +:+ "</dc:date>";
      "        <dc:language>" +:+ field "language" "en" +:+ "</dc:language>";
      "        <dc:subject>" +:+ field "tags" "" +:+ "</dc:subject>";
      "        <dc:description>" +:+ field "description" "" +:+ "</dc:description>";
      Complete.q "        <meta name='cover' content='cover-image'/>";
      Complete.q "        <meta name='generator' content='EPUB Creator'/>";
      "    </metadata>";
      "    ";
      "    <manifest>";
      "        <item id=" +:+ dquote +:+ "cover-image" +:+ dquote
        +:+ " href=" +:+ dquote +:+ "Images/" +:+ cover_filename +:+ dquote
        +:+ " media-type=" +:+ dquote +:+ "image/jpeg" +:+ dquote +:+ "/>";
      join newline manifest_items;
      "    </manifest>";
      "    ";
      Complete.q "    <spine toc='ncx'>";
      join newline spine_items;
      "    </spine>";
      "    ";
      "    <guide>";
      Complete.q "        <reference type='cover' title='Cover' href='cover.xhtml'/>";
      Complete.q "        <reference type='toc' title='Table of Contents' href='Text/toc.xhtml'/>";
      "    </guide>";
      "</package>" ].

(** [create_content_opf] returns the text of the package document; the
    items and the spine are those of [package_document]. *)
Definition create_content_opf (metadata : gmap string string) (base_dir : string)
    (kdp_mode : bool) (book_uuid : string) : prog string :=
  fun w =>
    let book_id := if PyStr.truthy book_uuid then book_uuid else uuid4 w in
    let exists_ p := Store.is_file (files w) p || Store.is_dir (files w) p in
    let xhtml_files := Complete.sorted_glob (base_dir +:+ "/OEBPS/Text") ".xhtml" w in
    let images_dir :=
      if exists_ (base_dir +:+ "/OEBPS/Images") then base_dir +:+ "/OEBPS/Images"
      else base_dir +:+ "/OEBPS/images" in
    let image_files := Store.listdir images_dir (files w) in
    let cover_filename := PyPath.basename (default "" (metadata !! "cover_image")) in
    match manifest_items (exists_ (base_dir +:+ "/OEBPS/cover.xhtml"))
            xhtml_files image_files cover_filename with
    | Some items =>
        Returns (opf_text metadata book_id cover_filename
                   (List.map render_item items) (List.map render_itemref spine_items), w)
    | None => Raises "the id loop does not end" w
    end.

Definition create_toc_ncx (metadata : gmap string string) (base_dir book_uuid : string)
  : prog unit :=
  fun w =>
    let title := default "Untitled" (metadata !! "title") in
    let book_uuid := if PyStr.truthy book_uuid then book_uuid else uuid4 w in
    let toc_ncx :=
      join newline
        [ Complete.q "<?xml version='1.0' encoding='UTF-8'?>";
          Complete.q "<ncx xmlns='http://www.daisy.org/z3986/2005/ncx/' version='2005-1'>";
          "    <head>";
          Complete.q "        <meta name='dtb:uid' content='" +:+ book_uuid +:+ dquote +:+ "/>";
          Complete.q "        <meta name='dtb:depth' content='1'/>";
          Complete.q "        <meta name='dtb:totalPageCount' content='0'/>";
          Complete.q "        <meta name='dtb:maxPageNumber' content='0'/>";
          "    </head>";
          "    <docTitle>";
          "        <text>" +:+ title +:+ "</text>";
          "    </docTitle>";
          "    <navMap>";
          Complete.q "        <navPoint id='navpoint-1' playOrder='1'>";
          "            <navLabel>";
          "                <text>Table of Contents</text>";
          "            </navLabel>";
          Complete.q "            <content src='Text/toc.xhtml'/>";
          "        </navPoint>";
          "    </navMap>";
          "</ncx>" ] in
    write_file (base_dir +:+ "/OEBPS/toc.ncx") toc_ncx w.

(** [os.path.relpath(file_path, base_dir)] for a file of the walk. *)
Definition arc_path (base_dir file_path : string) : string :=
  default file_path (Store.relative_to base_dir file_path).

Definition create_epub_file (base_dir output_filename : string) : prog unit :=
  e ← path_exists output_filename;
  (if e : bool then remove_file output_filename else mret tt) ;;
  Complete.zip_open output_filename ;;
  Complete.zip_write output_filename (base_dir +:+ "/mimetype") "mimetype" ZIP_STORED ;;
  Complete.zip_write output_filename (base_dir +:+ "/META-INF/container.xml")
    "META-INF/container.xml" ZIP_DEFLATED ;;
  oebps ← walk_files (base_dir +:+ "/OEBPS");
  for_each oebps
    (fun file_path =>
       Complete.zip_write output_filename file_path (arc_path base_dir file_path)
         ZIP_DEFLATED) ;;
  file_list ← Complete.zip_read output_filename;
  match namelist lib file_list with
  | [] => raise "IndexError"
  | first :: _ =>
      (if String.eqb first "mimetype" then print MimetypeIsFirst
       else print (WarningMimetypeNotFirst first)) ;;
      print (EpubCreated output_filename)
  end.

(** The call of [subprocess.run] in [run_epubcheck]. *)
Definition subprocess_run (epub_file : string) : prog completed :=
  fun w => Returns (java epub_file w, w).

Definition run_epubcheck (epub_file : string) : prog bool :=
  e ← path_exists EPUBCCHECK_PATH;
  if e : bool then
    print (Line ("Running EPUBCheck on " +:+ epub_file +:+ "...")) ;;
    result ← subprocess_run epub_file;
    match result with
    | Completed returncode out err =>
        if Z.eqb returncode 0 then
          print (Line "EPUBCheck passed! No errors found.") ;; mret true
        else
          print (Line "EPUBCheck found issues:") ;;
          print (Line out) ;;
          (if PyStr.truthy err then print (Line err) else mret tt) ;;
          mret false
    | TimeoutExpired => print (Line "EPUBCheck timed out") ;; mret false
    | OtherException e => print (Line ("Error running EPUBCheck: " +:+ e)) ;; mret false
    end
  else print EpubcheckSkipped ;; mret true.

Definition create_epub_version (metadata : gmap string string) (version_name : string)
    (kdp_mode : bool) : prog (string * bool) :=
  print (Line ("Creating " +:+ version_name +:+ " EPUB ("
               +:+ (if kdp_mode then "KDP mode" else "Standard mode") +:+ ")...")) ;;
  let base_dir := "epub_" +:+ PyStr.lower version_name in
  ensure_directory_structure base_dir ;;
  copy_styles_file base_dir kdp_mode ;;
  convert_all base_dir kdp_mode ;;
  print (Line "Copying images...") ;;
  let images_dir := base_dir +:+ "/OEBPS/Images" in
  copied_count ← copy_images "." images_dir;
  print (CopiedImages copied_count) ;;
  copy_cover metadata images_dir ;;
  create_cover_page metadata base_dir ;;
  book_uuid ← str_uuid4;
  print (Line "Creating content.opf...") ;;
  content_opf ← create_content_opf metadata base_dir kdp_mode book_uuid;
  write_file (base_dir +:+ "/OEBPS/content.opf") content_opf ;;
  create_toc_ncx metadata base_dir book_uuid ;;
  print (Line "Creating EPUB file...") ;;
  let title_safe := PyStr.replace " " "_" (default "Book" (metadata !! "title")) in
  let output_filename := title_safe +:+ "_" +:+ version_name +:+ ".epub" in
  create_epub_file base_dir output_filename ;;
  print (Line (version_name +:+ " EPUB creation complete!")) ;;
  epubcheck_passed ← run_epubcheck output_filename;
  mret (output_filename, epubcheck_passed).

Definition main : prog bool :=
  metadata ← load_metadata;
  match metadata with
  | Some md =>
      if decide (md = ∅) then
        print (Line "Failed to load metadata. Exiting.") ;; mret false
      else
        print (Line ("Title: " +:+ default "Unknown" (md !! "title"))) ;;
        print (Line ("Author: " +:+ default "Unknown" (md !! "author"))) ;;
        print (Line ("Year: " +:+ default "Unknown" (md !! "publication_date"))) ;;
        '(gumroad_file, gumroad_check) ← create_epub_version md "Gumroad" false;
        '(kdp_file, kdp_check) ← create_epub_version md "KDP" true;
        print (Line "EPUB CREATION COMPLETE!") ;;
        print (Line (gumroad_file +:+ " (for Gumroad)")) ;;
        print (Line (kdp_file +:+ " (for Amazon KDP)")) ;;
        print (Line (gumroad_file +:+ ": " +:+ (if gumroad_check then "Passed" else "Failed"))) ;;
        print (Line (kdp_file +:+ ": " +:+ (if kdp_check then "Passed" else "Failed"))) ;;
        mret (gumroad_check && kdp_check)
  | None => print (Line "Failed to load metadata. Exiting.") ;; mret false
  end.

End Program.
End Both.

(** ** [check_metadata.py] *)

Module CheckMetadata.

(** What the script sees of the disk: the persisted record
    ([None]: no [book_metadata.json]; [Some None]: a file that does not
    parse), whether [metadata.txt] exists, and the size in bytes of every
    existing path. *)
Record disk : Type := Disk {
  json_record : option (option (gmap string string));
  txt_exists : bool;
  sizes : gmap string N
}.

Definition required_fields : list (string * string) :=
  [ ("title", "Book Title");
    ("author", "Author Name");
    ("publisher", "Publisher Name");
    ("publication_date", "Publication Year");
    ("cover_image", "Cover Image Path") ].

Definition optional_fields : list (string * string) :=
  [ ("subtitle", "Book Subtitle");
    ("tags", "Keywords/Tags (comma-separated)");
    ("description", "Book Description");
    ("language", "Language (default: en)");
    ("isbn", "ISBN Number") ].

(** [field not in metadata or not metadata[field]] *)
Definition is_missing (metadata : gmap string string) (field : string) : bool :=
  match metadata !! field with
  | Some v => negb (PyStr.truthy v)
  | None => true
  end.

Definition check_required_metadata (metadata : gmap string string)
  : list (string * string) :=
  List.filter (fun fd => is_missing metadata (fst fd)) required_fields.

(** The [while True] loop around [input] for one required field: the
    value, the lines not yet read and the lines shown.  At the end of the
    input [input] raises [EOFError]. *)
Fixpoint ask_required (description : string) (stdin : list string) (shown : list message)
  : option (string * list string * list message) :=
  match stdin with
  | [] => None
  | line :: rest =>
      let shown := shown ++ [Prompt (description +:+ ": ")] in
      let value := PyStr.strip line in
      if PyStr.truthy value then Some (value, rest, shown)
      else ask_required description rest
             (shown ++ [Line "This field is required. Please provide a value."])
  end.

Fixpoint ask_all_required (missing_fields : list (string * string))
    (metadata : gmap string string) (stdin : list string) (shown : list message)
  : option (gmap string string * list string * list message) :=
  match missing_fields with
  | [] => Some (metadata, stdin, shown)
  | (field, description) :: rest =>
      '(value, stdin, shown) ← ask_required description stdin shown;
      ask_all_required rest (<[field := value]> metadata) stdin shown
  end.

Fixpoint ask_optional (fields : list (string * string))
    (metadata : gmap string string) (stdin : list string) (shown : list message)
  : option (gmap string string * list string * list message) :=
  match fields with
  | [] => Some (metadata, stdin, shown)
  | (field, description) :: rest =>
      match stdin with
      | [] => None
      | line :: stdin =>
          let shown := shown ++ [Prompt (description +:+ ": ")] in
          let value := PyStr.strip line in
          let metadata :=
            if PyStr.truthy value then <[field := value]> metadata
            else if String.eqb field "language" then <[field := "en"]> metadata
            else metadata in
          ask_optional rest metadata stdin shown
      end
  end.

Definition prompt_for_missing_metadata (missing_fields : list (string * string))
    (stdin : list string) (shown : list message)
  : option (gmap string string * list string * list message) :=
  let shown := shown ++ [Line "MISSING METADATA DETECTED";
                         Line "Please provide the following information:"] in
  '(metadata, stdin, shown) ← ask_all_required missing_fields ∅ stdin shown;
  ask_optional optional_fields metadata stdin
    (shown ++ [Line "Optional fields (press Enter to skip):"]).

(** The verdicts of [check_cover_image]; the message of each is built
    from its argument. *)
Inductive cover_verdict : Type :=
| NoPathProvided                       (* "No cover image path provided" *)
| CoverNotFound (cover_path : string)  (* "Cover image not found: ..." *)
| CoverTooLarge (file_size : N)        (* "Cover image too large: ...MB (max 5MB)" *)
| FormatNotSupported (ext : string)    (* "Cover image format not supported: ..." *)
| CoverOK.                             (* "Cover image OK" *)

Definition check_cover_image (sizes : gmap string N) (cover_path : string)
  : bool * cover_verdict :=
  if negb (PyStr.truthy cover_path) then (false, NoPathProvided)
  else
    match sizes !! cover_path with
    | None => (false, CoverNotFound cover_path)
    | Some file_size =>
        if (5 * 1024 * 1024 <? file_size)%N then (false, CoverTooLarge file_size)
        else
          let ext := PyStr.lower (PyPath.suffix cover_path) in
          if negb (String.eqb ext ".jpg" || String.eqb ext ".jpeg" || String.eqb ext ".png")
          then (false, FormatNotSupported ext)
          else (true, CoverOK)
    end.

Inductive report : Type :=
| Shown (m : message)
| CoverReport (v : cover_verdict).

(** [main]: the exit status, the disk afterwards and what was shown;
    [None] when [input] meets the end of the input. *)
Definition main (d : disk) (stdin : list string)
  : option (bool * disk * list report) :=
  let shown := [Line "Checking EPUB metadata..."] in
  let loaded : list message + gmap string string * list message :=
    match json_record d with
    | Some r =>
        let shown := shown ++ [Line "Found metadata file: book_metadata.json"] in
        match r with
        | Some metadata =>
            if decide (metadata = ∅) then inl shown else inr (metadata, shown)
        | None => inl (shown ++ [Line "Error loading book_metadata.json"])
        end
    | None =>
        if txt_exists d
        then inl (shown ++ [Line "Found metadata file: metadata.txt";
                            Line "Only JSON metadata files are supported"])
        else inr (∅, shown ++ [Line "No metadata file found"])
    end in
  match loaded with
  | inl shown => Some (false, d, Shown <$> shown)
  | inr (metadata, shown) =>
      let missing_fields := check_required_metadata metadata in
      '(metadata, d, shown) ←
        (match missing_fields with
         | [] => Some (metadata, d, shown)
         | _ =>
             '(new_metadata, _, shown) ←
               prompt_for_missing_metadata missing_fields stdin
                 (shown ++ [Line "Missing required fields"]);
             let metadata := new_metadata ∪ metadata in
             Some (metadata, Disk (Some (Some metadata)) (txt_exists d) (sizes d),
                   shown ++ [Line "Metadata saved to book_metadata.json"])
         end);
      match metadata !! "cover_image" with
      | Some cover_path =>
          let '(cover_ok, cover_msg) := check_cover_image (sizes d) cover_path in
          if cover_ok
          then Some (true, d, (Shown <$> shown) ++ [CoverReport cover_msg]
                              ++ [Shown (Line "All metadata requirements met!")])
          else Some (false, d, (Shown <$> shown) ++ [CoverReport cover_msg])
      | None => Some (true, d, (Shown <$> shown)
                               ++ [Shown (Line "All metadata requirements met!")])
      end
  end.

End CheckMetadata.

(** * Predicates, reference definitions and sample inputs *)

(** ** Links *)

Module LinkDefs.
Import PyStr.

(** A body with an internal and an external link. *)
Definition external_link : Bs4.node :=
  Bs4.Tag "body" []
    [ Bs4.Tag "a" [("href", "chapter2.html")] [Bs4.NavigableString "next"];
      Bs4.Tag "a" [("href", "https://example.com/page.html")]
        [Bs4.NavigableString "site"] ].

End LinkDefs.

(** ** The cover image *)

Module CoverDefs.
Import CheckMetadata.

Definition MiB : N := 1024 * 1024.

(** The extensions of an accepted cover image. *)
Definition accepted (ext : string) : Prop :=
  ext = ".jpg" \/ ext = ".jpeg" \/ ext = ".png".

End CoverDefs.

(** ** The resolver of missing fields *)

Module ResolverDefs.
Import CheckMetadata.

(** The prompts among the lines shown, in order. *)
Fixpoint prompts (out : list report) : list string :=
  match out with
  | [] => []
  | Shown (Prompt text) :: out' => text :: prompts out'
  | _ :: out' => prompts out'
  end.



(** A persisted record that lacks the publisher, and a disk with it and
    with its cover image of 2 MiB. *)
Definition incomplete : gmap string string :=
  {[ "title" := "Escape The Hell Myth"; "author" := "A. Boff";
     "publication_date" := "2025"; "cover_image" := "cover.png" ]}.

Definition incomplete_disk : disk :=
  Disk (Some (Some incomplete)) false {[ "cover.png" := (2 * 1024 * 1024)%N ]}.

End ResolverDefs.

(** ** The archive *)

Module ArchiveDefs.
Import Complete.

(** The entry [epub.write(file_path, arc_path)] adds for a file. *)
Definition deflated (fs : list (string * string)) (file_path : string) : zip_entry :=
  ZipEntry (arc_path file_path) ZIP_DEFLATED (default "" (Store.lookup file_path fs)).

(** The entries [create_epub_file] writes for a build tree. *)
Definition written_entries (fs : list (string * string)) (mimetype : string)
  : list zip_entry :=
  ZipEntry "mimetype" ZIP_STORED mimetype
  :: List.map (deflated fs)
       (Store.walk_files "epub_build/META-INF" fs ++ Store.walk_files "epub_build/OEBPS" fs).

(** The state in which the archive is opened: the line is printed and an
    older file of the same name is gone. *)
Definition opening (output_name : string) (w : world) : world :=
  if Store.is_file (files w) output_name || Store.is_dir (files w) output_name
     || existsb (fun a => String.eqb (fst a) output_name) (archives w)
  then World (Store.remove output_name (files w)) (Store.remove output_name (archives w))
             (stdout w ++ [CreatingEpub output_name])
  else World (files w) (archives w) (stdout w ++ [CreatingEpub output_name]).

(** The state [w] with the archive [output_name] made of [entries]. *)
Definition with_archive (output_name : string) (entries : list zip_entry) (w : world)
  : world :=
  World (files w) (Store.remove output_name (archives w) ++ [(output_name, entries)])
        (stdout w).

(** [keeps P m]: when [m] returns from a state with [P], the state it
    returns has [P]. *)
Definition keeps {A : Type} (P : world -> Prop) (m : prog A) : Prop :=
  forall w a w', P w -> m w = Returns (a, w') -> P w'.

(** [untouched q c w]: the store of [w] has [c] at the path [q]. *)
Definition untouched (q : string) (c : option string) (w : world) : Prop :=
  Store.lookup q (files w) = c.

(** The mimetype file holds the literal text. *)
Definition mimetype_ready : world -> Prop :=
  untouched "epub_build/mimetype" (Some "application/epub+zip").

End ArchiveDefs.

(** ** The manifest *)

Module ManifestDefs.
Import Complete PyStr.

(** The file [item_id.xhtml] is a plain file name whose stem is
    [item_id]. *)
Definition stem_is_id (item_id : string) : bool :=
  String.eqb (PyPath.stem_of_name (item_id +:+ ".xhtml")) item_id
  && bool_decide (~ mem "/" (item_id +:+ ".xhtml")).

(** [id_ok s]: the id [s] has letters, digits and underscores only. *)
Fixpoint id_ok (s : string) : bool :=
  match s with
  | EmptyString => true
  | String c s' => is_id_char c && id_ok s'
  end.

End ManifestDefs.

(** ** Sample inputs *)

Module Samples.

(** A parsed page with a title and a body. *)
Definition page : Bs4.node :=
  Bs4.Tag "[document]" []
    [ Bs4.Tag "html" []
        [ Bs4.Tag "head" [] [Bs4.Tag "title" [] [Bs4.NavigableString "Contents"]];
          Bs4.Tag "body" [] [Bs4.Tag "p" [] [Bs4.NavigableString "text"]] ] ].

(** A fragment: no [body] tag. *)
Definition fragment : Bs4.node :=
  Bs4.Tag "[document]" [] [Bs4.Tag "p" [] [Bs4.NavigableString "text"]].

(** A reader that lists the entries of an archive last to first. *)
Definition reversed (entries : list zip_entry) : list string :=
  rev (zip_namelist entries).

(** Libraries for the samples: every file parses to [parsed], and a
    reopened archive lists its names as [reader] says. *)
Definition sample_libs (parsed : Bs4.node) (reader : list zip_entry -> list string) : libs :=
  Libs (fun _ => parsed) (fun _ => "<p>text</p>")
       (fun _ => Some {[ "title" := "Escape The Hell Myth" ]})
       (fun _ => "20250101") reader.

(** A project with a cover page, a table of contents, a cover image and
    an image that is called like the table of contents. *)
Definition project : world :=
  World [ ("book_metadata.json", "{}"); ("index.html", "<html/>");
          ("toc.html", "<html/>"); ("cover.jpg", "JPEG"); ("toc.png", "PNG") ]
        [] [].

(** The metadata of [project]. *)
Definition metadata : gmap string string :=
  {[ "title" := "Escape The Hell Myth" ]}.

(** The build tree of [project] in [create_epub_complete.py], before the
    package document is written. *)
Definition build_tree : world :=
  World [ ("epub_build/mimetype", "application/epub+zip");
          ("epub_build/OEBPS/cover.xhtml", "<html/>");
          ("epub_build/OEBPS/Text/toc.xhtml", "<html/>");
          ("epub_build/OEBPS/images/cover.jpg", "JPEG");
          ("epub_build/OEBPS/images/toc.png", "PNG") ]
        [] [].

(** The build tree of [project] in [create_both_epubs.py]: the project
    has no [acknowledgments.html]. *)
Definition both_tree : world :=
  World [ ("epub_gumroad/mimetype", "application/epub+zip");
          ("epub_gumroad/OEBPS/cover.xhtml", "<html/>");
          ("epub_gumroad/OEBPS/Text/toc.xhtml", "<html/>");
          ("epub_gumroad/OEBPS/Images/cover.jpg", "JPEG");
          ("epub_gumroad/OEBPS/Images/toc.png", "PNG") ]
        [] [].

(** The ids of the manifest items and the idrefs of the spine of a
    package document. *)
Definition ids (pkg : option Complete.package) : list string :=
  match pkg with
  | Some p => Complete.item_id <$> Complete.manifest p
  | None => []
  end.

Definition idrefs (pkg : option Complete.package) : list string :=
  match pkg with
  | Some p => Complete.spine p
  | None => []
  end.

End Samples.

(** ** Entities *)

Module EntityDefs.

(** The entity step as the specification words it: every ampersand that
    does not start a reference [&name;], [&#digits;] or [&#xhex;]
    becomes [&amp;], and everything else stays. *)
Fixpoint escape_bare_ampersands (s : string) : string :=
  match s with
  | EmptyString => EmptyString
  | String c s' =>
      if Ascii.eqb c "&" then
        match Both.entity_length s with
        | Some _ => String c (escape_bare_ampersands s')
        | None => "&amp;" +:+ escape_bare_ampersands s'
        end
      else String c (escape_bare_ampersands s')
  end.

Definition escape_entities_spec (text : string) : string :=
  escape_bare_ampersands (PyStr.replace "&nbsp;" "&#160;" text).

(** Every ampersand of [s] starts a reference. *)
Fixpoint ampersands_valid (s : string) : bool :=
  match s with
  | EmptyString => true
  | String c s' =>
      (if Ascii.eqb c "&" then bool_decide (is_Some (Both.entity_length s)) else true)
      && ampersands_valid s'
  end.

(** [is_entity e]: the pattern of the entities matches the whole of [e]. *)
Definition is_entity (e : string) : Prop :=
  Both.entity_length e = Some (String.length e).

(** A text made of references and of characters other than the ampersand. *)
Inductive tokens : string -> Prop :=
| tokens_nil : tokens ""
| tokens_char (c : ascii) (s : string) :
    c <> "&"%char -> tokens s -> tokens (String c s)
| tokens_entity (e s : string) :
    is_entity e -> tokens s -> tokens (e +:+ s).

(** [plain s]: neither an ampersand nor an underscore in [s]. *)
Definition plain (s : string) : Prop :=
  ~ PyStr.mem "&" s /\ ~ PyStr.mem "_" s.

(** [digits s]: decimal digits only. *)
Fixpoint digits (s : string) : bool :=
  match s with
  | EmptyString => true
  | String c s' => Both.is_digit c && digits s'
  end.

(** A text made of characters other than the underscore and of
    placeholders numbered from [i] on. *)
Inductive marked (i : nat) : string -> Prop :=
| marked_nil : marked i ""
| marked_char (c : ascii) (s : string) :
    c <> "_"%char -> marked i s -> marked i (String c s)
| marked_placeholder (k : nat) (s : string) :
    i <= k -> marked i s -> marked i (Both.placeholder k +:+ s).

End EntityDefs.

(** ** The metadata records *)

Module MetadataDefs.

(** [nonblank m]: every value of the record is a non-empty text. *)
Definition nonblank (m : gmap string string) : Prop :=
  forall k v, m !! k = Some v -> PyStr.truthy v = true.


End MetadataDefs.

(** ** Document trees *)

Module TreeDefs.

(** [every P n]: the tag [n] and every tag inside it have [P]. *)
Fixpoint every (P : Bs4.node -> bool) (n : Bs4.node) : bool :=
  match n with
  | Bs4.Tag _ _ cs => P n && forallb (every P) cs
  | _ => true
  end.

(** [every_below P root]: every tag below [root] has [P]; these are the
    tags that [root.find_all(...)] visits. *)
Definition every_below (P : Bs4.node -> bool) (root : Bs4.node) : bool :=
  forallb (every P) (Bs4.contents root).

(** What the removals of the converter of [create_epub_complete.py] look for. *)
Definition removed (n : Bs4.node) : bool :=
  Bs4.is_named ["nav"; "header"; "footer"] n
  || Bs4.has_class ["navigation-buttons"; "nav-button"; "enter-button"] n
  || Complete.is_stylesheet_link n
  || Bs4.is_named ["script"] n
  || Bs4.is_named ["style"] n.

(** An [a] tag whose [href] ends in [.html]. *)
Definition html_link (n : Bs4.node) : bool :=
  match n with
  | Bs4.Tag nm a _ => String.eqb nm "a" && PyStr.endswith (Bs4.get "href" a) ".html"
  | _ => false
  end.

(** An [img] tag is settled when its [src] is empty or is the path of
    its own sanitized file name in the images directory, and then the
    tag has an [alt]. *)
Definition image_settled (is_cover : bool) (n : Bs4.node) : bool :=
  match n with
  | Bs4.Tag nm a _ =>
      if String.eqb nm "img" && PyStr.truthy (Bs4.get "src" a) then
        String.eqb (Bs4.get "src" a)
          ((if is_cover then "images/" else "../images/")
           +:+ sanitize_filename (PyPath.basename (Bs4.get "src" a)))
        && Bs4.has_attr "alt" a
      else true
  | _ => true
  end.

End TreeDefs.

(** ** What a run leaves alone *)

Module FrameDefs.

(** [frames P m]: from a state with [P], the state in which [m] returns
    or raises has [P]. *)
Definition frames {A : Type} (P : world -> Prop) (m : prog A) : Prop :=
  forall w, P w ->
    match m w with
    | Returns (_, w') => P w'
    | Raises _ w' => P w'
    end.

(** The state in which a program ends, by return or by exception. *)
Definition final {A : Type} (o : outcome (A * world)) : world :=
  match o with
  | Returns (_, w') => w'
  | Raises _ w' => w'
  end.

(** The archives that [main] of [create_epub_complete.py] writes. *)
Definition GUMROAD : string := "Escape_The_Hell_Myth_Gumroad.epub".
Definition KDP : string := "Escape_The_Hell_Myth_KDP.epub".

End FrameDefs.

(** ** The files of the build tree *)

Module StepDefs.

(** The file that [convert_all_html_files] writes for a source file. *)
Definition output_file (html_file : string) : string :=
  if String.eqb html_file "index.html" then "epub_build/OEBPS/cover.xhtml"
  else "epub_build/OEBPS/Text/" +:+ PyStr.replace ".html" ".xhtml" html_file.

(** The file that [copy_images] writes for an image called [name]. *)
Definition image_file (name : string) : string :=
  "epub_build/OEBPS/images/" +:+ name.

End StepDefs.

(** ** The build of [create_both_epubs.py]: names and samples *)

Module BothDefs.

(** The build directory and the archive of a version, as
    [create_epub_version] names them. *)
Definition base_dir (version_name : string) : string :=
  "epub_" +:+ PyStr.lower version_name.

Definition output_filename (metadata : gmap string string) (version_name : string)
  : string :=
  PyStr.replace " " "_" (default "Book" (metadata !! "title"))
  +:+ "_" +:+ version_name +:+ ".epub".

(** The entry of the archive for a file of the walk. *)
Definition walked (base : string) (fs : list (string * string)) (file_path : string)
  : zip_entry :=
  ZipEntry (Both.arc_path base file_path) ZIP_DEFLATED
    (default "" (Store.lookup file_path fs)).

(** The entries [create_epub_file] writes for the build tree [base]. *)
Definition written (base : string) (fs : list (string * string))
    (mimetype container : string) : list zip_entry :=
  ZipEntry "mimetype" ZIP_STORED mimetype
  :: ZipEntry "META-INF/container.xml" ZIP_DEFLATED container
  :: List.map (walked base fs) (Store.walk_files (base +:+ "/OEBPS") fs).

(** The checker is not installed: nothing is called like its jar. *)
Definition no_checker (w : world) : Prop :=
  path_exists Both.EPUBCCHECK_PATH w = Returns (false, w).

(** Sample inputs: a converter template, a uuid, a checker that
    passes, and the project of [Samples] with what an earlier build has
    left in [epub_gumroad]. *)
Definition assembled (html_file_path : string) (kdp_mode : bool) (soup body : Bs4.node)
  : string :=
  "<html><body><p>R&amp;D</p></body></html>".

Definition sample_uuid (w : world) : string := "123e4567-e89b-12d3-a456-426614174000".

Definition checker_passes (epub_file : string) (w : world) : Both.completed :=
  Both.Completed 0 "" "".

Definition sample_libs : libs := Samples.sample_libs Samples.page zip_namelist.

Definition stale_project : world :=
  World (files Samples.project
         ++ [ ("epub_gumroad/mimetype", "stale");
              ("epub_gumroad/OEBPS/Text/old.xhtml", "<html/>") ])
        [] [].

End BothDefs.

(** * Properties *)

(** ** Strings *)

Module PyStrFacts.
Import PyStr.

Lemma append_cons (c : ascii) (s t : string) :
  String c s +:+ t = String c (s +:+ t).
Proof. done. Qed.

Lemma append_nil_l (s : string) : "" +:+ s = s.
Proof. done. Qed.

Lemma append_nil_r (s : string) : s +:+ "" = s.
Proof. induction s as [|c s IH]; [done|]. by rewrite append_cons, IH. Qed.

Lemma append_assoc (s t u : string) : (s +:+ t) +:+ u = s +:+ t +:+ u.
Proof. induction s as [|c s IH]; [done|]. by rewrite !append_cons, IH. Qed.

Lemma mem_append (c : ascii) (s t : string) : mem c (s +:+ t) <-> mem c s \/ mem c t.
Proof.
  induction s as [|d s IH]; [rewrite append_nil_l; cbn; tauto|].
  rewrite append_cons. cbn. rewrite IH. tauto.
Qed.

Lemma prefix_cons (a c : ascii) (p s : string) :
  String.prefix (String a p) (String c s) = bool_decide (a = c) && String.prefix p s.
Proof.
  cbn [String.prefix]. destruct (ascii_dec a c) as [->|Hne].
  - by rewrite bool_decide_eq_true_2.
  - by rewrite bool_decide_eq_false_2.
Qed.

Lemma prefix_char (a c : ascii) (s : string) :
  String.prefix (String a "") (String c s) = bool_decide (a = c).
Proof.
  cbn. destruct (ascii_dec a c) as [->|Hne].
  - rewrite bool_decide_eq_true_2; [|done]. by destruct s.
  - by rewrite bool_decide_eq_false_2.
Qed.

(** Replacing a one-character pattern works character by character. *)
Lemma replace_char_cons (a c : ascii) (new s : string) :
  replace (String a "") new (String c s)
  = if bool_decide (a = c) then new +:+ replace (String a "") new s
    else String c (replace (String a "") new s).
Proof.
  unfold replace. cbn -[String.prefix]. rewrite prefix_char.
  by destruct (bool_decide (a = c)).
Qed.

Lemma replace_char_nil (a : ascii) (new : string) :
  replace (String a "") new "" = "".
Proof. done. Qed.

Lemma replace_char_absent (a : ascii) (new s : string) :
  ~ mem a s -> replace (String a "") new s = s.
Proof.
  induction s as [|c s IH]; [done|]. intros Hn. rewrite replace_char_cons.
  cbn in Hn. rewrite bool_decide_eq_false_2; [|tauto]. rewrite IH; tauto.
Qed.

Lemma mem_replace_char (a c : ascii) (new s : string) :
  mem c (replace (String a "") new s) -> (mem c s /\ c <> a) \/ mem c new.
Proof.
  induction s as [|d s IH]; [done|]. rewrite replace_char_cons.
  destruct (bool_decide_reflect (a = d)) as [->|Hne].
  - rewrite mem_append. cbn. intros [H|H]; [tauto|]. destruct (IH H); tauto.
  - cbn. intros [->|H]; [left; split; [tauto|congruence]|].
    destruct (IH H); tauto.
Qed.

End PyStrFacts.

(** ** [sanitize_filename] *)

Section Sanitize.
Import PyStr PyStrFacts.

Lemma sanitize_filename_clean (s : string) (c : ascii) :
  mem c (sanitize_filename s) -> c <> " "%char /\ c <> "("%char /\ c <> ")"%char.
Proof.
  unfold sanitize_filename. intros H.
  apply mem_replace_char in H as [[H Hc3]|[]].
  apply mem_replace_char in H as [[H Hc2]|[]].
  apply mem_replace_char in H as [[H Hc1]|H]; [done|].
  cbn in H. destruct H as [->|[]]. done.
Qed.

(** C10.  Sanitizing a file name twice gives what sanitizing it once
    gives, and a sanitized name holds no space and no parenthesis. *)
Theorem sanitize_filename_idempotent (s : string) :
  sanitize_filename (sanitize_filename s) = sanitize_filename s
  /\ ~ mem " " (sanitize_filename s)
  /\ ~ mem "(" (sanitize_filename s)
  /\ ~ mem ")" (sanitize_filename s).
Proof.
  assert (Hclean : forall c, mem c (sanitize_filename s) ->
                   c <> " "%char /\ c <> "("%char /\ c <> ")"%char)
    by apply sanitize_filename_clean.
  assert (H1 : ~ mem " " (sanitize_filename s)) by (intros H; apply Hclean in H; tauto).
  assert (H2 : ~ mem "(" (sanitize_filename s)) by (intros H; apply Hclean in H; tauto).
  assert (H3 : ~ mem ")" (sanitize_filename s)) by (intros H; apply Hclean in H; tauto).
  split; [|done].
  unfold sanitize_filename at 1.
  rewrite (replace_char_absent " " "-" _ H1).
  rewrite (replace_char_absent "(" "" _ H2).
  by rewrite (replace_char_absent ")" "" _ H3).
Qed.

End Sanitize.

(** ** Links *)

Module LinkFacts.
Import PyStr PyStrFacts LinkDefs.

Lemma endswith_split (s p : string) :
  endswith s p = true -> exists t, s = t +:+ p.
Proof.
  induction s as [|c s IH]; cbn [endswith].
  - intros H%String.eqb_eq. subst p. by exists "".
  - intros [H%String.eqb_eq|H]%orb_true_iff.
    + subst p. by exists "".
    + destruct (IH H) as [t ->]. by exists (String c t).
Qed.

Lemma endswith_append (t p : string) : endswith (t +:+ p) p = true.
Proof.
  induction t as [|c t IH].
  - rewrite append_nil_l. destruct p; cbn [endswith]; [done|].
    by rewrite String.eqb_refl.
  - rewrite append_cons. cbn [endswith]. rewrite IH. apply orb_true_r.
Qed.

Lemma endswith_append_l (t s p : string) :
  endswith s p = true -> endswith (t +:+ s) p = true.
Proof.
  intros [u ->]%endswith_split. rewrite <- append_assoc. apply endswith_append.
Qed.

Lemma endswith_cons (c : ascii) (s p : string) :
  endswith s p = true -> endswith (String c s) p = true.
Proof. intros H. cbn [endswith]. rewrite H. apply orb_true_r. Qed.

(** An occurrence of [.html] that starts before a final [.html] ends
    before it: the two cannot overlap. *)
Lemma html_no_overlap (c : ascii) (t : string) :
  String.prefix ".html" (String c (t +:+ ".html")) = true ->
  4 <= String.length t.
Proof.
  intros H.
  destruct t as [|c1 [|c2 [|c3 [|c4 t]]]]; [| | | |cbn; lia];
    exfalso; rewrite ?append_cons, ?append_nil_l in H;
    repeat (rewrite prefix_cons in H;
            apply andb_true_iff in H as [?%bool_decide_eq_true H]);
    simplify_eq.
Qed.

Lemma replace_go_html_end (t : string) : forall skip,
  skip <= String.length t ->
  endswith (replace_go ".html" ".xhtml" skip (t +:+ ".html")) ".xhtml" = true.
Proof.
  induction t as [|c t IH]; intros skip Hskip.
  - cbn in Hskip. assert (skip = 0) as -> by lia. reflexivity.
  - rewrite append_cons. destruct skip as [|k].
    + cbn [replace_go].
      destruct (String.prefix ".html" (String c (t +:+ ".html"))) eqn:Hp.
      * apply html_no_overlap in Hp.
        apply endswith_append_l, IH. cbn. lia.
      * apply endswith_cons, IH. lia.
    + cbn [replace_go]. apply IH. cbn in Hskip. lia.
Qed.

(** [href.replace('.html', '.xhtml')] of an [href] that ends in [.html]
    ends in [.xhtml]. *)
Lemma replace_html_end (href : string) :
  endswith href ".html" = true ->
  endswith (replace ".html" ".xhtml" href) ".xhtml" = true.
Proof.
  intros [t ->]%endswith_split. apply replace_go_html_end. lia.
Qed.

(** In [create_epub_complete.py] every [href] that ends in [.html] is
    given the ending [.xhtml], whatever it starts with. *)
Lemma complete_fix_href_end (is_cover : bool) (href : string) :
  endswith href ".html" = true ->
  endswith (Complete.fix_href is_cover href) ".xhtml" = true.
Proof.
  intros H. unfold Complete.fix_href. rewrite H.
  destruct href as [|c href]; [done|]. cbn [truthy andb].
  destruct (String.eqb _ "index.xhtml"); [by destruct is_cover|].
  by apply replace_html_end.
Qed.

(** In [create_both_epubs.py] an [href] that starts with [http] is left
    as it is, and any other [href] that ends in [.html] is given the
    ending [.xhtml]. *)
Lemma both_fix_href_external (href : string) :
  startswith href "http" = true -> Both.fix_href href = href.
Proof. intros H. unfold Both.fix_href. rewrite H. by rewrite andb_false_r. Qed.

Lemma both_fix_href_internal (href : string) :
  endswith href ".html" = true -> startswith href "http" = false ->
  endswith (Both.fix_href href) ".xhtml" = true.
Proof.
  intros H1 H2. unfold Both.fix_href. rewrite H1, H2. by apply replace_html_end.
Qed.

(** C4.  In [create_epub_complete.py] the link pass gives the external
    link [https://example.com/page.html] the ending [.xhtml] as it does
    for the internal link [chapter2.html]; the pass of
    [create_both_epubs.py] leaves the external link as it is. *)
Theorem complete_rewrites_external_link :
  Complete.clean_body false external_link
  = Bs4.Tag "body" []
      [ Bs4.Tag "a" [("href", "chapter2.xhtml")] [Bs4.NavigableString "next"];
        Bs4.Tag "a" [("href", "https://example.com/page.xhtml")]
          [Bs4.NavigableString "site"] ]
  /\ Bs4.update_all Both.fix_link external_link
     = Bs4.Tag "body" []
         [ Bs4.Tag "a" [("href", "chapter2.xhtml")] [Bs4.NavigableString "next"];
           Bs4.Tag "a" [("href", "https://example.com/page.html")]
             [Bs4.NavigableString "site"] ].
Proof. split; vm_compute; reflexivity. Qed.

End LinkFacts.

(** ** Cover validation *)

Module CoverFacts.
Import CheckMetadata CoverDefs.

Lemma accepted_eqb (ext : string) :
  String.eqb ext ".jpg" || String.eqb ext ".jpeg" || String.eqb ext ".png" = true
  <-> accepted ext.
Proof.
  unfold accepted. rewrite !orb_true_iff, !String.eqb_eq. tauto.
Qed.

(** C6.  Cover validation fails exactly when the path is empty, nothing
    exists at the path, the file is larger than 5 MiB, or the extension,
    case ignored, is none of jpg, jpeg and png; a file of 6 MiB fails as
    too large, and a PNG of 2 MiB passes. *)
Theorem check_cover_image_fails_exactly :
  (forall (sizes : gmap string N) (cover_path : string),
     fst (check_cover_image sizes cover_path) = false
     <-> cover_path = ""
         \/ sizes !! cover_path = None
         \/ (exists file_size, sizes !! cover_path = Some file_size
                               /\ (5 * MiB < file_size)%N)
         \/ ~ accepted (PyStr.lower (PyPath.suffix cover_path)))
  /\ (forall (sizes : gmap string N) (cover_path : string),
        cover_path <> "" -> sizes !! cover_path = Some (6 * MiB)%N ->
        check_cover_image sizes cover_path = (false, CoverTooLarge (6 * MiB)))
  /\ (forall (sizes : gmap string N) (cover_path : string),
        sizes !! cover_path = Some (2 * MiB)%N ->
        PyStr.lower (PyPath.suffix cover_path) = ".png" ->
        check_cover_image sizes cover_path = (true, CoverOK)).
Proof.
  split; [|split].
  - intros sizes cover_path. unfold check_cover_image.
    destruct cover_path as [|c p]; cbn [PyStr.truthy negb]; [cbn; tauto|].
    destruct (sizes !! String c p) as [file_size|] eqn:Hsize; [|cbn; tauto].
    destruct (N.ltb_spec (5 * 1024 * 1024) file_size) as [Hlt|Hle].
    { cbn. split; [|done]. intros _. right; right; left. by exists file_size. }
    destruct (String.eqb _ ".jpg" || String.eqb _ ".jpeg" || String.eqb _ ".png")
      eqn:Hext; cbn [negb fst].
    + apply accepted_eqb in Hext. split; [done|].
      intros [?|[?|[(n & Hn & Hlt)|Hacc]]]; [done|done| |done].
      injection Hn as ->. unfold MiB in Hlt. lia.
    + split; [|done]. intros _. right; right; right.
      intros Hacc%accepted_eqb. congruence.
  - intros sizes cover_path Hne Hsize. unfold check_cover_image.
    destruct cover_path; [done|]. cbn [PyStr.truthy negb]. by rewrite Hsize.
  - intros sizes cover_path Hsize Hext. unfold check_cover_image.
    destruct cover_path as [|c p]; [done|]. cbn [PyStr.truthy negb].
    rewrite Hsize, Hext. done.
Qed.

Lemma check_cover_image_witness :
  check_cover_image {[ "art/cover.jpg" := (6 * MiB)%N ]} "art/cover.jpg"
    = (false, CoverTooLarge (6 * MiB))
  /\ check_cover_image {[ "art/Cover.PNG" := (2 * MiB)%N ]} "art/Cover.PNG"
     = (true, CoverOK).
Proof.
  split.
  - apply (proj1 (proj2 check_cover_image_fails_exactly)); [done|reflexivity].
  - apply (proj2 (proj2 check_cover_image_fails_exactly)); reflexivity.
Defined.

End CoverFacts.

(** ** The metadata resolver *)

Module ResolverFacts.
Import CheckMetadata ResolverDefs.









End ResolverFacts.

(** ** The archive *)

Module ArchiveFacts.
Import Complete ArchiveDefs.

Lemma bind_unfold {A B : Type} (m : prog A) (k : A -> prog B) (w : world) :
  (m ≫= k) w = match m w with
               | Returns (a, w') => k a w'
               | Raises e w' => Raises e w'
               end.
Proof. reflexivity. Qed.

Lemma lookup_archive_remove {A : Type} (p : string) (l : list (string * A)) :
  Store.lookup_archive p (Store.remove p l) = None.
Proof.
  induction l as [|[q c] l IH]; [done|]. cbn.
  destruct (String.eqb q p) eqn:E; cbn; [done|]. by rewrite E.
Qed.

Lemma lookup_archive_app_None {A : Type} (p : string) (l1 l2 : list (string * A)) :
  Store.lookup_archive p l1 = None ->
  Store.lookup_archive p (l1 ++ l2) = Store.lookup_archive p l2.
Proof.
  induction l1 as [|[q c] l1 IH]; [done|]. cbn.
  destruct (String.eqb q p); [done|]. apply IH.
Qed.

Lemma lookup_archive_fresh {A : Type} (p : string) (c : A) (l : list (string * A)) :
  Store.lookup_archive p (Store.remove p l ++ [(p, c)]) = Some c.
Proof.
  rewrite lookup_archive_app_None by apply lookup_archive_remove.
  cbn. by rewrite String.eqb_refl.
Qed.

Lemma lookup_with_archive (output_name : string) (entries : list zip_entry) (w : world) :
  Store.lookup_archive output_name (archives (with_archive output_name entries w))
  = Some entries.
Proof. apply lookup_archive_fresh. Qed.

Lemma append_entry_removed (p : string) (e : zip_entry) (l : list (string * list zip_entry)) :
  append_entry p e (Store.remove p l) = Store.remove p l.
Proof.
  induction l as [|[q c] l IH]; [done|]. cbn.
  destruct (String.eqb q p) eqn:E; cbn; [done|]. rewrite E. by rewrite <- IH at 2.
Qed.

Lemma append_entry_app (p : string) (e : zip_entry) (l1 l2 : list (string * list zip_entry)) :
  append_entry p e (l1 ++ l2) = append_entry p e l1 ++ append_entry p e l2.
Proof. apply map_app. Qed.

Lemma zip_append_with_archive (p : string) (e : zip_entry) (es : list zip_entry) (w : world) :
  zip_append p e (with_archive p es w) = Returns (tt, with_archive p (es ++ [e]) w).
Proof.
  unfold zip_append, with_archive. cbn [files archives stdout]. do 3 f_equal.
  rewrite append_entry_app, append_entry_removed. cbn. by rewrite String.eqb_refl.
Qed.

Lemma zip_write_with_archive (p f a : string) (m : compression) (es : list zip_entry)
    (w : world) :
  zip_write p f a m (with_archive p es w)
  = match Store.lookup f (files w) with
    | Some c => Returns (tt, with_archive p (es ++ [ZipEntry a m c]) w)
    | None => Raises "FileNotFoundError" (with_archive p es w)
    end.
Proof.
  unfold zip_write. rewrite bind_unfold. unfold read_file.
  change (files (with_archive p es w)) with (files w).
  destruct (Store.lookup f (files w)); [|done]. apply zip_append_with_archive.
Qed.

Lemma walk_files_with_archive (dir p : string) (es : list zip_entry) (w : world) :
  walk_files dir (with_archive p es w)
  = Returns (Store.walk_files dir (files w), with_archive p es w).
Proof. reflexivity. Qed.

Lemma zip_read_with_archive (p : string) (es : list zip_entry) (w : world) :
  zip_read p (with_archive p es w) = Returns (es, with_archive p es w).
Proof. unfold zip_read. by rewrite lookup_with_archive. Qed.

Lemma lookup_walk_files (dir p : string) (fs : list (string * string)) :
  In p (Store.walk_files dir fs) -> is_Some (Store.lookup p fs).
Proof.
  unfold Store.walk_files. rewrite filter_In. intros [Hin _].
  induction fs as [|[q c] fs IH]; [done|]. cbn in *.
  destruct (String.eqb q p) eqn:E; [by eexists|].
  destruct Hin as [->|Hin]; [by rewrite String.eqb_refl in E|]. by apply IH.
Qed.

Lemma write_walked (p : string) (paths : list string) : forall (es : list zip_entry) (w : world),
  (forall f, In f paths -> is_Some (Store.lookup f (files w))) ->
  for_each paths (fun file_path => zip_write p file_path (arc_path file_path) ZIP_DEFLATED)
    (with_archive p es w)
  = Returns (tt, with_archive p (es ++ List.map (deflated (files w)) paths) w).
Proof.
  induction paths as [|f paths IH]; intros es w Hex.
  - cbn. by rewrite app_nil_r.
  - cbn [for_each List.map]. rewrite bind_unfold, zip_write_with_archive.
    destruct (Hex f (or_introl eq_refl)) as [c Hc]. rewrite Hc.
    rewrite IH by (intros; apply Hex; by right).
    unfold deflated at 2. rewrite Hc. cbn [default].
    by rewrite <- app_assoc.
Qed.

(** What [create_epub_file] does, step by step. *)
Lemma create_epub_file_unfold (lib : libs) (output_name : string)
    (metadata : gmap string string) (w : world) :
  create_epub_file lib output_name metadata w
  = let w1 := opening output_name w in
    match Store.lookup "epub_build/mimetype" (files w1) with
    | None => Raises "FileNotFoundError" (with_archive output_name [] w1)
    | Some mimetype =>
        let entries := written_entries (files w1) mimetype in
        let w2 := with_archive output_name entries w1 in
        match namelist lib entries with
        | [] => Raises "IndexError" w2
        | first :: _ =>
            Returns (output_name,
                     World (files w2) (archives w2)
                       (stdout w2
                        ++ [if String.eqb first "mimetype" then MimetypeIsFirst
                            else WarningMimetypeNotFirst first]
                        ++ [EpubCreated output_name]))
        end
    end.
Proof.
  unfold create_epub_file. rewrite bind_unfold. cbn [print].
  rewrite bind_unfold. cbn [path_exists files archives stdout].
  rewrite bind_unfold.
  set (w1 := opening output_name w).
  assert (Hopen : (if Store.is_file (files w) output_name || Store.is_dir (files w) output_name
                      || existsb (fun a => String.eqb (fst a) output_name) (archives w)
                   then remove_file output_name else mret tt)
                    (World (files w) (archives w) (stdout w ++ [CreatingEpub output_name]))
                  = Returns (tt, w1)).
  { unfold w1, opening. by destruct (_ || _ || _). }
  rewrite Hopen. clear Hopen. rewrite bind_unfold.
  change (zip_open output_name w1) with (Returns (tt, with_archive output_name [] w1)).
  cbv beta iota zeta.
  rewrite bind_unfold, zip_write_with_archive.
  destruct (Store.lookup "epub_build/mimetype" (files w1)) as [mimetype|] eqn:Hm; [|done].
  rewrite bind_unfold, walk_files_with_archive.
  rewrite bind_unfold, write_walked by (intros f Hf; by apply lookup_walk_files in Hf).
  rewrite bind_unfold, walk_files_with_archive.
  rewrite bind_unfold, write_walked by (intros f Hf; by apply lookup_walk_files in Hf).
  rewrite bind_unfold, zip_read_with_archive.
  cbn [app]. rewrite <- map_app.
  fold (written_entries (files w1) mimetype).
  destruct (namelist lib (written_entries (files w1) mimetype)) as [|first names]; [done|].
  rewrite !bind_unfold.
  destruct (String.eqb first "mimetype"); cbn; rewrite bind_unfold; cbn; by rewrite <- app_assoc.
Qed.

Lemma bind_returns {A B : Type} (m : prog A) (k : A -> prog B) (w : world)
    (b : B) (w2 : world) :
  (m ≫= k) w = Returns (b, w2) ->
  exists a w1, m w = Returns (a, w1) /\ k a w1 = Returns (b, w2).
Proof.
  rewrite bind_unfold. destruct (m w) as [[a w1]|]; [|done]. by exists a, w1.
Qed.

Lemma keeps_ret {A : Type} (P : world -> Prop) (a : A) : keeps P (mret a).
Proof. intros w a' w' HP [= _ <-]. done. Qed.

Lemma keeps_raise {A : Type} (P : world -> Prop) (e : string) : keeps P (@raise A e).
Proof. intros w a' w' HP [=]. Qed.

Lemma keeps_bind {A B : Type} (P : world -> Prop) (m : prog A) (k : A -> prog B) :
  keeps P m -> (forall a, keeps P (k a)) -> keeps P (m ≫= k).
Proof.
  intros Hm Hk w b w2 HP (a & w1 & H1 & H2)%bind_returns.
  apply (Hk a w1 b w2); [by apply (Hm w a w1)|done].
Qed.

Lemma keeps_if {A : Type} (P : world -> Prop) (b : bool) (m1 m2 : prog A) :
  keeps P m1 -> keeps P m2 -> keeps P (if b then m1 else m2).
Proof. by destruct b. Qed.

Lemma lookup_write_eq (p c : string) (fs : list (string * string)) :
  Store.lookup p (Store.write p c fs) = Some c.
Proof.
  induction fs as [|[q d] fs IH]; cbn; [by rewrite String.eqb_refl|].
  destruct (String.eqb q p) eqn:E; cbn; by rewrite E.
Qed.

Lemma lookup_write_ne (p q c : string) (fs : list (string * string)) :
  p <> q -> Store.lookup q (Store.write p c fs) = Store.lookup q fs.
Proof.
  intros Hne. induction fs as [|[r d] fs IH]; cbn.
  - by apply String.eqb_neq in Hne as ->.
  - destruct (String.eqb r p) eqn:E; cbn; [|by rewrite IH].
    apply String.eqb_eq in E as ->. by apply String.eqb_neq in Hne as ->.
Qed.

(** A path that is neither below the content directory nor the
    container descriptor keeps what it has during the steps of a build
    that follow [create_mimetype]. *)
Section Steps.
Context (lib : libs) (q : string) (c : option string).
Hypothesis not_content : forall rest, "epub_build/OEBPS/" +:+ rest <> q.
Hypothesis not_container : "epub_build/META-INF/container.xml" <> q.

Lemma keeps_print (m : message) : keeps (untouched q c) (print m).
Proof. intros w a w' HP [= _ <-]. done. Qed.

Lemma keeps_path_exists (p : string) : keeps (untouched q c) (path_exists p).
Proof. intros w a w' HP [= _ <-]. done. Qed.

Lemma keeps_read_file (p : string) : keeps (untouched q c) (read_file p).
Proof.
  intros w a w' HP. unfold read_file. destruct (Store.lookup p (files w)); [|done].
  by intros [= _ <-].
Qed.

Lemma keeps_listdir (p : string) : keeps (untouched q c) (listdir p).
Proof.
  intros w a w' HP. unfold listdir. destruct (Store.is_file (files w) p); [done|].
  by intros [= _ <-].
Qed.

Lemma keeps_write_file (p d : string) :
  p <> q -> keeps (untouched q c) (write_file p d).
Proof.
  intros Hne w a w' HP. unfold write_file. destruct (Store.is_dir (files w) p); [done|].
  intros [= _ <-]. unfold untouched. cbn. by rewrite lookup_write_ne.
Qed.

Lemma keeps_copy2 (src rest : string) :
  keeps (untouched q c) (copy2 src ("epub_build/OEBPS/" +:+ rest)).
Proof.
  apply keeps_bind; [apply keeps_read_file|intros d].
  apply keeps_write_file, not_content.
Qed.

Lemma keeps_convert_html_to_xhtml (html_file : string) (is_kdp is_cover : bool) :
  keeps (untouched q c) (convert_html_to_xhtml lib html_file is_kdp is_cover).
Proof.
  apply keeps_bind; [apply keeps_path_exists|intros e].
  apply keeps_if.
  - apply keeps_bind; [apply keeps_read_file|intros content]. cbv zeta.
    destruct (document_title _); [apply keeps_ret|apply keeps_raise].
  - apply keeps_bind; [apply keeps_print|intros _; apply keeps_ret].
Qed.

Lemma keeps_convert_one (is_kdp : bool) (html_file : string) :
  keeps (untouched q c) (convert_one lib is_kdp html_file).
Proof.
  apply keeps_bind; [apply keeps_path_exists|intros e].
  apply keeps_if.
  - apply keeps_bind; [apply keeps_convert_html_to_xhtml|intros [xhtml|]];
      [|apply keeps_ret].
    apply keeps_if; [|apply keeps_ret].
    apply keeps_bind; [|intros _; apply keeps_bind;
                                  [apply keeps_print|intros _; apply keeps_ret]].
    apply keeps_write_file. destruct (String.eqb html_file "index.html").
    + apply (not_content "cover.xhtml").
    + apply (not_content ("Text/" +:+ _)).
  - apply keeps_bind; [apply keeps_print|intros _; apply keeps_ret].
Qed.

Lemma keeps_convert_files (is_kdp : bool) (l : list string) :
  keeps (untouched q c) (convert_files lib is_kdp l).
Proof.
  induction l as [|f l IH]; [apply keeps_ret|]. cbn [convert_files].
  apply keeps_bind; [apply keeps_convert_one|intros ok].
  apply keeps_bind; [apply IH|intros rest; apply keeps_ret].
Qed.

Lemma keeps_copy_from (src_prefix : string) (l : list string) :
  forall (copied_files : gset string) (copied_count : nat),
    keeps (untouched q c) (copy_from src_prefix l copied_files copied_count).
Proof.
  induction l as [|f l IH]; intros copied_files copied_count; [apply keeps_ret|].
  cbn [copy_from]. apply keeps_if; [|apply IH].
  destruct (decide _); [apply IH|].
  apply keeps_bind; [|intros _; apply IH].
  apply (keeps_copy2 _ ("images/" +:+ _)).
Qed.

Lemma keeps_copy_images : keeps (untouched q c) copy_images.
Proof.
  apply keeps_bind; [apply keeps_print|intros _].
  apply keeps_bind; [apply keeps_listdir|intros root].
  apply keeps_bind; [apply keeps_copy_from|intros [copied_files copied_count]].
  apply keeps_bind; [apply keeps_path_exists|intros e].
  apply keeps_bind.
  - apply keeps_if; [|apply keeps_ret].
    apply keeps_bind; [apply keeps_listdir|intros other]. apply keeps_copy_from.
  - intros [copied_files' copied_count'].
    apply keeps_bind; [apply keeps_print|intros _; apply keeps_ret].
Qed.

Lemma keeps_write_then_print (rest d : string) (m : message) :
  keeps (untouched q c) (write_file ("epub_build/OEBPS/" +:+ rest) d ;; print m).
Proof.
  apply keeps_bind; [apply keeps_write_file, not_content|intros _].
  apply keeps_print.
Qed.

Lemma keeps_create_content_opf (metadata : gmap string string) (is_kdp : bool) :
  keeps (untouched q c) (create_content_opf lib metadata is_kdp).
Proof.
  intros w a w' HP. unfold create_content_opf.
  destruct (manifest_and_spine metadata w) as [[items spine_ids]|]; [|done].
  by apply (keeps_write_then_print "content.opf").
Qed.

Lemma keeps_create_toc_ncx (metadata : gmap string string) :
  keeps (untouched q c) (create_toc_ncx lib metadata).
Proof.
  intros w a w' HP. unfold create_toc_ncx. cbv zeta.
  by apply (keeps_write_then_print "toc.ncx").
Qed.

Lemma keeps_create_nav_xhtml (metadata : gmap string string) :
  keeps (untouched q c) (create_nav_xhtml metadata).
Proof.
  intros w a w' HP. unfold create_nav_xhtml. cbv zeta.
  by apply (keeps_write_then_print "nav.xhtml").
Qed.

Lemma build_steps_return {B : Type} (is_kdp : bool) (container_xml css_content : string)
    (metadata : gmap string string) (k : prog B) (w w' : world) (b : B) :
  untouched q c w ->
  (create_container_xml container_xml ;;
   create_css_file css_content ;;
   convert_all_html_files lib is_kdp ;;
   copy_images ;;
   create_content_opf lib metadata is_kdp ;;
   create_toc_ncx lib metadata ;;
   create_nav_xhtml metadata ;;
   k) w = Returns (b, w') ->
  exists w1, untouched q c w1 /\ k w1 = Returns (b, w').
Proof.
  intros HP H.
  apply bind_returns in H as (? & w1 & H1 & H).
  apply (keeps_bind (untouched q c)) in H1;
    [|by apply keeps_write_file|intros _; apply keeps_print|done].
  apply bind_returns in H as (? & w2 & H2 & H).
  apply (keeps_write_then_print "Styles/style.css") in H2; [|done].
  apply bind_returns in H as (? & w3 & H3 & H).
  apply (keeps_bind (untouched q c)) in H3;
    [|apply keeps_print|intros _; apply keeps_convert_files|done].
  apply bind_returns in H as (? & w4 & H4 & H).
  apply keeps_copy_images in H4; [|done].
  apply bind_returns in H as (? & w5 & H5 & H).
  apply keeps_create_content_opf in H5; [|done].
  apply bind_returns in H as (? & w6 & H6 & H).
  apply keeps_create_toc_ncx in H6; [|done].
  apply bind_returns in H as (? & w7 & H7 & H).
  apply keeps_create_nav_xhtml in H7; [|done].
  by exists w7.
Qed.

End Steps.

Lemma content_not_mimetype (rest : string) :
  "epub_build/OEBPS/" +:+ rest <> "epub_build/mimetype".
Proof. intros H. apply (f_equal (String.get 11)) in H. vm_compute in H. discriminate. Qed.

Lemma create_mimetype_ready (w w' : world) (a : unit) :
  create_mimetype w = Returns (a, w') -> mimetype_ready w'.
Proof.
  intros (? & w1 & H1 & H)%bind_returns.
  eapply (keeps_print _ _ _ w1); [|done].
  unfold write_file in H1. destruct (Store.is_dir _ _); [done|].
  injection H1 as _ <-. apply lookup_write_eq.
Qed.

Lemma lookup_remove (p q : string) (fs : list (string * string)) :
  Store.lookup q (Store.remove p fs)
  = if String.eqb p q then None else Store.lookup q fs.
Proof.
  unfold Store.remove.
  induction fs as [|[r c] fs IH]; cbn [List.filter fst Store.lookup];
    [by destruct (String.eqb p q)|].
  destruct (String.eqb r p) eqn:E1; cbn [negb Store.lookup].
  - apply String.eqb_eq in E1 as ->. rewrite IH.
    by destruct (String.eqb p q).
  - rewrite IH. destruct (String.eqb r q) eqn:E2; [|done].
    apply String.eqb_eq in E2 as ->. by rewrite String.eqb_sym, E1.
Qed.

Lemma prefix_split (p s : string) :
  String.prefix p s = true -> exists r, s = p +:+ r.
Proof.
  revert s. induction p as [|a p IH]; intros s H; [by exists s|].
  destruct s as [|c s]; [done|].
  rewrite PyStrFacts.prefix_cons in H.
  apply andb_true_iff in H as [->%bool_decide_eq_true H].
  destruct (IH _ H) as [r ->]. by exists r.
Qed.

(** The archive name of a file of the two walks is not [mimetype]. *)
Lemma walked_not_mimetype (fs : list (string * string)) (file_path : string) :
  In file_path (Store.walk_files "epub_build/META-INF" fs
                ++ Store.walk_files "epub_build/OEBPS" fs) ->
  arc_path file_path <> "mimetype".
Proof.
  rewrite in_app_iff. unfold Store.walk_files. rewrite !filter_In.
  unfold Store.below, Store.relative_to.
  intros [[_ H]|[_ H]]; cbn [String.eqb Ascii.eqb Bool.eqb] in H;
    match type of H with
    | context [String.prefix ?p file_path] =>
        destruct (String.prefix p file_path) eqn:Hp; [|done];
        apply prefix_split in Hp as [r ->]
    end; intros Heq; vm_compute in Heq; discriminate.
Qed.

(** C2.  The archive of a build that returns starts with the entry
    [mimetype], stored without compression and holding the text
    [application/epub+zip]; every other entry comes behind it, is
    deflated and has another name. *)
Theorem mimetype_entry_first (lib : libs) (is_kdp : bool)
    (output_name container_xml css_content : string) (metadata : gmap string string)
    (w w' : world) (returned : string) :
  create_epub lib is_kdp output_name container_xml css_content metadata w
  = Returns (returned, w') ->
  exists others,
    Store.lookup_archive output_name (archives w')
    = Some (ZipEntry "mimetype" ZIP_STORED "application/epub+zip" :: others)
    /\ Forall (fun e => arcname e <> "mimetype" /\ compress_type e = ZIP_DEFLATED) others.
Proof.
  unfold create_epub. intros H.
  apply bind_returns in H as (? & w1 & _ & H).
  apply bind_returns in H as (? & w2 & _ & H).
  apply bind_returns in H as (? & w3 & Hready%create_mimetype_ready & H).
  apply (build_steps_return lib "epub_build/mimetype" (Some "application/epub+zip")
           content_not_mimetype) in H as (w4 & Hready4 & H); [|done|done].
  rewrite create_epub_file_unfold in H. cbv zeta in H.
  assert (Hm : Store.lookup "epub_build/mimetype" (files (opening output_name w4))
               = if String.eqb output_name "epub_build/mimetype" then None
                 else Some "application/epub+zip").
  { unfold opening. destruct (String.eqb output_name "epub_build/mimetype") eqn:E.
    - apply String.eqb_eq in E as ->. unfold Store.is_file.
      rewrite Hready4. cbn. rewrite lookup_remove. by rewrite String.eqb_refl.
    - destruct (_ || _ || _); cbn; [|done]. rewrite lookup_remove. by rewrite E. }
  rewrite Hm in H. destruct (String.eqb output_name "epub_build/mimetype"); [done|].
  destruct (namelist lib _) as [|first names]; [done|].
  injection H as _ <-. cbn [archives].
  rewrite lookup_archive_fresh. eexists. split; [reflexivity|].
  apply Forall_forall. intros e (file_path & <- & Hin)%list_elem_of_In%in_map_iff.
  split; [by apply (walked_not_mimetype (files (opening output_name w4)))|done].
Qed.

(** *** The order check *)

Lemma content_not_build_dir (rest : string) :
  "epub_build/OEBPS/" +:+ rest <> "epub_build".
Proof. intros H. apply (f_equal (String.get 10)) in H. vm_compute in H. discriminate. Qed.

Lemma lookup_filter_None (P : string * string -> bool) (p : string)
    (fs : list (string * string)) :
  Store.lookup p fs = None -> Store.lookup p (List.filter P fs) = None.
Proof.
  induction fs as [|[r c] fs IH]; [done|]. cbn [Store.lookup List.filter].
  destruct (String.eqb r p) eqn:E; [done|]. intros H.
  destruct (P (r, c)); cbn [Store.lookup]; rewrite ?E; by apply IH.
Qed.

Lemma cleanup_untouched (w w' : world) (a : unit) :
  cleanup w = Returns (a, w') -> untouched "epub_build" None w'.
Proof.
  unfold cleanup. rewrite bind_unfold. cbn [path_exists].
  unfold Store.is_file at 1, untouched.
  destruct (Store.lookup "epub_build" (files w)) eqn:Hl.
  - cbn [orb]. unfold rmtree, Store.is_file. by rewrite Hl.
  - destruct (_ || _ || _).
    + unfold rmtree, Store.is_file. rewrite Hl. intros [= _ <-].
      by apply lookup_filter_None.
    + by intros [= _ <-].
Qed.

Lemma cleanup_returns (w : world) :
  untouched "epub_build" None w -> exists w', cleanup w = Returns (tt, w').
Proof.
  intros H. unfold cleanup. rewrite bind_unfold. cbn [path_exists].
  destruct (_ || _ || _); [|by eexists].
  unfold rmtree, Store.is_file. rewrite H. by eexists.
Qed.

Lemma run_epubcheck_returns (epub_file : string) (w : world) :
  exists w', run_epubcheck epub_file w = Returns (tt, w').
Proof.
  unfold run_epubcheck. rewrite bind_unfold. cbn [path_exists].
  destruct (_ || _ || _); by eexists.
Qed.

(** A build that returns leaves no file called [epub_build]. *)
Lemma create_epub_untouched (lib : libs) (is_kdp : bool)
    (output_name container_xml css_content : string) (metadata : gmap string string)
    (w w' : world) (returned : string) :
  create_epub lib is_kdp output_name container_xml css_content metadata w
  = Returns (returned, w') ->
  untouched "epub_build" None w'.
Proof.
  unfold create_epub. intros H.
  apply bind_returns in H as (? & w1 & H1%cleanup_untouched & H).
  apply bind_returns in H as (? & w2 & H2 & H).
  apply (keeps_print "epub_build" None) in H2; [|done].
  apply bind_returns in H as (? & w3 & H3 & H).
  apply (keeps_bind (untouched "epub_build" None)) in H3;
    [|by apply keeps_write_file|intros _; apply keeps_print|done].
  apply (build_steps_return lib "epub_build" None content_not_build_dir)
    in H as (w4 & H4 & H); [|done|done].
  rewrite create_epub_file_unfold in H. cbv zeta in H.
  destruct (Store.lookup "epub_build/mimetype" _); [|done].
  destruct (namelist lib _); [done|]. injection H as _ <-.
  unfold untouched in *. cbn [files with_archive]. unfold opening.
  destruct (_ || _ || _); cbn [files]; [|done].
  rewrite lookup_remove, H4. by destruct (String.eqb _ _).
Qed.

(** C8.  When the archive as reopened does not start with [mimetype],
    [create_epub_file] prints the warning with the name it found first
    and returns the name of the archive, which it has written; and
    [main] returns [True] whenever the metadata is loaded and the two
    builds return, whatever they have printed. *)
Theorem mimetype_order_violation_reported :
  (forall (lib : libs) (output_name : string) (metadata : gmap string string)
          (w : world) (mimetype first : string) (names : list string),
     Store.lookup "epub_build/mimetype" (files (opening output_name w)) = Some mimetype ->
     namelist lib (written_entries (files (opening output_name w)) mimetype)
     = first :: names ->
     first <> "mimetype" ->
     exists w',
       create_epub_file lib output_name metadata w = Returns (output_name, w')
       /\ stdout w' = stdout w ++ [CreatingEpub output_name;
                                   WarningMimetypeNotFirst first;
                                   EpubCreated output_name]
       /\ Store.lookup_archive output_name (archives w')
          = Some (written_entries (files (opening output_name w)) mimetype))
  /\ (forall (lib : libs) (container_xml css_content : string)
             (metadata : gmap string string) (w w0 w1 w2 : world)
             (gumroad_epub kdp_epub : string),
        load_metadata lib w = Returns (Some metadata, w0) ->
        metadata <> ∅ ->
        create_gumroad_epub lib container_xml css_content metadata w0
        = Returns (gumroad_epub, w1) ->
        create_amazon_kdp_epub lib container_xml css_content metadata w1
        = Returns (kdp_epub, w2) ->
        exists w', main lib container_xml css_content w = Returns (true, w')).
Proof.
  split.
  - intros lib output_name metadata w mimetype first names Hm Hnames Hfirst.
    rewrite create_epub_file_unfold. cbv zeta. rewrite Hm, Hnames.
    apply String.eqb_neq in Hfirst. rewrite Hfirst.
    eexists. split; [reflexivity|]. cbn [stdout archives with_archive].
    split; [|apply lookup_archive_fresh].
    unfold opening. destruct (_ || _ || _); cbn [stdout]; by rewrite <- app_assoc.
  - intros lib container_xml css_content metadata w w0 w1 w2 gumroad_epub kdp_epub
      Hload Hne Hg Hk.
    unfold main. rewrite bind_unfold, Hload.
    destruct (decide (metadata = ∅)); [done|].
    unfold try_except. rewrite bind_unfold, Hg, bind_unfold, Hk.
    unfold create_amazon_kdp_epub in Hk.
    apply bind_returns in Hk as (? & w1' & _ & Hk%create_epub_untouched).
    rewrite bind_unfold. destruct (cleanup_returns w2 Hk) as [w3 ->].
    rewrite bind_unfold. destruct (run_epubcheck_returns gumroad_epub w3) as [w4 ->].
    rewrite bind_unfold. destruct (run_epubcheck_returns kdp_epub w4) as [w5 ->].
    by eexists.
Qed.

End ArchiveFacts.

(** ** The manifest and the spine of [create_epub_complete.py] *)

Module ManifestFacts.
Import Complete PyStr PyStrFacts ManifestDefs.

Lemma length_append (s t : string) :
  String.length (s +:+ t) = String.length s + String.length t.
Proof. induction s as [|c s IH]; [done|]. rewrite append_cons. cbn. by rewrite IH. Qed.

Lemma substring_all (s : string) : String.substring 0 (String.length s) s = s.
Proof. induction s as [|c s IH]; [done|]. cbn. by rewrite IH. Qed.

Lemma substring_skip (p x : string) :
  String.substring (String.length p) (String.length (p +:+ x) - String.length p) (p +:+ x) = x.
Proof.
  induction p as [|c p IH].
  - rewrite append_nil_l. cbn [String.length]. rewrite Nat.sub_0_r. apply substring_all.
  - rewrite append_cons. cbn [String.length String.substring Nat.sub]. apply IH.
Qed.

Lemma prefix_append (p x : string) : String.prefix p (p +:+ x) = true.
Proof.
  induction p as [|c p IH]; [by destruct x|].
  rewrite append_cons, prefix_cons, IH. by rewrite bool_decide_eq_true_2.
Qed.

Lemma relative_to_join (dir x : string) :
  dir <> "." -> Store.relative_to dir (dir +:+ "/" +:+ x) = Some x.
Proof.
  intros Hdir. unfold Store.relative_to.
  apply String.eqb_neq in Hdir as ->.
  rewrite <- append_assoc, prefix_append. f_equal.
  replace (S (String.length dir)) with (String.length (dir +:+ "/"))
    by (rewrite length_append; cbn; lia).
  apply substring_skip.
Qed.

Lemma split_on_no_sep (sep : ascii) (s : string) :
  ~ mem sep s -> PyPath.split_on sep s = [s].
Proof.
  induction s as [|c s IH]; [done|]. cbn [mem PyPath.split_on]. intros Hn.
  destruct (Ascii.eqb_spec c sep) as [->|Hne]; [tauto|]. rewrite IH; tauto.
Qed.

Lemma head_split_on (sep : ascii) (s r : string) :
  ~ mem sep s -> List.head (PyPath.split_on sep (s +:+ String sep r)) = Some s.
Proof.
  induction s as [|c s IH]; intros Hn.
  - rewrite append_nil_l. cbn. by rewrite Ascii.eqb_refl.
  - rewrite append_cons. cbn [mem PyPath.split_on] in *.
    destruct (Ascii.eqb_spec c sep) as [->|Hne]; [tauto|].
    specialize (IH ltac:(tauto)).
    destruct (PyPath.split_on sep (s +:+ String sep r)); [done|].
    cbn in *. congruence.
Qed.

Lemma in_dedup (x : string) (l : list string) : forall seen,
  In x l -> existsb (String.eqb x) seen = false -> In x (Store.dedup seen l).
Proof.
  induction l as [|y l IH]; intros seen Hin Hseen; [done|]. cbn [Store.dedup].
  destruct (String.eqb_spec x y) as [->|Hne].
  - destruct (existsb (String.eqb y) seen) eqn:E; [congruence|]. by left.
  - destruct Hin as [->|Hin]; [done|].
    destruct (existsb (String.eqb y) seen); [by apply IH|].
    right. apply IH; [done|]. cbn. apply String.eqb_neq in Hne. by rewrite Hne.
Qed.

Lemma lookup_In (p c : string) (fs : list (string * string)) :
  Store.lookup p fs = Some c -> In (p, c) fs.
Proof.
  induction fs as [|[q d] fs IH]; [done|]. cbn.
  destruct (String.eqb_spec q p) as [->|Hne]; [intros [= ->]; by left|].
  intros H. right. by apply IH.
Qed.

(** A file or directory that exists inside [dir] is among the entries
    that [os.listdir(dir)] yields. *)
Lemma listdir_existing (dir nm : string) (fs : list (string * string)) :
  dir <> "." -> ~ mem "/" nm ->
  Store.is_file fs (dir +:+ "/" +:+ nm) || Store.is_dir fs (dir +:+ "/" +:+ nm) = true ->
  In nm (Store.listdir dir fs).
Proof.
  intros Hdir Hnm Hex. unfold Store.listdir. apply in_dedup; [|done].
  apply list_elem_of_In, list_elem_of_omap.
  apply orb_true_iff in Hex as [Hfile|Hsub].
  - unfold Store.is_file in Hfile.
    destruct (Store.lookup _ fs) as [c|] eqn:Hl; [|done].
    exists (dir +:+ "/" +:+ nm, c). split; [by apply list_elem_of_In, lookup_In|].
    cbn [fst]. rewrite relative_to_join by done. by rewrite split_on_no_sep.
  - unfold Store.is_dir in Hsub. apply existsb_exists in Hsub as ([p c] & Hin & Hp).
    cbn [fst] in Hp. apply ArchiveFacts.prefix_split in Hp as [r ->].
    exists (((dir +:+ "/" +:+ nm) +:+ "/") +:+ r, c).
    split; [by apply list_elem_of_In|]. cbn [fst].
    rewrite !append_assoc, relative_to_join by done.
    by apply (head_split_on "/" nm r).
Qed.

(** The spine loop keeps, in the declared order, the ids whose document
    exists, and names each by its sanitized id. *)
Lemma spine_items_filter (cover_exists : bool) (exists_text : string -> bool)
    (order : list string) :
  spine_items cover_exists exists_text order
  = List.map safe_id
      (List.filter (fun item_id => String.eqb item_id "cover" && cover_exists
                                   || exists_text item_id) order).
Proof.
  induction order as [|item_id order IH]; [done|]. cbn [spine_items List.filter].
  destruct (String.eqb_spec item_id "cover") as [->|Hne]; cbn [andb orb].
  - destruct cover_exists; cbn [orb]; [by rewrite IH|].
    destruct (exists_text "cover"); by rewrite IH.
  - destruct (exists_text item_id); by rewrite IH.
Qed.

Lemma NoDup_map_filter {A B : Type} (f : A -> B) (P : A -> bool) (l : list A) :
  NoDup (List.map f l) -> NoDup (List.map f (List.filter P l)).
Proof.
  induction l as [|x l IH]; [done|]. cbn [List.map List.filter].
  intros [Hx Hl]%NoDup_cons. destruct (P x); [|by apply IH].
  cbn [List.map]. apply NoDup_cons. split; [|by apply IH].
  intros (y & Hy & Hin%filter_In)%list_elem_of_In%in_map_iff.
  apply Hx, list_elem_of_In, in_map_iff. exists y. tauto.
Qed.

Lemma spine_order_stems : forallb stem_is_id SPINE_ORDER = true.
Proof. vm_compute. reflexivity. Qed.

(** X16.  In [create_epub_complete.py] every [idref] of the spine is the id of
    a manifest item of the same package document, and the spine names
    no id twice. *)
Lemma complete_spine_in_manifest (metadata : gmap string string) (w : world)
    (pkg : package) :
  package_document metadata w = Some pkg ->
  NoDup (spine pkg)
  /\ forall idref, In idref (spine pkg) ->
       exists i, In i (manifest pkg) /\ item_id i = idref.
Proof.
  unfold package_document, manifest_and_spine. cbv zeta.
  destruct (manifest_items _ _ _ _) as [items|] eqn:Hitems; [|done].
  cbn [mbind option_bind]. intros H. apply (inj Some) in H. subst pkg.
  cbn [spine manifest]. rewrite spine_items_filter. split.
  { apply NoDup_map_filter, (bool_decide_unpack _). vm_compute. reflexivity. }
  intros idref (item_id & <- & [Hin Hex]%filter_In)%in_map_iff.
  unfold manifest_items in Hitems.
  destruct (image_items _ _ _) as [images|]; [|done].
  apply (inj Some) in Hitems. subst items.
  apply orb_true_iff in Hex as [[Hid Hcover]%andb_true_iff|Hex].
  - apply String.eqb_eq in Hid as ->. rewrite Hcover.
    eexists. split; [apply in_or_app; right; by left|reflexivity].
  - pose proof spine_order_stems as Hstems.
    rewrite forallb_forall in Hstems. specialize (Hstems _ Hin).
    apply andb_true_iff in Hstems as [Hstem%String.eqb_eq Hslash%bool_decide_eq_true].
    exists (xhtml_item (item_id +:+ ".xhtml")). split.
    + apply in_or_app. right. apply in_or_app. right. apply in_or_app. left.
      apply in_map. unfold sorted_glob.
      eapply Permutation_in; [symmetry; apply merge_sort_Permutation|].
      apply filter_In. split; [|apply LinkFacts.endswith_append].
      apply listdir_existing; [discriminate|exact Hslash|exact Hex].
    + unfold xhtml_item. cbn [Complete.item_id]. rewrite Hstem. reflexivity.
Qed.

(** *** The ids of the images *)

Lemma id_ok_safe_id (s : string) : id_ok (safe_id s) = true.
Proof.
  induction s as [|c s IH]; [done|]. cbn [safe_id id_ok]. rewrite IH, andb_true_r.
  by destruct (is_id_char c) eqn:E.
Qed.

Lemma id_ok_append (s t : string) : id_ok (s +:+ t) = id_ok s && id_ok t.
Proof.
  induction s as [|c s IH]; [done|]. rewrite append_cons. cbn [id_ok].
  by rewrite IH, andb_assoc.
Qed.

Lemma id_ok_digit (x : N) : is_id_char (pretty_N_char x) = true.
Proof. unfold pretty_N_char. repeat case_match; reflexivity. Qed.

Lemma id_ok_pretty_go (x : N) : forall s, id_ok s = true -> id_ok (pretty_N_go x s) = true.
Proof.
  induction x as [x IH] using (well_founded_induction N.lt_wf_0). intros s Hs.
  destruct (decide (x = 0%N)) as [->|Hx]; [by rewrite pretty_N_go_0|].
  rewrite pretty_N_go_step by lia. apply IH.
  - apply N.div_lt; lia.
  - cbn [id_ok]. by rewrite id_ok_digit, Hs.
Qed.

Lemma id_ok_pretty (n : nat) : id_ok (pretty n) = true.
Proof.
  unfold pretty, pretty_nat, pretty, pretty_N.
  destruct (decide _); [done|]. by apply id_ok_pretty_go.
Qed.

Lemma append_inj_l (s a b : string) : s +:+ a = s +:+ b -> a = b.
Proof.
  induction s as [|c s IH]; [done|]. rewrite !append_cons. intros [= H]. by apply IH.
Qed.

Lemma suffixed_inj (base : string) (j k : nat) :
  base +:+ "_" +:+ pretty j = base +:+ "_" +:+ pretty k -> j = k.
Proof. intros H%append_inj_l%append_inj_l. by apply (inj pretty). Qed.

Lemma suffixed_ne (base : string) (k : nat) : base +:+ "_" +:+ pretty k <> base.
Proof.
  intros H%(f_equal String.length). rewrite !length_append in H. cbn [String.length] in H. lia.
Qed.

(** The [while] loop ends before its fuel does: the ids tried so far are
    different members of the used ids. *)
Lemma unique_id_fresh (used_ids : gset string) (base_id : string) :
  forall (fuel : nat) (tried : gset string) (file_id : string) (counter : nat),
    tried ⊆ used_ids -> size tried + fuel = size used_ids -> file_id ∉ tried ->
    (forall k : nat, counter <= k ->
                     ((base_id +:+ "_" +:+ pretty k) ∉ tried)
                     /\ base_id +:+ "_" +:+ pretty k <> file_id) ->
    exists id, unique_id fuel used_ids base_id file_id counter = Some id
               /\ (id ∉ used_ids)
               /\ (id = file_id \/ exists k : nat, id = base_id +:+ "_" +:+ pretty k).
Proof.
  induction fuel as [|fuel IH]; intros tried file_id counter Hsub Hsize Hfile Hnext;
    cbn [unique_id]; destruct (decide (file_id ∈ used_ids)) as [Hin|Hout];
    try (exists file_id; by auto).
  - exfalso. assert (tried = used_ids) as -> by (apply set_subseteq_size_eq; [done|lia]).
    done.
  - destruct (IH ({[file_id]} ∪ tried) (base_id +:+ "_" +:+ pretty counter) (S counter))
      as (id & Hid & Hfresh & Hform).
    + set_solver.
    + rewrite size_union, size_singleton by set_solver. lia.
    + destruct (Hnext counter) as [H1 H2]; [lia|]. set_solver.
    + intros k Hk. destruct (Hnext k) as [H1 H2]; [lia|]. split; [set_solver|].
      intros Heq%suffixed_inj. lia.
    + exists id. split; [done|]. split; [done|]. right.
      destruct Hform as [->|[k ->]]; by eexists.
Qed.

Lemma unique_id_total (used_ids : gset string) (base_id : string) :
  exists id, unique_id (size used_ids) used_ids base_id base_id 1 = Some id
             /\ (id ∉ used_ids)
             /\ (id = base_id \/ exists k : nat, id = base_id +:+ "_" +:+ pretty k).
Proof.
  apply (unique_id_fresh used_ids base_id (size used_ids) ∅); [set_solver|by rewrite size_empty|set_solver|].
  intros k _. split; [set_solver|apply suffixed_ne].
Qed.

(** The loop over the images ends, and the ids it gives are well formed
    and different from each other and from the used ids; the cover
    image alone has the reserved id [cover_image]. *)
Lemma image_items_unique (cover_filename : string) (image_files : list string) :
  forall used_ids : gset string,
    "cover_image" ∈ used_ids -> NoDup image_files ->
    exists items,
      image_items cover_filename image_files used_ids = Some items
      /\ NoDup (item_id <$> items)
      /\ Forall (fun i => id_ok (item_id i) = true
                          /\ (item_id i = "cover_image" /\ In cover_filename image_files
                              \/ (item_id i ∉ used_ids))) items.
Proof.
  induction image_files as [|img rest IH]; intros used_ids Hcover Hnodup.
  { exists []. split; [done|]. split; constructor. }
  apply NoDup_cons in Hnodup as [Himg Hrest]. cbn [image_items].
  destruct (image_media_type img) as [mt|].
  - destruct (unique_id_total used_ids (safe_id (PyPath.stem_of_name img)))
      as (file_id & -> & Hfresh & Hform).
    cbn [mbind option_bind].
    destruct (IH ({[file_id]} ∪ used_ids)) as (items & -> & Hids & Hitems);
      [set_solver|done|]. cbn [mbind option_bind].
    assert (Hok : id_ok file_id = true).
    { destruct Hform as [->|[k ->]]; [apply id_ok_safe_id|].
      by rewrite !id_ok_append, id_ok_safe_id, id_ok_pretty. }
    rewrite Forall_forall in Hitems.
    eexists. split; [reflexivity|]. split.
    + rewrite fmap_cons. apply NoDup_cons. split; [|done].
      intros (i & Hi & Hin)%list_elem_of_fmap.
      destruct (Hitems i Hin) as [_ [[Hc Hcf]|Hnew]];
        destruct (String.eqb_spec img cover_filename) as [->|Hne]; cbn [item_id] in Hi.
      * by apply Himg, list_elem_of_In.
      * apply Hfresh. by rewrite Hi, Hc.
      * apply Hnew. rewrite <- Hi. set_solver.
      * apply Hnew. rewrite <- Hi. set_solver.
    + apply Forall_cons. split.
      * destruct (String.eqb_spec img cover_filename) as [->|Hne]; cbn [item_id].
        -- split; [done|]. left. split; [done|by left].
        -- split; [done|]. by right.
      * apply Forall_forall. intros i Hin.
        destruct (Hitems i Hin) as [Hi [[Hc Hcf]|Hnew]]; (split; [done|]).
        -- left. split; [done|by right].
        -- right. set_solver.
  - destruct (IH used_ids) as (items & -> & Hids & Hitems); [done|done|].
    exists items. split; [done|]. split; [done|].
    eapply Forall_impl; [exact Hitems|]. intros i [Hi [[Hc Hcf]|Hnew]]; (split; [done|]).
    + left. split; [done|by right].
    + by right.
Qed.

Lemma dedup_NoDup (l : list string) : forall seen,
  NoDup (Store.dedup seen l)
  /\ forall x, In x (Store.dedup seen l) -> existsb (String.eqb x) seen = false.
Proof.
  induction l as [|y l IH]; intros seen; [split; [constructor|done]|].
  cbn [Store.dedup]. destruct (existsb (String.eqb y) seen) eqn:E; [apply IH|].
  destruct (IH (y :: seen)) as [Hnd Hfresh]. split.
  - apply NoDup_cons. split; [|done]. intros Hy%list_elem_of_In%Hfresh.
    cbn in Hy. by rewrite String.eqb_refl in Hy.
  - intros x [<-|Hx]; [done|]. apply Hfresh in Hx. cbn in Hx.
    by apply orb_false_iff in Hx as [_ ?].
Qed.

Lemma sorted_glob_NoDup (dir ext : string) (w : world) : NoDup (sorted_glob dir ext w).
Proof.
  unfold sorted_glob. rewrite merge_sort_Permutation.
  apply NoDup_ListNoDup, List.NoDup_filter, NoDup_ListNoDup, dedup_NoDup.
Qed.

(** X17.  The package document of [create_epub_complete.py] is always there;
    its ids have letters, digits and underscores only; and the ids of
    its items other than the documents of the text directory are
    different from each other. *)
Lemma complete_manifest_ids (metadata : gmap string string) (w : world) :
  exists cover_items documents images,
    (package_document metadata w ≫= fun pkg => Some (manifest pkg))
    = Some (template_items ++ cover_items ++ documents ++ images)
    /\ documents = List.map xhtml_item (sorted_glob "epub_build/OEBPS/Text" ".xhtml" w)
    /\ Forall (fun i => id_ok (item_id i) = true)
         (template_items ++ cover_items ++ documents ++ images)
    /\ NoDup (item_id <$> template_items ++ cover_items ++ images).
Proof.
  unfold package_document, manifest_and_spine, manifest_items. cbv zeta.
  set (cover_filename := sanitize_filename _).
  destruct (image_items_unique cover_filename
              (sorted_glob "epub_build/OEBPS/images" "" w) reserved_ids)
    as (images & -> & Hnodup & Himages);
    [vm_compute; set_solver|apply sorted_glob_NoDup|].
  cbn [mbind option_bind manifest].
  eexists _, _, images. split; [reflexivity|]. split; [reflexivity|].
  rewrite Forall_forall in Himages. split.
  - rewrite !Forall_app. split; [by repeat constructor|].
    split; [destruct (_ || _); by repeat constructor|].
    split; [|apply Forall_forall; intros i Hi; by apply Himages].
    apply Forall_forall. intros i (nm & <- & _)%list_elem_of_In%in_map_iff.
    apply id_ok_safe_id.
  - assert (Hreserved : forall i, i ∈ images -> item_id i = "cover_image"
                                  \/ (item_id i ∉ reserved_ids)).
    { intros i Hi. destruct (Himages i Hi) as [_ [[? _]|?]]; tauto. }
    assert (Hfixed : forall id, id ∈ ["ncx"; "nav"; "css"; "cover"] ->
                                id ∈ reserved_ids /\ id <> "cover_image").
    { intros id Hid. split.
      - revert id Hid. apply Forall_forall. repeat constructor; vm_compute; set_solver.
      - set_solver. }
    assert (Hsplit : forall fixed : list string,
              NoDup fixed -> (forall id, id ∈ fixed -> id ∈ ["ncx"; "nav"; "css"; "cover"]) ->
              NoDup (fixed ++ (item_id <$> images))).
    { intros fixed Hfixed_nodup Hsubset. apply NoDup_app. split; [done|]. split; [|done].
      intros id Hid (i & -> & Hi)%list_elem_of_fmap.
      destruct (Hfixed _ (Hsubset _ Hid)) as [Hres Hnc].
      destruct (Hreserved i Hi); done. }
    destruct (_ || _); rewrite !fmap_app; cbn [fmap list_fmap app item_id template_items].
    + apply (Hsplit ["ncx"; "nav"; "css"; "cover"]); [|done].
      apply (bool_decide_unpack _). vm_compute. reflexivity.
    + apply (Hsplit ["ncx"; "nav"; "css"]); [|set_solver].
      apply (bool_decide_unpack _). vm_compute. reflexivity.
Qed.

End ManifestFacts.

(** ** The package document *)

Module PackageFacts.
Import Samples.

(** C1.  In [create_both_epubs.py] the spine names every id of the
    declared order, the documents that do not exist included: for a
    tree without [acknowledgments.xhtml] the spine refers to
    [acknowledgments] and to nineteen more ids that no manifest item
    has; [create_epub_complete.py] names for its tree only the two
    documents that exist. *)
Theorem both_spine_names_missing_documents :
  idrefs (Both.package_document (<["cover_image" := "cover.jpg"]> metadata)
            "epub_gumroad" both_tree)
  = Both.CORRECT_SPINE_ORDER
  /\ ids (Both.package_document (<["cover_image" := "cover.jpg"]> metadata)
            "epub_gumroad" both_tree)
     = ["cover-image"; "cover"; "toc"; "toc"; "css"; "ncx"]
  /\ ("acknowledgments"
      ∉ ids (Both.package_document (<["cover_image" := "cover.jpg"]> metadata)
               "epub_gumroad" both_tree))
  /\ idrefs (Complete.package_document metadata build_tree) = ["cover"; "toc"].
Proof.
  split; [vm_compute; reflexivity|]. split; [vm_compute; reflexivity|].
  split; [|vm_compute; reflexivity].
  intros H. apply (bool_decide_pack _) in H. vm_compute in H. done.
Qed.

(** C3.  For a tree with the document [toc.xhtml] and the image
    [toc.png] the manifest of either script has two items with the id
    [toc]: the ids of the documents are not among the used ids that the
    ids of the images are checked against. *)
Theorem manifest_ids_collide :
  ids (Complete.package_document metadata build_tree)
  = ["ncx"; "nav"; "css"; "cover"; "toc"; "cover_image"; "toc"]
  /\ ~ NoDup (ids (Complete.package_document metadata build_tree))
  /\ ~ NoDup (ids (Both.package_document (<["cover_image" := "cover.jpg"]> metadata)
                     "epub_gumroad" both_tree)).
Proof.
  split; [vm_compute; reflexivity|].
  split; intros H; apply (bool_decide_pack _) in H; vm_compute in H; done.
Qed.

End PackageFacts.

(** ** Entities *)

Module EntityFacts.
Import PyStrFacts ManifestDefs ManifestFacts EntityDefs.

(** *** Every ampersand of the output starts a reference *)

Lemma run_semicolon_split (class : ascii -> bool) (s : string) (n : nat) :
  (forall c, class c = true -> c <> "&"%char /\ c <> "_"%char) ->
  Both.run_semicolon class s = Some n ->
  exists a r, s = a +:+ ";" +:+ r /\ String.length a = n /\ plain a
              /\ forall r', Both.run_semicolon class (a +:+ ";" +:+ r') = Some n.
Proof.
  intros Hclass. revert n. induction s as [|c s IH]; intros n; [done|].
  cbn [Both.run_semicolon]. destruct (class c) eqn:Hc.
  - destruct (Both.run_semicolon class s) as [m|] eqn:Hrun; [|done].
    intros [= <-]. destruct (IH m eq_refl) as (a & r & -> & Hlen & [Ha1 Ha2] & Hrun').
    exists (String c a), r. rewrite append_cons. split; [done|]. split; [by cbn; f_equal|].
    destruct (Hclass c Hc) as [Hc1 Hc2]. split.
    + split; cbn [PyStr.mem]; intros [?|?]; congruence.
    + intros r'. rewrite append_cons. cbn [Both.run_semicolon]. by rewrite Hc, Hrun'.
  - destruct (Ascii.eqb_spec c ";") as [->|Hne]; [|done]. intros [= <-].
    exists "", s. split; [done|]. split; [done|]. split; [by split; intros []|].
    intros r'. rewrite append_nil_l, append_cons, append_nil_l. cbn [Both.run_semicolon]. by rewrite Hc.
Qed.

Lemma alnum_plain (c : ascii) : Both.is_alnum c = true -> c <> "&"%char /\ c <> "_"%char.
Proof. intros H. split; intros ->; discriminate. Qed.

Lemma digit_plain (c : ascii) : Both.is_digit c = true -> c <> "&"%char /\ c <> "_"%char.
Proof. intros H. split; intros ->; discriminate. Qed.

Lemma hex_plain (c : ascii) : Both.is_hex c = true -> c <> "&"%char /\ c <> "_"%char.
Proof. intros H. split; intros ->; discriminate. Qed.

Lemma alpha_plain (c : ascii) : Both.is_alpha c = true -> c <> "&"%char /\ c <> "_"%char.
Proof. intros H. split; intros ->; discriminate. Qed.

Lemma plain_cons (c : ascii) (s : string) :
  c <> "&"%char -> c <> "_"%char -> plain s -> plain (String c s).
Proof. intros H1 H2 [H3 H4]. split; cbn [PyStr.mem]; intros [?|?]; congruence. Qed.

Lemma plain_append (s t : string) : plain s -> plain t -> plain (s +:+ t).
Proof. intros [H1 H2] [H3 H4]. split; rewrite mem_append; tauto. Qed.

(** A match of the pattern is an ampersand and a plain text of the
    matched length, and it stays a match whatever follows it. *)
Lemma entity_length_split (s : string) (n : nat) :
  Both.entity_length s = Some n ->
  exists body r, s = String "&" body +:+ r /\ String.length (String "&" body) = n
                 /\ plain body
                 /\ forall r', Both.entity_length (String "&" body +:+ r') = Some n.
Proof.
  destruct s as [|c0 s]; [done|].
  destruct (Ascii.eqb_spec c0 "&") as [->|Hne];
    [|destruct c0 as [[] [] [] [] [] [] [] []]; done].
  destruct s as [|c1 s]; [done|].
  destruct (Ascii.eqb_spec c1 "#") as [->|Hhash].
  - destruct s as [|c2 s].
    { cbn. done. }
    destruct (Ascii.eqb_spec c2 "x") as [->|Hx].
    + cbn [Both.entity_length].
      destruct (Both.run_semicolon Both.is_hex s) as [[|m]|] eqn:Hrun; [done| |done].
      intros [= <-].
      destruct (run_semicolon_split _ _ _ hex_plain Hrun) as (a & r & -> & Hlen & Ha & Hrun').
      exists ("#x" +:+ a +:+ ";"), r. split; [by rewrite <- !append_assoc|].
      split; [rewrite !append_cons, append_nil_l; cbn [String.length];
              rewrite length_append; cbn [String.length]; lia|].
      split; [apply (plain_append "#x"); [by split; cbn; intros [|[|]]|];
              apply plain_append; [done|by split; cbn; intros [|]]|].
      intros r'. rewrite !append_cons, append_nil_l, append_assoc.
      cbn [Both.entity_length]. by rewrite Hrun'.
    + assert (Both.entity_length (String "&" (String "#" (String c2 s)))
              = match Both.run_semicolon Both.is_digit (String c2 s) with
                | Some (S m) => Some (S m + 3)
                | _ => None
                end) as -> by (destruct c2 as [[] [] [] [] [] [] [] []]; done).
      destruct (Both.run_semicolon Both.is_digit (String c2 s)) as [[|m]|] eqn:Hrun;
        [done| |done].
      intros [= <-].
      destruct (run_semicolon_split _ _ _ digit_plain Hrun) as (a & r & Heq & Hlen & Ha & Hrun').
      exists ("#" +:+ a +:+ ";"), r. rewrite Heq. split; [by rewrite <- !append_assoc|].
      split; [rewrite !append_cons, append_nil_l; cbn [String.length];
              rewrite length_append; cbn [String.length]; lia|].
      split; [apply (plain_append "#"); [by split; cbn; intros [|]|];
              apply plain_append; [done|by split; cbn; intros [|]]|].
      intros r'. rewrite !append_cons, append_nil_l, append_assoc.
      destruct a as [|a0 a]; [cbn in Hlen; lia|].
      assert (a0 <> "x"%char) as Ha0.
      { rewrite append_cons in Heq. injection Heq as -> _. done. }
      rewrite append_cons.
      assert (forall t, Both.entity_length (String "&" (String "#" (String a0 t)))
              = match Both.run_semicolon Both.is_digit (String a0 t) with
                | Some (S m) => Some (S m + 3)
                | _ => None
                end) as -> by (intros t; destruct a0 as [[] [] [] [] [] [] [] []]; done).
      rewrite <- append_cons. by rewrite Hrun'.
  - assert (Both.entity_length (String "&" (String c1 s))
            = if Both.is_alpha c1
              then (fun n => n + 3) <$> Both.run_semicolon Both.is_alnum s else None) as ->
      by (destruct c1 as [[] [] [] [] [] [] [] []]; done).
    destruct (Both.is_alpha c1) eqn:Halpha; [|done].
    destruct (Both.run_semicolon Both.is_alnum s) as [m|] eqn:Hrun; [|done].
    intros [= <-].
    destruct (run_semicolon_split _ _ _ alnum_plain Hrun) as (a & r & -> & Hlen & Ha & Hrun').
    exists (String c1 (a +:+ ";")), r. split; [by rewrite !append_cons, append_assoc|].
    split; [cbn [String.length]; rewrite length_append; cbn [String.length]; lia|].
    split; [destruct (alpha_plain _ Halpha); apply plain_cons; [done|done|];
            apply plain_append; [done|by split; cbn; intros [|]]|].
    intros r'. rewrite !append_cons, append_assoc.
    assert (forall t, Both.entity_length (String "&" (String c1 t))
            = if Both.is_alpha c1
              then (fun n => n + 3) <$> Both.run_semicolon Both.is_alnum t else None) as ->
      by (intros t; destruct c1 as [[] [] [] [] [] [] [] []]; done).
    by rewrite Halpha, Hrun'.
Qed.

Lemma is_entity_split (e : string) :
  is_entity e ->
  exists body, e = String "&" body /\ plain body
               /\ forall r, Both.entity_length (e +:+ r) = Some (String.length e).
Proof.
  intros H. destruct (entity_length_split _ _ H) as (body & r & Heq & Hlen & Hbody & Hstable).
  assert (r = "") as ->.
  { apply (f_equal String.length) in Heq. rewrite length_append, Hlen in Heq.
    destruct r; [done|]. cbn [String.length] in Heq. lia. }
  rewrite append_nil_r in Heq. subst e. exists body. split; [done|]. split; [done|].
  exact Hstable.
Qed.

Lemma substring_prefix (p x : string) : String.substring 0 (String.length p) (p +:+ x) = p.
Proof.
  induction p as [|c p IH]; [by destruct x|]. rewrite append_cons. cbn. by rewrite IH.
Qed.

(** What the pattern matches is an entity. *)
Lemma matched_is_entity (s : string) (n : nat) :
  Both.entity_length s = Some n -> is_entity (String.substring 0 n s).
Proof.
  intros H. destruct (entity_length_split _ _ H) as (body & r & -> & Hlen & Hbody & Hstable).
  rewrite <- Hlen, substring_prefix. unfold is_entity.
  rewrite <- (append_nil_r (String "&" body)) at 1. rewrite Hstable. by rewrite Hlen.
Qed.

Lemma protect_entities (s : string) :
  forall skip entity_counter, Forall is_entity (Both.protect skip entity_counter s).2.
Proof.
  induction s as [|c s IH]; intros skip entity_counter; [by constructor|].
  cbn [Both.protect]. destruct skip as [|k]; [|apply IH].
  destruct (Both.entity_length (String c s)) as [len|] eqn:Hlen.
  - specialize (IH (len - 1) (S entity_counter)).
    destruct (Both.protect (len - 1) (S entity_counter) s) as [t entities].
    constructor; [by apply matched_is_entity|done].
  - specialize (IH 0 entity_counter).
    by destruct (Both.protect 0 entity_counter s) as [t entities].
Qed.

(** The escaping of the ampersands leaves references only. *)
Lemma tokens_escaped (s : string) : tokens (PyStr.replace "&" "&amp;" s).
Proof.
  induction s as [|c s IH]; [constructor|]. rewrite replace_char_cons.
  destruct (bool_decide_reflect ("&"%char = c)) as [<-|Hne].
  - by apply tokens_entity.
  - apply tokens_char; [congruence|done].
Qed.

Lemma tokens_drop_plain (p r : string) :
  ~ PyStr.mem "&" p -> tokens (p +:+ r) -> tokens r.
Proof.
  induction p as [|c p IH]; intros Hp; [by rewrite append_nil_l|].
  rewrite append_cons. cbn [PyStr.mem] in Hp. intros H. inversion H as [|c' s' Hc Hs|e s' He Hs Heq].
  - apply IH; [tauto|done].
  - destruct (is_entity_split _ He) as (body & -> & _). rewrite append_cons in Heq.
    injection Heq as <- _. tauto.
Qed.

(** [replace_go] with a count of characters to skip is [replace_go] on
    the text without them. *)
Lemma replace_go_drop (old new : string) (s : string) :
  forall skip, PyStr.replace_go old new skip s = PyStr.replace_go old new 0 (PyStr.drop skip s).
Proof.
  induction s as [|c s IH]; intros [|k]; try done. cbn [PyStr.replace_go PyStr.drop]. apply IH.
Qed.

Lemma drop_append (p r : string) : PyStr.drop (String.length p) (p +:+ r) = r.
Proof. induction p as [|c p IH]; [by destruct r|]. by rewrite append_cons. Qed.

(** A replacement at the head of the text. *)
Lemma replace_head (c : ascii) (old new r : string) :
  PyStr.replace (String c old) new (String c old +:+ r)
  = new +:+ PyStr.replace (String c old) new r.
Proof.
  unfold PyStr.replace. rewrite append_cons. cbn [PyStr.replace_go String.length].
  rewrite prefix_cons, bool_decide_eq_true_2, prefix_append by done. cbn [andb Nat.sub].
  by rewrite Nat.sub_0_r, replace_go_drop, drop_append.
Qed.

(** No replacement at the head of the text. *)
Lemma replace_skip (c : ascii) (old new s : string) :
  String.prefix old (String c s) = false -> old <> "" ->
  PyStr.replace old new (String c s) = String c (PyStr.replace old new s).
Proof.
  intros H Hne. unfold PyStr.replace. destruct old as [|a old]; [done|].
  cbn [PyStr.replace_go]. by rewrite H.
Qed.

(** A text without the first character of [old] is left as it is. *)
Lemma replace_through (a : ascii) (old new e s : string) :
  ~ PyStr.mem a e ->
  PyStr.replace (String a old) new (e +:+ s) = e +:+ PyStr.replace (String a old) new s.
Proof.
  induction e as [|c e IH]; intros He; [by rewrite !append_nil_l|].
  cbn [PyStr.mem] in He. rewrite !append_cons, replace_skip, IH; [done|tauto| |done].
  rewrite prefix_cons, bool_decide_eq_false_2; [done|tauto].
Qed.

(** Replacing a text that starts with an underscore and holds no
    ampersand by an entity keeps a text of references. *)
Lemma tokens_replace (old e : string) :
  ~ PyStr.mem "&" old -> is_entity e ->
  forall n s, String.length s <= n -> tokens s ->
              tokens (PyStr.replace (String "_" old) e s).
Proof.
  intros Hold He n. induction n as [|n IH]; intros s Hn Hs.
  { destruct s; [constructor|cbn in Hn; lia]. }
  inversion Hs as [|c s' Hc Hs' Heq|e0 s0 He0 Hs0 Heq]; subst s.
  - constructor.
  - cbn [String.length] in Hn.
    destruct (String.prefix (String "_" old) (String c s')) eqn:Hprefix.
    + destruct (ArchiveFacts.prefix_split _ _ Hprefix) as [r Hr]. rewrite Hr, replace_head.
      apply tokens_entity; [done|]. apply IH.
      * apply (f_equal String.length) in Hr. rewrite length_append in Hr.
        cbn [String.length] in Hr. lia.
      * apply (tokens_drop_plain (String "_" old)); [|by rewrite <- Hr].
        cbn [PyStr.mem]. intros [?|?]; [done|tauto].
    + rewrite replace_skip by done. apply tokens_char; [done|]. apply IH; [lia|done].
  - destruct (is_entity_split _ He0) as (body & -> & [Hbody1 Hbody2] & _).
    rewrite replace_through.
    + apply tokens_entity; [done|]. apply IH; [|done].
      rewrite length_append in Hn. cbn [String.length] in Hn. lia.
    + cbn [PyStr.mem]. intros [?|?]; [done|tauto].
Qed.

Lemma id_ok_no_ampersand (s : string) : id_ok s = true -> ~ PyStr.mem "&" s.
Proof.
  induction s as [|c s IH]; [by intros _ []|]. cbn [id_ok PyStr.mem].
  intros [Hc Hs]%andb_true_iff [<-|H]; [done|by apply IH].
Qed.

(** Putting the entities back keeps a text of references. *)
Lemma tokens_restore (entities : list string) :
  Forall is_entity entities ->
  forall entity_counter text,
    tokens text -> tokens (Both.restore entity_counter entities text).
Proof.
  induction 1 as [|e entities He _ IH]; intros entity_counter text Htext; [done|].
  cbn [Both.restore]. apply IH.
  apply (tokens_replace ("__ENTITY_" +:+ pretty entity_counter +:+ "___") e)
    with (n := String.length text); [|done|done|done].
  apply id_ok_no_ampersand. by rewrite !id_ok_append, id_ok_pretty.
Qed.

Lemma ampersands_valid_plain (p s : string) :
  ~ PyStr.mem "&" p -> ampersands_valid (p +:+ s) = ampersands_valid s.
Proof.
  induction p as [|c p IH]; intros Hp; [by rewrite append_nil_l|].
  cbn [PyStr.mem] in Hp. rewrite append_cons. cbn [ampersands_valid].
  destruct (Ascii.eqb_spec c "&") as [->|Hne]; [tauto|]. rewrite IH; tauto.
Qed.

Lemma tokens_valid (s : string) : tokens s -> ampersands_valid s = true.
Proof.
  induction 1 as [|c s Hc _ IH|e s He _ IH]; [done| |].
  - cbn [ampersands_valid]. by destruct (Ascii.eqb_spec c "&").
  - destruct (is_entity_split _ He) as (body & Heq & [Hbody _] & Hstable).
    specialize (Hstable s). rewrite Heq in Hstable |- *. rewrite append_cons in Hstable |- *.
    cbn [ampersands_valid Ascii.eqb Bool.eqb]. rewrite Hstable, ampersands_valid_plain, IH by done.
    by rewrite bool_decide_eq_true_2.
Qed.

(** Whatever the text, every ampersand of the escaped text starts a
    reference: the step never leaves a bare ampersand. *)
Lemma escape_ampersands_valid (text : string) :
  ampersands_valid (Both.escape_ampersands text) = true.
Proof.
  apply tokens_valid. unfold Both.escape_ampersands.
  pose proof (protect_entities text 0 0) as Hentities.
  destruct (Both.protect 0 0 text) as [protected entities].
  apply tokens_restore; [done|apply tokens_escaped].
Qed.

Lemma escape_entities_valid (xhtml_content : string) :
  ampersands_valid (Both.escape_entities xhtml_content) = true.
Proof. apply escape_ampersands_valid. Qed.

(** *** Texts without an underscore *)

Lemma digit_pretty_N_char (x : N) : Both.is_digit (pretty_N_char x) = true.
Proof. unfold pretty_N_char. repeat case_match; reflexivity. Qed.

Lemma digits_pretty_go (x : N) :
  forall s, digits s = true -> s <> "" ->
            digits (pretty_N_go x s) = true /\ pretty_N_go x s <> "".
Proof.
  induction x as [x IH] using (well_founded_induction N.lt_wf_0). intros s Hs Hne.
  destruct (decide (x = 0%N)) as [->|Hx]; [by rewrite pretty_N_go_0|].
  rewrite pretty_N_go_step by lia. apply IH.
  - apply N.div_lt; lia.
  - cbn [digits]. by rewrite digit_pretty_N_char, Hs.
  - done.
Qed.

(** The decimal writing of a number: a digit, then digits. *)
Lemma pretty_digits (n : nat) :
  exists d r, pretty n = String d r /\ Both.is_digit d = true /\ digits r = true.
Proof.
  assert (digits (pretty n) = true /\ pretty n <> "") as [Hd Hne].
  { unfold pretty, pretty_nat, pretty, pretty_N. destruct (decide _); [done|].
    rewrite pretty_N_go_step by lia. apply digits_pretty_go; [|done].
    cbn [digits]. by rewrite digit_pretty_N_char. }
  destruct (pretty n) as [|d r]; [done|]. cbn [digits] in Hd.
  apply andb_true_iff in Hd as [? ?]. by exists d, r.
Qed.

Lemma digits_no_underscore (s : string) : digits s = true -> ~ PyStr.mem "_" s.
Proof.
  induction s as [|c s IH]; [by intros _ []|]. cbn [digits PyStr.mem].
  intros [Hc Hs]%andb_true_iff [<-|H]; [done|by apply IH].
Qed.

Lemma prefix_cons_ne (a c : ascii) (p s : string) :
  a <> c -> String.prefix (String a p) (String c s) = false.
Proof. intros H. by rewrite prefix_cons, bool_decide_eq_false_2. Qed.

Lemma prefix_cons_eq (a : ascii) (p s : string) :
  String.prefix (String a p) (String a s) = String.prefix p s.
Proof. by rewrite prefix_cons, bool_decide_eq_true_2. Qed.

(** Two different numbers, each before an underscore: neither writing
    starts the other. *)
Lemma digits_prefix_ne (a : string) :
  forall b x y, digits a = true -> digits b = true -> a <> b ->
                String.prefix (a +:+ String "_" x) (b +:+ String "_" y) = false.
Proof.
  induction a as [|c a IH]; intros [|d b] x y Ha Hb Hne; [done| | |].
  - rewrite append_nil_l, append_cons. cbn [digits] in Hb.
    apply andb_true_iff in Hb as [Hd _]. apply prefix_cons_ne. by intros <-.
  - rewrite append_nil_l, append_cons. cbn [digits] in Ha.
    apply andb_true_iff in Ha as [Hc _]. apply prefix_cons_ne. by intros ->.
  - rewrite !append_cons. cbn [digits] in Ha, Hb.
    apply andb_true_iff in Ha as [_ Ha]. apply andb_true_iff in Hb as [_ Hb].
    destruct (decide (c = d)) as [->|Hcd]; [|by apply prefix_cons_ne].
    rewrite prefix_cons_eq. apply IH; [done|done|congruence].
Qed.

Lemma placeholder_cons (k : nat) (s : string) :
  Both.placeholder k +:+ s
  = String "_" (String "_" (String "_" ("ENTITY" +:+
      String "_" (pretty k +:+ String "_" (String "_" (String "_" s)))))).
Proof.
  unfold Both.placeholder. rewrite !append_assoc.
  by rewrite !append_cons, !append_nil_l.
Qed.

Lemma placeholder_old (k : nat) :
  Both.placeholder k = String "_" ("__ENTITY_" +:+ pretty k +:+ "___").
Proof. unfold Both.placeholder. by rewrite !append_cons, !append_nil_l. Qed.

(** The placeholder [i] starts at none of the last three underscores of
    a placeholder of a marked text. *)
Lemma prefix_after_letters (letters x : string) (d : ascii) (i : nat) :
  ~ PyStr.mem "_" letters -> d <> "_"%char ->
  forall s, marked i s -> String.prefix (letters +:+ String "_" (String d x)) s = false.
Proof.
  intros Hletters Hd. induction letters as [|c letters IH]; intros s Hs.
  - rewrite append_nil_l. inversion Hs as [|c' s' Hc' Hs'|k s' Hk Hs']; [done| |].
    + apply prefix_cons_ne. congruence.
    + rewrite placeholder_cons, prefix_cons_eq. by apply prefix_cons_ne.
  - cbn [PyStr.mem] in Hletters. rewrite append_cons.
    inversion Hs as [|c' s' Hc' Hs'|k s' Hk Hs']; [done| |].
    + rewrite prefix_cons. rewrite IH; [|tauto|done]. by rewrite andb_false_r.
    + rewrite placeholder_cons. apply prefix_cons_ne. intros ->. tauto.
Qed.

Lemma prefix_underscores (x : string) (c : ascii) (i : nat) (s : string) :
  c <> "_"%char -> marked i s ->
  String.prefix (String "_" (String c x)) s = false
  /\ String.prefix (String "_" (String "_" (String c x))) s = false.
Proof.
  intros Hc Hs. inversion Hs as [|c' s' Hc' Hs'|k s' Hk Hs']; [done| |].
  - split; apply prefix_cons_ne; congruence.
  - rewrite placeholder_cons, !prefix_cons_eq. split; by apply prefix_cons_ne.
Qed.

(** The replacement of the placeholder [i] passes over another
    placeholder of a marked text. *)
Lemma replace_other_placeholder (i j k : nat) (e s : string) :
  k <> i -> marked j s ->
  PyStr.replace (Both.placeholder i) e (Both.placeholder k +:+ s)
  = Both.placeholder k +:+ PyStr.replace (Both.placeholder i) e s.
Proof.
  intros Hk Hs. rewrite !(placeholder_cons k).
  destruct (pretty_digits i) as (di & ri & Hi & Hdi & Hri).
  destruct (pretty_digits k) as (dk & rk & Hpk & Hdk & Hrk).
  assert (di <> "_"%char) as Hdi' by (by intros ->).
  assert (dk <> "_"%char) as Hdk' by (by intros ->).
  assert (forall x, String.prefix (Both.placeholder i) (String "_" (String "_" (String "_" x)))
                    = String.prefix ("ENTITY_" +:+ pretty i +:+ "___") x) as Hthree.
  { intros x. unfold Both.placeholder. rewrite !append_cons, !append_nil_l.
    by rewrite !prefix_cons_eq. }
  (* the three underscores that start the placeholder *)
  rewrite replace_skip; [|rewrite Hthree|by rewrite placeholder_old].
  2: { rewrite !append_cons, !append_nil_l, !prefix_cons_eq.
       apply (digits_prefix_ne (pretty i) (pretty k) "__" (String "_" (String "_" s))).
       - rewrite Hi. cbn [digits]. by rewrite Hdi, Hri.
       - rewrite Hpk. cbn [digits]. by rewrite Hdk, Hrk.
       - intros Heq. by apply (inj pretty) in Heq. }
  rewrite replace_skip; [|rewrite placeholder_old|by rewrite placeholder_old].
  2: { rewrite !append_cons, !append_nil_l, !prefix_cons_eq. by apply prefix_cons_ne. }
  rewrite replace_skip; [|rewrite placeholder_old|by rewrite placeholder_old].
  2: { rewrite !append_cons, !append_nil_l, !prefix_cons_eq. by apply prefix_cons_ne. }
  (* the letters *)
  rewrite (placeholder_old i), (replace_through "_" _ e "ENTITY");
    [|cbn; intros H; by repeat destruct H as [H|H]].
  (* the underscore before the number, and the number *)
  rewrite replace_skip; [|rewrite Hpk|done].
  2: { rewrite !append_cons, !append_nil_l, !prefix_cons_eq. by apply prefix_cons_ne. }
  rewrite replace_through; [|rewrite Hpk; apply digits_no_underscore; cbn [digits];
                             by rewrite Hdk, Hrk].
  (* the three underscores that end the placeholder *)
  rewrite <- (placeholder_old i).
  rewrite replace_skip; [|rewrite Hthree|by rewrite placeholder_old].
  2: { rewrite Hi.
       change ("ENTITY_" +:+ String di ri +:+ "___")
         with ("ENTITY" +:+ String "_" (String di (ri +:+ "___"))).
       by apply (prefix_after_letters "ENTITY" _ di j);
         [cbn; intros H; by repeat destruct H as [H|H]| |]. }
  rewrite replace_skip; [|rewrite placeholder_old|by rewrite placeholder_old].
  2: { rewrite !append_cons, !append_nil_l, !prefix_cons_eq.
       by apply (prefix_underscores _ "E" j). }
  rewrite replace_skip; [|rewrite placeholder_old|by rewrite placeholder_old].
  2: { rewrite !append_cons, !append_nil_l, !prefix_cons_eq.
       by apply (prefix_underscores _ "E" j). }
  done.
Qed.

(** The placeholder [i] does not occur in a text marked from a later
    number on. *)
Lemma replace_marked (i j : nat) (e s : string) :
  i < j -> marked j s -> PyStr.replace (Both.placeholder i) e s = s.
Proof.
  intros Hij. induction 1 as [|c s Hc Hs IH|k s Hk Hs IH]; [by rewrite placeholder_old| |].
  - rewrite replace_skip, IH; [done| |by rewrite placeholder_old].
    rewrite placeholder_old. apply prefix_cons_ne. congruence.
  - rewrite (replace_other_placeholder i j k), IH; [done|lia|done].
Qed.

Lemma marked_mono (i j : nat) (s : string) : i <= j -> marked j s -> marked i s.
Proof.
  intros Hij. induction 1 as [|c s Hc Hs IH|k s Hk Hs IH].
  - constructor.
  - by apply marked_char.
  - apply marked_placeholder; [lia|done].
Qed.

Lemma placeholder_no_ampersand (i : nat) : ~ PyStr.mem "&" (Both.placeholder i).
Proof.
  apply id_ok_no_ampersand. unfold Both.placeholder. by rewrite !id_ok_append, id_ok_pretty.
Qed.

(** The protected text of a text without an underscore, once its
    ampersands are escaped, is marked from the counter on. *)
Lemma marked_protect (s : string) :
  ~ PyStr.mem "_" s ->
  forall skip i, marked i (PyStr.replace "&" "&amp;" (Both.protect skip i s).1).
Proof.
  induction s as [|c s IH]; intros Hs skip i; [constructor|].
  cbn [PyStr.mem] in Hs. cbn [Both.protect]. destruct skip as [|k]; [|apply IH; tauto].
  destruct (Both.entity_length (String c s)) as [len|] eqn:Hlen.
  - specialize (IH ltac:(tauto) (len - 1) (S i)).
    destruct (Both.protect (len - 1) (S i) s) as [t entities]. cbn [fst] in IH |- *.
    rewrite (replace_through "&" ""); [|apply placeholder_no_ampersand].
    apply marked_placeholder; [done|]. by apply (marked_mono i (S i)); [lia|].
  - specialize (IH ltac:(tauto) 0 i).
    destruct (Both.protect 0 i s) as [t entities]. cbn [fst] in IH |- *.
    rewrite replace_char_cons. destruct (bool_decide_reflect ("&"%char = c)) as [<-|Hne].
    + rewrite !append_cons, append_nil_l. by repeat (apply marked_char; [done|]).
    + apply marked_char; [|done]. intros ->. tauto.
Qed.

(** Putting the entities back leaves a head without an underscore. *)
Lemma restore_through (e : string) (entities : list string) :
  ~ PyStr.mem "_" e ->
  forall i text, Both.restore i entities (e +:+ text) = e +:+ Both.restore i entities text.
Proof.
  intros He. induction entities as [|entity entities IH]; intros i text; [done|].
  cbn [Both.restore]. by rewrite placeholder_old, replace_through, IH.
Qed.

Lemma escape_bare_plain (p s : string) :
  ~ PyStr.mem "&" p -> escape_bare_ampersands (p +:+ s) = p +:+ escape_bare_ampersands s.
Proof.
  induction p as [|c p IH]; intros Hp; [by rewrite !append_nil_l|].
  cbn [PyStr.mem] in Hp. rewrite !append_cons. cbn [escape_bare_ampersands].
  destruct (Ascii.eqb_spec c "&") as [->|Hne]; [tauto|]. rewrite IH; tauto.
Qed.

Lemma drop_nil (n : nat) : PyStr.drop n "" = "".
Proof. by destruct n. Qed.

(** On a text without an underscore, protecting the entities, escaping
    the ampersands and putting the entities back escapes the bare
    ampersands and nothing else. *)
Lemma restore_protect (s : string) :
  ~ PyStr.mem "_" s ->
  forall skip i,
    Both.restore i (Both.protect skip i s).2
      (PyStr.replace "&" "&amp;" (Both.protect skip i s).1)
    = escape_bare_ampersands (PyStr.drop skip s).
Proof.
  induction s as [|c s IH]; intros Hs skip i; [by rewrite drop_nil|].
  destruct skip as [|k].
  2: { cbn [Both.protect PyStr.drop]. apply IH. cbn [PyStr.mem] in Hs. tauto. }
  cbn [PyStr.drop Both.protect].
  destruct (Both.entity_length (String c s)) as [len|] eqn:Hlen.
  - destruct (entity_length_split _ _ Hlen) as (body & r & Heq & Hlen' & [Hb1 Hb2] & _).
    rewrite append_cons in Heq. injection Heq as -> ->.
    assert (~ PyStr.mem "_" (body +:+ r)) as Hs' by (cbn [PyStr.mem] in Hs; tauto).
    specialize (IH Hs' (len - 1) (S i)).
    pose proof (marked_protect _ Hs' (len - 1) (S i)) as Hmarked.
    destruct (Both.protect (len - 1) (S i) (body +:+ r)) as [t entities].
    cbn [fst snd] in IH, Hmarked |- *. cbn [Both.restore].
    rewrite (replace_through "&" ""); [|apply placeholder_no_ampersand].
    rewrite <- append_cons, <- Hlen', substring_prefix.
    rewrite (placeholder_old i), replace_head, <- (placeholder_old i).
    rewrite (replace_marked i (S i)) by (done || lia).
    rewrite restore_through, IH; [|cbn [PyStr.mem]; intros [?|?]; [done|tauto]].
    rewrite <- Hlen'. cbn [String.length Nat.sub]. rewrite Nat.sub_0_r, drop_append.
    rewrite !append_cons. cbn [escape_bare_ampersands Ascii.eqb Bool.eqb].
    by rewrite Hlen, escape_bare_plain.
  - cbn [PyStr.mem] in Hs. specialize (IH ltac:(tauto) 0 i).
    destruct (Both.protect 0 i s) as [t entities]. cbn [fst snd PyStr.drop] in IH |- *.
    rewrite replace_char_cons. cbn [escape_bare_ampersands]. rewrite Hlen.
    destruct (bool_decide_reflect ("&"%char = c)) as [<-|Hne].
    + cbn [Ascii.eqb Bool.eqb]. rewrite restore_through, IH; [done|].
      cbn. intros H. by repeat destruct H as [H|H].
    + destruct (Ascii.eqb_spec c "&") as [->|_]; [done|].
      change (String c (PyStr.replace "&" "&amp;" t))
        with (String c "" +:+ PyStr.replace "&" "&amp;" t).
      rewrite restore_through, IH; [done|].
      cbn [PyStr.mem]. intros [<-|[]]. tauto.
Qed.

(** On a text without an underscore the escaping of the script is the
    escaping of the bare ampersands. *)
Lemma escape_ampersands_without_underscore (text : string) :
  ~ PyStr.mem "_" text -> Both.escape_ampersands text = escape_bare_ampersands text.
Proof.
  intros Htext. pose proof (restore_protect text Htext 0 0) as H.
  unfold Both.escape_ampersands. destruct (Both.protect 0 0 text) as [protected entities].
  cbn [fst snd] in H. rewrite H. by destruct text.
Qed.

Lemma mem_replace_go (c : ascii) (old new s : string) :
  forall skip, PyStr.mem c (PyStr.replace_go old new skip s) -> PyStr.mem c s \/ PyStr.mem c new.
Proof.
  induction s as [|d s IH]; intros skip; [done|]. cbn [PyStr.replace_go PyStr.mem].
  destruct skip as [|k]; [|intros H%IH; tauto].
  destruct (String.prefix old (String d s)).
  - rewrite mem_append. intros [H|H%IH]; tauto.
  - cbn [PyStr.mem]. intros [H|H%IH]; tauto.
Qed.

(** So does the entity step of the converter. *)
Lemma escape_entities_without_underscore (xhtml_content : string) :
  ~ PyStr.mem "_" xhtml_content ->
  Both.escape_entities xhtml_content = escape_entities_spec xhtml_content.
Proof.
  intros H. apply escape_ampersands_without_underscore.
  intros [Hmem|Hmem]%mem_replace_go; [done|]. cbn in Hmem. by repeat destruct Hmem as [Hmem|Hmem].
Qed.

(** C9.  On a text that holds the wording of a placeholder,
    [___ENTITY_0___] or its beginning, the entity step puts the first
    entity of the text in its place: the text changes where it has no
    ampersand, and an entity moves, where the escaping of the bare
    ampersands leaves the text as it is.  On the third text, which has
    no such wording, the two agree. *)
Theorem placeholder_wording_is_replaced :
  Both.escape_entities "see ___ENTITY_0___ &lt; 5" = "see &lt; &lt; 5"
  /\ escape_entities_spec "see ___ENTITY_0___ &lt; 5" = "see ___ENTITY_0___ &lt; 5"
  /\ Both.escape_entities "___ENTITY_0&amp;" = "&amp;ENTITY_0___"
  /\ escape_entities_spec "___ENTITY_0&amp;" = "___ENTITY_0&amp;"
  /\ Both.escape_entities "R&D &amp; &nbsp;&#169; &#x; &copy"
     = "R&amp;D &amp; &#160;&#169; &amp;#x; &amp;copy"
  /\ escape_entities_spec "R&D &amp; &nbsp;&#169; &#x; &copy"
     = "R&amp;D &amp; &#160;&#169; &amp;#x; &amp;copy".
Proof. vm_compute. done. Qed.

End EntityFacts.

(** ** Documents without a body *)

Module ConverterFacts.
Import Samples ArchiveDefs ArchiveFacts.

(** In a document without a [body] tag [create_epub_complete.py] makes a
    page of the fragment, and [create_both_epubs.py] writes nothing and
    prints for it the line it prints for every document it converts. *)
Lemma fragment_converted_or_dropped_silently :
  Bs4.find "body" fragment = None
  /\ (exists xhtml,
        Complete.convert_html_to_xhtml (sample_libs fragment zip_namelist)
          "toc.html" false false project
        = Returns (Some xhtml, project))
  /\ Both.convert_step (sample_libs fragment zip_namelist) (fun _ _ _ _ => "")
       "epub_gumroad" false "toc.html" project
     = Returns (tt, World (files project) [] [Converting "toc.html"])
  /\ Both.convert_step (sample_libs page zip_namelist) (fun _ _ _ _ => "")
       "epub_gumroad" false "toc.html" project
     = Returns (tt, World (files project ++ [("epub_gumroad/OEBPS/Text/toc.xhtml", "")])
                      [] [Converting "toc.html"]).
Proof.
  split; [reflexivity|]. split; [eexists; vm_compute; reflexivity|].
  split; vm_compute; reflexivity.
Qed.

(** C5.  For a source document without a [body] tag, the converter of
    [create_both_epubs.py] returns [None] and leaves the files and the
    printed lines as they are, and the step of the loop that calls it
    prints its line [Converting ...] and nothing else; the converter of
    [create_epub_complete.py] takes the whole document as the content
    root and, when the title has a string, returns a page. *)
Theorem no_body_passes_without_warning (lib : libs)
    (assemble : string -> bool -> Bs4.node -> Bs4.node -> string)
    (base_dir html_file content : string) (kdp_mode is_cover : bool) (w : world) :
  Store.lookup html_file (files w) = Some content ->
  Bs4.find "body" (parse_html lib content) = None ->
  Both.convert_html_to_xhtml lib assemble html_file (base_dir +:+ "/OEBPS/Text") kdp_mode w
  = Returns (None, w)
  /\ Both.convert_step lib assemble base_dir kdp_mode html_file w
     = Returns (tt, World (files w) (archives w) (stdout w ++ [Converting html_file]))
  /\ Complete.content_root (parse_html lib content) = parse_html lib content
  /\ forall title,
       Complete.document_title (parse_html lib content) = Some title ->
       exists xhtml,
         Complete.convert_html_to_xhtml lib html_file kdp_mode is_cover w
         = Returns (Some xhtml, w).
Proof.
  intros Hfile Hbody.
  assert (Hconv : forall w0, files w0 = files w ->
            Both.convert_html_to_xhtml lib assemble html_file (base_dir +:+ "/OEBPS/Text")
              kdp_mode w0 = Returns (None, w0)).
  { intros w0 Hw0. unfold Both.convert_html_to_xhtml. rewrite bind_unfold.
    unfold read_file. rewrite Hw0, Hfile. cbv zeta. by rewrite Hbody. }
  assert (Hexists : forall w0, files w0 = files w ->
            path_exists html_file w0 = Returns (true, w0)).
  { intros w0 Hw0. unfold path_exists, Store.is_file. by rewrite Hw0, Hfile. }
  split; [by apply Hconv|]. split; [|split].
  - unfold Both.convert_step. rewrite bind_unfold, Hexists by done.
    rewrite bind_unfold. cbn [print]. rewrite bind_unfold, Hconv by done. done.
  - unfold Complete.content_root. by rewrite Hbody.
  - intros title Htitle. unfold Complete.convert_html_to_xhtml.
    rewrite bind_unfold, Hexists by done. rewrite bind_unfold.
    unfold read_file. rewrite Hfile. cbv zeta. rewrite Htitle. by eexists.
Qed.

Lemma no_body_passes_without_warning_witness :
  Both.convert_html_to_xhtml (sample_libs fragment zip_namelist) (fun _ _ _ _ => "")
    "toc.html" ("epub_gumroad" +:+ "/OEBPS/Text") false project
  = Returns (None, project)
  /\ Both.convert_step (sample_libs fragment zip_namelist) (fun _ _ _ _ => "")
       "epub_gumroad" false "toc.html" project
     = Returns (tt, World (files project) (archives project)
                      (stdout project ++ [Converting "toc.html"]))
  /\ Complete.content_root (parse_html (sample_libs fragment zip_namelist) "<html/>")
     = parse_html (sample_libs fragment zip_namelist) "<html/>"
  /\ forall title,
       Complete.document_title (parse_html (sample_libs fragment zip_namelist) "<html/>")
       = Some title ->
       exists xhtml,
         Complete.convert_html_to_xhtml (sample_libs fragment zip_namelist)
           "toc.html" false false project
         = Returns (Some xhtml, project).
Proof.
  apply (no_body_passes_without_warning (sample_libs fragment zip_namelist)
           (fun _ _ _ _ => "") "epub_gumroad" "toc.html" "<html/>" false false project);
    reflexivity.
Defined.

End ConverterFacts.

(** ** Sample builds *)

Module BuildFacts.
Import Samples ArchiveDefs ArchiveFacts.

Lemma mimetype_entry_first_witness :
  exists returned w' others,
    Complete.create_epub (sample_libs page zip_namelist) false "book.epub"
      "<container/>" "body {}" metadata project
    = Returns (returned, w')
    /\ Store.lookup_archive "book.epub" (archives w')
       = Some (ZipEntry "mimetype" ZIP_STORED "application/epub+zip" :: others)
    /\ Forall (fun e => arcname e <> "mimetype" /\ compress_type e = ZIP_DEFLATED) others.
Proof.
  destruct (Complete.create_epub (sample_libs page zip_namelist) false "book.epub"
              "<container/>" "body {}" metadata project) as [[returned w']|e w'] eqn:H.
  - destruct (mimetype_entry_first _ _ _ _ _ _ _ _ _ H) as (others & H1 & H2).
    exists returned, w', others. exact (conj eq_refl (conj H1 H2)).
  - exfalso. vm_compute in H. discriminate H.
Defined.

Lemma mimetype_order_violation_reported_witness :
  exists w',
    Complete.create_epub_file (sample_libs page reversed) "book.epub" metadata build_tree
    = Returns ("book.epub", w')
    /\ stdout w' = stdout build_tree
                   ++ [ CreatingEpub "book.epub";
                        WarningMimetypeNotFirst "OEBPS/images/toc.png";
                        EpubCreated "book.epub" ]
    /\ Store.lookup_archive "book.epub" (archives w')
       = Some (written_entries (files (opening "book.epub" build_tree))
                 "application/epub+zip").
Proof.
  eapply (proj1 mimetype_order_violation_reported
            (sample_libs page reversed) "book.epub" metadata build_tree
            "application/epub+zip" "OEBPS/images/toc.png").
  - reflexivity.
  - vm_compute. reflexivity.
  - discriminate.
Defined.

(** A whole run with a reader that lists every archive last to first:
    both builds print the warning, and [main] returns [True]. *)
Lemma run_with_reversed_reader :
  exists w',
    Complete.main (sample_libs page reversed) "<container/>" "body {}" project
    = Returns (true, w')
    /\ List.filter (fun m => match m with WarningMimetypeNotFirst _ => true | _ => false end)
         (stdout w')
       = [ WarningMimetypeNotFirst "OEBPS/nav.xhtml";
           WarningMimetypeNotFirst "OEBPS/nav.xhtml" ]
    /\ List.map fst (archives w')
       = ["Escape_The_Hell_Myth_Gumroad.epub"; "Escape_The_Hell_Myth_KDP.epub"].
Proof.
  destruct (Complete.main (sample_libs page reversed) "<container/>" "body {}" project)
    as [[ok w']|e w'] eqn:H; vm_compute in H; [|discriminate H].
  injection H as <- <-. eexists. split; [reflexivity|]. split; vm_compute; reflexivity.
Qed.

End BuildFacts.

(** ** The metadata checker *)

Module MetadataFacts.
Import CheckMetadata ResolverDefs MetadataDefs.

Lemma nonblank_insert (m : gmap string string) (k v : string) :
  nonblank m -> PyStr.truthy v = true -> nonblank (<[k := v]> m).
Proof.
  intros Hm Hv k' v'. destruct (decide (k = k')) as [<-|Hne].
  - rewrite lookup_insert_eq. by intros [= <-].
  - rewrite lookup_insert_ne by done. apply Hm.
Qed.

Lemma ask_required_value (description : string) (stdin : list string) :
  forall shown value rest shown',
    ask_required description stdin shown = Some (value, rest, shown') ->
    PyStr.truthy value = true
    /\ exists line, In line stdin /\ value = PyStr.strip line.
Proof.
  induction stdin as [|line stdin IH]; intros shown value rest shown'; [done|].
  cbn [ask_required]. destruct (PyStr.truthy (PyStr.strip line)) eqn:Hline.
  - intros [= <- <- <-]. split; [done|]. exists line. split; [by left|done].
  - intros H. destruct (IH _ _ _ _ H) as (Hv & l & Hin & ->).
    split; [done|]. exists l. split; [by right|done].
Qed.

Lemma ask_all_required_record (missing_fields : list (string * string)) :
  forall metadata stdin shown metadata' rest shown',
    ask_all_required missing_fields metadata stdin shown = Some (metadata', rest, shown') ->
    nonblank metadata ->
    nonblank metadata'
    /\ (forall k, is_Some (metadata !! k) -> is_Some (metadata' !! k))
    /\ (forall fd, In fd missing_fields -> is_Some (metadata' !! fd.1)).
Proof.
  induction missing_fields as [|[field description] missing_fields IH];
    intros metadata stdin shown metadata' rest shown'.
  - intros [= <- <- <-] Hm. split; [done|]. split; [done|]. by intros fd [].
  - cbn [ask_all_required].
    destruct (ask_required description stdin shown) as [[[value stdin1] shown1]|] eqn:Hask;
      [|done].
    cbn [mbind option_bind]. intros H Hm. destruct (ask_required_value _ _ _ _ _ _ Hask) as [Hv _].
    destruct (IH _ _ _ _ _ _ H (nonblank_insert _ field _ Hm Hv)) as (H1 & H2 & H3).
    split; [done|]. split.
    + intros k Hk. apply H2. destruct (decide (field = k)) as [<-|Hne].
      * by rewrite lookup_insert_eq.
      * by rewrite lookup_insert_ne.
    + intros fd [<-|Hin]; [|by apply H3]. apply H2. by rewrite lookup_insert_eq.
Qed.

Lemma ask_optional_record (fields : list (string * string)) :
  forall metadata stdin shown metadata' rest shown',
    ask_optional fields metadata stdin shown = Some (metadata', rest, shown') ->
    nonblank metadata ->
    nonblank metadata'
    /\ (forall k, is_Some (metadata !! k) -> is_Some (metadata' !! k)).
Proof.
  induction fields as [|[field description] fields IH];
    intros metadata stdin shown metadata' rest shown'.
  - intros [= <- <- <-] Hm. done.
  - cbn [ask_optional]. destruct stdin as [|line stdin]; [done|].
    intros H Hm. apply IH in H as [H1 H2].
    + split; [done|]. intros k Hk. apply H2.
      destruct (PyStr.truthy (PyStr.strip line));
        [|destruct (String.eqb field "language"); [|done]].
      * destruct (decide (field = k)) as [<-|Hne];
          [by rewrite lookup_insert_eq|by rewrite lookup_insert_ne].
      * destruct (decide (field = k)) as [<-|Hne];
          [by rewrite lookup_insert_eq|by rewrite lookup_insert_ne].
    + destruct (PyStr.truthy (PyStr.strip line)) eqn:Hline;
        [by apply nonblank_insert|].
      destruct (String.eqb field "language"); [by apply nonblank_insert|done].
Qed.

Lemma prompt_record (missing_fields : list (string * string))
    (stdin : list string) (shown : list message)
    (new_metadata : gmap string string) (rest : list string) (shown' : list message) :
  prompt_for_missing_metadata missing_fields stdin shown = Some (new_metadata, rest, shown') ->
  nonblank new_metadata
  /\ forall fd, In fd missing_fields -> is_Some (new_metadata !! fd.1).
Proof.
  unfold prompt_for_missing_metadata.
  destruct (ask_all_required _ _ _ _) as [[[m1 stdin1] shown1]|] eqn:Hreq; [|done].
  cbn [mbind option_bind]. intros Hopt.
  destruct (ask_all_required_record _ _ _ _ _ _ _ Hreq) as (H1 & _ & H3); [done|].
  destruct (ask_optional_record _ _ _ _ _ _ _ Hopt H1) as [H4 H5].
  split; [done|]. intros fd Hfd. by apply H5, H3.
Qed.

Lemma check_required_nil (metadata : gmap string string) :
  check_required_metadata metadata = []
  <-> forall fd, In fd required_fields ->
                 exists v, metadata !! fd.1 = Some v /\ PyStr.truthy v = true.
Proof.
  unfold check_required_metadata. split.
  - intros H fd Hfd.
    assert (is_missing metadata fd.1 = false) as Hm.
    { destruct (is_missing metadata fd.1) eqn:E; [|done].
      assert (In fd (List.filter (fun fd => is_missing metadata fd.1) required_fields))
        as Hin by (apply filter_In; done).
      rewrite H in Hin. destruct Hin. }
    unfold is_missing in Hm. destruct (metadata !! fd.1) as [v|]; [|done].
    exists v. split; [done|]. by destruct (PyStr.truthy v).
  - intros H. destruct (List.filter _ _) as [|fd l] eqn:E; [done|].
    assert (In fd (List.filter (fun fd => is_missing metadata fd.1) required_fields))
      as [Hin Hm]%filter_In by (rewrite E; by left).
    destruct (H fd Hin) as (v & Hv & Ht). unfold is_missing in Hm.
    rewrite Hv, Ht in Hm. done.
Qed.

Lemma merged_complete (metadata new_metadata : gmap string string) :
  nonblank new_metadata ->
  (forall fd, In fd (check_required_metadata metadata) -> is_Some (new_metadata !! fd.1)) ->
  check_required_metadata (new_metadata ∪ metadata) = [].
Proof.
  intros Hnb Hmissing. apply check_required_nil. intros fd Hfd.
  destruct (new_metadata !! fd.1) as [v|] eqn:Hnew.
  - exists v. split; [by apply lookup_union_Some_l|by apply (Hnb fd.1)].
  - destruct (is_missing metadata fd.1) eqn:Hm.
    + assert (In fd (check_required_metadata metadata)) as Hin by (by apply filter_In).
      apply Hmissing in Hin as [v Hv]. congruence.
    + unfold is_missing in Hm. destruct (metadata !! fd.1) as [v|] eqn:Hold; [|done].
      exists v. split; [|by destruct (PyStr.truthy v)].
      rewrite lookup_union_r; done.
Qed.

(** X1.  When the prompting for the missing fields of a record returns,
    the record merged as [main] merges it has every required field with
    a non-empty value. *)
Theorem prompted_record_complete (metadata : gmap string string)
    (stdin : list string) (shown : list message)
    (new_metadata : gmap string string) (rest : list string) (shown' : list message) :
  prompt_for_missing_metadata (check_required_metadata metadata) stdin shown
  = Some (new_metadata, rest, shown') ->
  check_required_metadata (new_metadata ∪ metadata) = [].
Proof.
  intros Hprompt. destruct (prompt_record _ _ _ _ _ _ Hprompt) as [Hnb Hmissing].
  by apply merged_complete.
Qed.

Lemma prompted_record_complete_witness :
  match prompt_for_missing_metadata (check_required_metadata incomplete)
          ["Hill Press"; ""; ""; ""; ""; ""] [] with
  | Some (new_metadata, _, _) => check_required_metadata (new_metadata ∪ incomplete) = []
  | None => False
  end.
Proof.
  destruct (prompt_for_missing_metadata (check_required_metadata incomplete)
              ["Hill Press"; ""; ""; ""; ""; ""] [])
    as [[[new_metadata rest] shown']|] eqn:H.
  - exact (prompted_record_complete incomplete _ _ _ _ _ H).
  - vm_compute in H. discriminate H.
Defined.






Lemma check_cover_image_ok (sizes : gmap string N) (cover_path : string)
    (verdict : cover_verdict) :
  check_cover_image sizes cover_path = (true, verdict) -> verdict = CoverOK.
Proof.
  unfold check_cover_image. repeat case_match; by intros [= <-].
Qed.

(** The end of [main], from the cover check on. *)
Lemma main_success (d : disk) (stdin : list string) (d' : disk) (out : list report) :
  main d stdin = Some (true, d', out) ->
  exists persisted,
    json_record d' = Some (Some persisted)
    /\ check_required_metadata persisted = []
    /\ match persisted !! "cover_image" with
       | Some cover_path => check_cover_image (sizes d') cover_path = (true, CoverOK)
       | None => True
       end.
Proof.
  unfold main.
  set (finish := fun (metadata : gmap string string) (d : disk) (shown : list message) =>
    match metadata !! "cover_image" with
    | Some cover_path =>
        let '(cover_ok, cover_msg) := check_cover_image (sizes d) cover_path in
        if cover_ok
        then Some (true, d, (Shown <$> shown) ++ [CoverReport cover_msg]
                            ++ [Shown (Line "All metadata requirements met!")])
        else Some (false, d, (Shown <$> shown) ++ [CoverReport cover_msg])
    | None => Some (true, d, (Shown <$> shown)
                             ++ [Shown (Line "All metadata requirements met!")])
    end).
  assert (Hfinish : forall metadata d0 shown,
             json_record d0 = Some (Some metadata) ->
             check_required_metadata metadata = [] ->
             finish metadata d0 shown = Some (true, d', out) ->
             exists persisted,
               json_record d' = Some (Some persisted)
               /\ check_required_metadata persisted = []
               /\ match persisted !! "cover_image" with
                  | Some cover_path =>
                      check_cover_image (sizes d') cover_path = (true, CoverOK)
                  | None => True
                  end).
  { intros metadata d0 shown Hrec Hcomplete. unfold finish.
    destruct (metadata !! "cover_image") as [cover_path|] eqn:Hcover.
    - destruct (check_cover_image (sizes d0) cover_path) as [[] verdict] eqn:Hcheck;
        [|done].
      intros [= <- <-]. exists metadata. rewrite Hcover.
      by rewrite (check_cover_image_ok _ _ _ Hcheck) in Hcheck.
    - intros [= <- <-]. exists metadata. by rewrite Hcover. }
  destruct (json_record d) as [[metadata|]|] eqn:Hrec.
  - destruct (decide (metadata = ∅)) as [|Hne]; [done|].
    destruct (check_required_metadata metadata) as [|fd missing] eqn:Hmissing.
    + cbn [mbind option_bind]. by apply Hfinish.
    + destruct (prompt_for_missing_metadata (fd :: missing) stdin _)
        as [[[new_metadata rest] shown']|] eqn:Hprompt; [|done].
      cbn [mbind option_bind]. apply Hfinish; [done|].
      rewrite <- Hmissing in Hprompt.
      destruct (prompt_record _ _ _ _ _ _ Hprompt) as [Hnb Hasked].
      by apply merged_complete.
  - done.
  - destruct (txt_exists d); [done|].
    destruct (check_required_metadata ∅) as [|fd missing] eqn:Hmissing; [done|].
    destruct (prompt_for_missing_metadata (fd :: missing) stdin _)
      as [[[new_metadata rest] shown']|] eqn:Hprompt; [|done].
    cbn [mbind option_bind]. apply Hfinish; [done|].
    rewrite <- Hmissing in Hprompt.
    destruct (prompt_record _ _ _ _ _ _ Hprompt) as [Hnb Hasked].
    by apply merged_complete.
Qed.

(** X3.  When [main] reports success, the disk holds a record with
    every required field, and the cover image that the record names has
    passed the cover check. *)
Theorem main_succeeds_on_complete_record (d : disk) (stdin : list string)
    (d' : disk) (out : list report) :
  main d stdin = Some (true, d', out) ->
  exists persisted cover_path,
    json_record d' = Some (Some persisted)
    /\ check_required_metadata persisted = []
    /\ persisted !! "cover_image" = Some cover_path
    /\ check_cover_image (sizes d') cover_path = (true, CoverOK).
Proof.
  intros (persisted & Hrec & Hcomplete & Hcover)%main_success.
  destruct (proj1 (check_required_nil persisted) Hcomplete
              ("cover_image", "Cover Image Path")) as (cover_path & Hpath & _).
  { cbn. tauto. }
  cbn [fst] in Hpath. rewrite Hpath in Hcover. by exists persisted, cover_path.
Qed.

Lemma main_succeeds_on_complete_record_witness :
  match main incomplete_disk ["Hill Press"; ""; ""; ""; ""; ""] with
  | Some (true, d', _) =>
      exists persisted cover_path,
        json_record d' = Some (Some persisted)
        /\ check_required_metadata persisted = []
        /\ persisted !! "cover_image" = Some cover_path
        /\ check_cover_image (sizes d') cover_path = (true, CoverOK)
  | _ => False
  end.
Proof.
  destruct (main incomplete_disk ["Hill Press"; ""; ""; ""; ""; ""])
    as [[[[] d'] out]|] eqn:H.
  - exact (main_succeeds_on_complete_record _ _ _ _ H).
  - vm_compute in H. discriminate H.
  - vm_compute in H. discriminate H.
Defined.

(** X4.  For a persisted record with every required field [main] reads
    nothing from the input and leaves the disk as it is, whatever the
    input holds; it reports success exactly when the cover image of the
    record passes the cover check. *)
Theorem complete_record_is_not_prompted (metadata : gmap string string) (txt : bool)
    (sizes : gmap string N) (stdin : list string) :
  check_required_metadata metadata = [] ->
  exists ok out,
    main (Disk (Some (Some metadata)) txt sizes) stdin
    = Some (ok, Disk (Some (Some metadata)) txt sizes, out)
    /\ prompts out = []
    /\ (ok = true
        <-> exists cover_path,
              metadata !! "cover_image" = Some cover_path
              /\ (check_cover_image sizes cover_path).1 = true).
Proof.
  intros Hcomplete.
  destruct (proj1 (check_required_nil metadata) Hcomplete
              ("cover_image", "Cover Image Path")) as (cover_path & Hpath & _).
  { cbn. tauto. }
  cbn [fst] in Hpath.
  assert (metadata <> ∅) as Hne by (intros ->; done).
  unfold main. cbn [json_record txt_exists CheckMetadata.sizes].
  destruct (decide (metadata = ∅)) as [|_]; [done|].
  rewrite Hcomplete. cbn [mbind option_bind CheckMetadata.sizes]. rewrite Hpath.
  destruct (check_cover_image sizes cover_path) as [[] verdict] eqn:Hcheck.
  - eexists _, _. split; [reflexivity|]. split; [reflexivity|].
    split; [|done]. intros _. exists cover_path. by rewrite Hcheck.
  - eexists _, _. split; [reflexivity|]. split; [reflexivity|].
    split; [done|]. intros (c & [= <-] & Hc). by rewrite Hcheck in Hc.
Qed.

Lemma complete_record_is_not_prompted_witness :
  exists ok out,
    main (Disk (Some (Some (<["publisher" := "Hill Press"]> incomplete))) false
            {[ "cover.png" := (2 * 1024 * 1024)%N ]}) []
    = Some (ok, Disk (Some (Some (<["publisher" := "Hill Press"]> incomplete))) false
                  {[ "cover.png" := (2 * 1024 * 1024)%N ]}, out)
    /\ prompts out = []
    /\ (ok = true
        <-> exists cover_path,
              <["publisher" := "Hill Press"]> incomplete !! "cover_image" = Some cover_path
              /\ (check_cover_image {[ "cover.png" := (2 * 1024 * 1024)%N ]} cover_path).1
                 = true).
Proof.
  apply (complete_record_is_not_prompted (<["publisher" := "Hill Press"]> incomplete) false
           {[ "cover.png" := (2 * 1024 * 1024)%N ]} []).
  vm_compute. reflexivity.
Defined.

End MetadataFacts.

(** ** The cleaned body *)

Module TreeFacts.
Import PyStr PyStrFacts TreeDefs.

(** Induction on a document tree, with the hypothesis for every child. *)
Lemma node_induction (P : Bs4.node -> Prop) :
  (forall text, P (Bs4.NavigableString text)) ->
  (forall text, P (Bs4.Comment text)) ->
  (forall nm a cs, Forall P cs -> P (Bs4.Tag nm a cs)) ->
  forall n, P n.
Proof.
  intros Hs Hc Ht. fix IH 1. intros [text|text|nm a cs]; [apply Hs|apply Hc|].
  apply Ht. induction cs as [|c cs IHcs]; constructor; [apply IH|apply IHcs].
Qed.

Lemma decompose_all_contents (matches : Bs4.node -> bool) (nm : string) (a : Bs4.attrs)
    (cs : list Bs4.node) :
  Bs4.decompose_all matches (Bs4.Tag nm a cs)
  = Bs4.Tag nm a
      (List.map (Bs4.decompose_all matches)
         (List.filter (fun c => negb (matches c)) cs)).
Proof.
  cbn [Bs4.decompose_all]. f_equal.
  induction cs as [|c cs IH]; [done|]. cbn [List.filter List.map].
  destruct (matches c); cbn [negb List.map]; by rewrite IH.
Qed.

Lemma every_decompose_keeps (P matches : Bs4.node -> bool) :
  (forall nm a cs cs', P (Bs4.Tag nm a cs) = true -> P (Bs4.Tag nm a cs') = true) ->
  forall n, every P n = true -> every P (Bs4.decompose_all matches n) = true.
Proof.
  intros HP. induction n as [text|text|nm a cs IH] using node_induction; [done|done|].
  rewrite decompose_all_contents. cbn [every].
  intros [Hn Hcs]%andb_true_iff. apply andb_true_iff. split; [by eapply HP|].
  apply forallb_forall. intros c' (c & <- & [Hc _]%filter_In)%in_map_iff.
  rewrite Forall_forall in IH. apply IH; [by apply list_elem_of_In|].
  rewrite forallb_forall in Hcs. by apply Hcs.
Qed.

Lemma every_decompose_removes (matches : Bs4.node -> bool) :
  (forall nm a cs cs', matches (Bs4.Tag nm a cs) = matches (Bs4.Tag nm a cs')) ->
  forall n, matches n = false ->
            every (fun c => negb (matches c)) (Bs4.decompose_all matches n) = true.
Proof.
  intros Hm. induction n as [text|text|nm a cs IH] using node_induction; [done|done|].
  rewrite decompose_all_contents. cbn [every]. intros Hn.
  apply andb_true_iff. split; [by rewrite (Hm nm a _ cs), Hn|].
  apply forallb_forall. intros c' (c & <- & [Hc Hkeep]%filter_In)%in_map_iff.
  rewrite Forall_forall in IH. apply IH; [by apply list_elem_of_In|].
  by destruct (matches c).
Qed.

Lemma every_below_decompose_keeps (P matches : Bs4.node -> bool) (root : Bs4.node) :
  (forall nm a cs cs', P (Bs4.Tag nm a cs) = true -> P (Bs4.Tag nm a cs') = true) ->
  every_below P root = true -> every_below P (Bs4.decompose_all matches root) = true.
Proof.
  intros HP. destruct root as [text|text|nm a cs]; [done|done|].
  rewrite decompose_all_contents. unfold every_below. cbn [Bs4.contents].
  rewrite !forallb_forall. intros H c' (c & <- & [Hc _]%filter_In)%in_map_iff.
  apply every_decompose_keeps; [done|]. by apply H.
Qed.

Lemma every_below_decompose_removes (matches : Bs4.node -> bool) (root : Bs4.node) :
  (forall nm a cs cs', matches (Bs4.Tag nm a cs) = matches (Bs4.Tag nm a cs')) ->
  every_below (fun c => negb (matches c)) (Bs4.decompose_all matches root) = true.
Proof.
  intros Hm. destruct root as [text|text|nm a cs]; [done|done|].
  rewrite decompose_all_contents. unfold every_below. cbn [Bs4.contents].
  apply forallb_forall. intros c' (c & <- & [Hc Hkeep]%filter_In)%in_map_iff.
  apply every_decompose_removes; [done|]. by destruct (matches c).
Qed.

Lemma every_update (P Q : Bs4.node -> bool) (f : string -> Bs4.attrs -> Bs4.attrs) :
  (forall nm a cs cs', P (Bs4.Tag nm a cs) = true -> Q (Bs4.Tag nm (f nm a) cs') = true) ->
  forall n, every P n = true -> every Q (Bs4.update_self f n) = true.
Proof.
  intros HP. induction n as [text|text|nm a cs IH] using node_induction; [done|done|].
  cbn [Bs4.update_self every]. intros [Hn Hcs]%andb_true_iff.
  apply andb_true_iff. split; [by eapply HP|].
  apply forallb_forall. intros c' (c & <- & Hc)%in_map_iff.
  rewrite Forall_forall in IH. apply IH; [by apply list_elem_of_In|].
  rewrite forallb_forall in Hcs. by apply Hcs.
Qed.

Lemma every_below_update (P Q : Bs4.node -> bool) (f : string -> Bs4.attrs -> Bs4.attrs)
    (root : Bs4.node) :
  (forall nm a cs cs', P (Bs4.Tag nm a cs) = true -> Q (Bs4.Tag nm (f nm a) cs') = true) ->
  every_below P root = true -> every_below Q (Bs4.update_all f root) = true.
Proof.
  intros HP. destruct root as [text|text|nm a cs]; [done|done|].
  unfold every_below. cbn [Bs4.update_all Bs4.contents].
  rewrite !forallb_forall. intros H c' (c & <- & Hc)%in_map_iff.
  apply (every_update P); [done|]. by apply H.
Qed.

Lemma every_true (n : Bs4.node) : every (fun _ => true) n = true.
Proof.
  induction n as [text|text|nm a cs IH] using node_induction; [done|done|].
  cbn [every andb]. apply forallb_forall. intros c Hc.
  rewrite Forall_forall in IH. by apply IH, list_elem_of_In.
Qed.

Lemma every_below_true (root : Bs4.node) : every_below (fun _ => true) root = true.
Proof. apply forallb_forall. intros c _. apply every_true. Qed.

Lemma every_and (P Q : Bs4.node -> bool) (n : Bs4.node) :
  every P n = true -> every Q n = true -> every (fun c => P c && Q c) n = true.
Proof.
  induction n as [text|text|nm a cs IH] using node_induction; [done|done|].
  cbn [every]. intros [HP HPs]%andb_true_iff [HQ HQs]%andb_true_iff.
  rewrite HP, HQ. cbn [andb]. apply forallb_forall. intros c Hc.
  rewrite Forall_forall in IH. rewrite forallb_forall in HPs, HQs.
  apply IH; [by apply list_elem_of_In|by apply HPs|by apply HQs].
Qed.

Lemma every_below_and (P Q : Bs4.node -> bool) (root : Bs4.node) :
  every_below P root = true -> every_below Q root = true ->
  every_below (fun c => P c && Q c) root = true.
Proof.
  unfold every_below. rewrite !forallb_forall. intros HP HQ c Hc.
  apply every_and; [by apply HP|by apply HQ].
Qed.

Lemma every_impl (P Q : Bs4.node -> bool) (n : Bs4.node) :
  (forall c, P c = true -> Q c = true) -> every P n = true -> every Q n = true.
Proof.
  intros HPQ. induction n as [text|text|nm a cs IH] using node_induction; [done|done|].
  cbn [every]. intros [HP HPs]%andb_true_iff. rewrite (HPQ _ HP). cbn [andb].
  apply forallb_forall. intros c Hc. rewrite Forall_forall in IH.
  rewrite forallb_forall in HPs. apply IH; [by apply list_elem_of_In|by apply HPs].
Qed.

Lemma every_below_impl (P Q : Bs4.node -> bool) (root : Bs4.node) :
  (forall c, P c = true -> Q c = true) ->
  every_below P root = true -> every_below Q root = true.
Proof.
  unfold every_below. rewrite !forallb_forall. intros HPQ HP c Hc.
  apply (every_impl P); [done|by apply HP].
Qed.

(** *** Attributes *)

Lemma get_set_eq (k v : string) (a : Bs4.attrs) : Bs4.get k (Bs4.set k v a) = v.
Proof.
  induction a as [|[k' v'] a IH]; cbn [Bs4.set Bs4.get].
  - by rewrite String.eqb_refl.
  - destruct (String.eqb k' k) eqn:E; cbn [Bs4.get]; by rewrite E.
Qed.

Lemma get_set_ne (k k' v : string) (a : Bs4.attrs) :
  k <> k' -> Bs4.get k' (Bs4.set k v a) = Bs4.get k' a.
Proof.
  intros Hne. induction a as [|[k0 v0] a IH]; cbn [Bs4.set Bs4.get].
  - by apply String.eqb_neq in Hne as ->.
  - destruct (String.eqb k0 k) eqn:E; cbn [Bs4.get]; [|by rewrite IH].
    apply String.eqb_eq in E as ->. by apply String.eqb_neq in Hne as ->.
Qed.

Lemma has_attr_set (k v : string) (a : Bs4.attrs) : Bs4.has_attr k (Bs4.set k v a) = true.
Proof.
  induction a as [|[k' v'] a IH]; cbn [Bs4.set Bs4.has_attr].
  - by rewrite String.eqb_refl.
  - destruct (String.eqb k' k) eqn:E; cbn [Bs4.has_attr]; rewrite E; [done|].
    by rewrite IH.
Qed.

Lemma has_attr_get (k : string) (a : Bs4.attrs) :
  PyStr.truthy (Bs4.get k a) = true -> Bs4.has_attr k a = true.
Proof.
  induction a as [|[k' v'] a IH]; cbn [Bs4.get Bs4.has_attr]; [done|].
  destruct (String.eqb k' k); [done|]. apply IH.
Qed.

Lemma fix_image_get (is_cover : bool) (nm k : string) (a : Bs4.attrs) :
  k <> "src" -> k <> "alt" ->
  Bs4.get k (Complete.fix_image is_cover nm a) = Bs4.get k a.
Proof.
  intros H1 H2. unfold Complete.fix_image. repeat case_match; try done;
    by rewrite ?get_set_ne by done.
Qed.

Lemma fix_link_get (is_cover : bool) (nm k : string) (a : Bs4.attrs) :
  k <> "href" -> Bs4.get k (Complete.fix_link is_cover nm a) = Bs4.get k a.
Proof.
  intros H1. unfold Complete.fix_link. repeat case_match; try done;
    by rewrite ?get_set_ne by done.
Qed.

Lemma removed_attrs (nm : string) (a a' : Bs4.attrs) (cs cs' : list Bs4.node) :
  Bs4.get "class" a' = Bs4.get "class" a -> Bs4.get "rel" a' = Bs4.get "rel" a ->
  removed (Bs4.Tag nm a' cs') = removed (Bs4.Tag nm a cs).
Proof.
  intros H1 H2. unfold removed, Bs4.is_named, Bs4.has_class, Complete.is_stylesheet_link,
    Bs4.values. by rewrite H1, H2.
Qed.

(** *** The cleaned body *)

(** X5.  Below the body that the converter of [create_epub_complete.py]
    writes out there is no [nav], [header], [footer], [script] or
    [style] element, no element of a navigation class and no stylesheet
    link. *)
Theorem clean_body_removes (is_cover : bool) (body : Bs4.node) :
  every_below (fun n => negb (removed n)) (Complete.clean_body is_cover body) = true.
Proof.
  unfold Complete.clean_body.
  set (m1 := Bs4.is_named ["nav"; "header"; "footer"]).
  set (m2 := Bs4.has_class ["navigation-buttons"; "nav-button"; "enter-button"]).
  set (m3 := Complete.is_stylesheet_link).
  set (m4 := Bs4.is_named ["script"]).
  set (m5 := Bs4.is_named ["style"]).
  assert (Hnode : forall (m : Bs4.node -> bool),
             m = m1 \/ m = m2 \/ m = m3 \/ m = m4 \/ m = m5 ->
             forall nm a cs cs', m (Bs4.Tag nm a cs) = m (Bs4.Tag nm a cs')).
  { intros m [->|[->|[->|[->| ->]]]] nm a cs cs'; reflexivity. }
  assert (Hkeep : forall (m m' : Bs4.node -> bool) root,
             m = m1 \/ m = m2 \/ m = m3 \/ m = m4 \/ m = m5 ->
             every_below (fun n => negb (m n)) root = true ->
             every_below (fun n => negb (m n)) (Bs4.decompose_all m' root) = true).
  { intros m m' root Hm. apply every_below_decompose_keeps.
    intros nm a cs cs'. by rewrite (Hnode m Hm nm a cs cs'). }
  set (b1 := Bs4.decompose_all m1 body).
  set (b2 := Bs4.decompose_all m2 b1).
  set (b3 := Bs4.decompose_all m3 b2).
  set (b4 := Bs4.decompose_all m4 b3).
  set (b5 := Bs4.decompose_all m5 b4).
  assert (H1 : every_below (fun n => negb (m1 n)) b5 = true).
  { do 4 (apply Hkeep; [tauto|]). apply every_below_decompose_removes, Hnode. tauto. }
  assert (H2 : every_below (fun n => negb (m2 n)) b5 = true).
  { do 3 (apply Hkeep; [tauto|]). apply every_below_decompose_removes, Hnode. tauto. }
  assert (H3 : every_below (fun n => negb (m3 n)) b5 = true).
  { do 2 (apply Hkeep; [tauto|]). apply every_below_decompose_removes, Hnode. tauto. }
  assert (H4 : every_below (fun n => negb (m4 n)) b5 = true).
  { apply Hkeep; [tauto|]. apply every_below_decompose_removes, Hnode. tauto. }
  assert (H5 : every_below (fun n => negb (m5 n)) b5 = true).
  { apply every_below_decompose_removes, Hnode. tauto. }
  assert (H : every_below (fun n => negb (removed n)) b5 = true).
  { pose proof (every_below_and _ _ _ (every_below_and _ _ _ (every_below_and _ _ _
                  (every_below_and _ _ _ H1 H2) H3) H4) H5) as Hall.
    revert Hall. apply every_below_impl. intros c. unfold removed. fold m1 m2 m3 m4 m5.
    destruct (m1 c), (m2 c), (m3 c), (m4 c), (m5 c); done. }
  apply (every_below_update (fun n => negb (removed n))).
  { intros nm a cs cs' Hn. rewrite (removed_attrs nm a _ cs cs'); [done| |];
      by apply fix_link_get. }
  apply (every_below_update (fun n => negb (removed n))); [|done].
  intros nm a cs cs' Hn. rewrite (removed_attrs nm a _ cs cs'); [done| |];
    by apply fix_image_get.
Qed.

Lemma xhtml_not_html (s : string) :
  endswith s ".xhtml" = true -> endswith s ".html" = false.
Proof.
  intros [t ->]%LinkFacts.endswith_split.
  destruct (endswith (t +:+ ".xhtml") ".html") eqn:E; [|done].
  apply LinkFacts.endswith_split in E as [u Hu].
  apply (f_equal (fun x => String.get (String.length t) x)) in Hu as Hget.
  assert (Hlen : String.length u = S (String.length t)).
  { apply (f_equal String.length) in Hu. rewrite !ManifestFacts.length_append in Hu.
    cbn [String.length] in Hu. lia. }
  assert (forall (p x : string), String.get (String.length p) (p +:+ x) = String.get 0 x) as Hat.
  { intros p x. induction p as [|c p IH]; [by rewrite append_nil_l|].
    rewrite append_cons. cbn [String.length String.get]. apply IH. }
  assert (forall (p x : string) (c : ascii),
             String.length p = S (String.length t) ->
             String.get (String.length t) (p +:+ x) = String.get (String.length t) p) as Hin.
  { intros p x c. generalize (String.length t). intros n. revert p.
    induction n as [|n IH]; intros [|d p] Hp; cbn in Hp; try lia.
    - by rewrite append_cons.
    - rewrite append_cons. cbn [String.get]. apply IH. lia. }
  rewrite Hat, (Hin u ".html" "x"%char Hlen) in Hget. cbn in Hget.
  (* the character of [u] at the place of [x] is the dot before [html] *)
  apply (f_equal (fun x => String.get (S (String.length t)) x)) in Hu.
  assert (forall (p x : string), String.get (S (String.length p)) (p +:+ x) = String.get 1 x)
    as Hat1.
  { intros p x. induction p as [|c p IH]; [by rewrite append_nil_l|].
    rewrite append_cons. cbn [String.length String.get]. apply IH. }
  rewrite Hat1 in Hu. rewrite <- Hlen, Hat in Hu. cbn in Hu. done.
Qed.

(** X6.  Below the body that the converter of [create_epub_complete.py]
    writes out no [a] tag has an [href] that ends in [.html]. *)
Theorem clean_body_leaves_no_html_link (is_cover : bool) (body : Bs4.node) :
  every_below (fun n => negb (html_link n)) (Complete.clean_body is_cover body) = true.
Proof.
  unfold Complete.clean_body.
  apply (every_below_update (fun _ => true)); [|apply every_below_true].
  intros nm a cs cs' _. unfold html_link, Complete.fix_link.
  destruct (String.eqb nm "a") eqn:Hnm; [|done]. cbn [andb].
  destruct (truthy (Bs4.get "href" a) && endswith (Bs4.get "href" a) ".html") eqn:Hhref.
  - apply andb_true_iff in Hhref as [_ Hend].
    by rewrite get_set_eq, (xhtml_not_html _ (LinkFacts.complete_fix_href_end _ _ Hend)).
  - destruct (Bs4.get "href" a) as [|c href]; [done|]. cbn [truthy andb] in Hhref.
    by rewrite Hhref.
Qed.

Lemma after_last_no_sep (sep : ascii) (s : string) :
  ~ mem sep s -> PyPath.after_last sep s = None.
Proof.
  induction s as [|c s IH]; [done|]. cbn [mem PyPath.after_last]. intros H.
  rewrite IH by tauto. destruct (Ascii.eqb_spec c sep) as [->|]; [tauto|done].
Qed.

Lemma after_last_mem (sep : ascii) (s r : string) :
  PyPath.after_last sep s = Some r -> ~ mem sep r.
Proof.
  revert r. induction s as [|c s IH]; intros r; [done|]. cbn [PyPath.after_last].
  destruct (PyPath.after_last sep s) as [r'|] eqn:E.
  - intros [= <-]. by apply IH.
  - destruct (Ascii.eqb_spec c sep) as [->|]; [|done]. intros [= <-] Hmem.
    revert E. clear IH. induction s as [|d s IHs]; [done|]. cbn [PyPath.after_last].
    cbn [mem] in Hmem. destruct (PyPath.after_last sep s); [done|].
    destruct (Ascii.eqb_spec d sep) as [->|Hne]; [done|]. intros _.
    destruct Hmem as [->|Hmem]; [done|]. by apply IHs.
Qed.

(** A base name holds no slash. *)
Lemma basename_no_slash (p : string) : ~ mem "/" (PyPath.basename p).
Proof.
  unfold PyPath.basename. destruct (PyPath.after_last "/" p) as [r|] eqn:E; cbn [default].
  - by eapply after_last_mem.
  - intros Hmem. revert E. induction p as [|c p IH]; [done|]. cbn [PyPath.after_last].
    cbn [mem] in Hmem. destruct (PyPath.after_last "/" p); [done|].
    destruct (Ascii.eqb_spec c "/") as [->|Hne]; [done|]. intros _.
    destruct Hmem as [Heq|Hmem]; [congruence|]. by apply IH.
Qed.

Lemma after_last_append (sep : ascii) (p x : string) :
  ~ mem sep x -> PyPath.after_last sep (p +:+ String sep x) = Some x.
Proof.
  intros Hx. induction p as [|c p IH].
  - rewrite append_nil_l. cbn [PyPath.after_last]. rewrite after_last_no_sep by done.
    by rewrite Ascii.eqb_refl.
  - rewrite append_cons. cbn [PyPath.after_last]. by rewrite IH.
Qed.

Lemma sanitize_filename_mem (c : ascii) (s : string) :
  mem c (sanitize_filename s) -> mem c s \/ c = "-"%char.
Proof.
  unfold sanitize_filename. intros H.
  apply mem_replace_char in H as [[H _]|[]].
  apply mem_replace_char in H as [[H _]|[]].
  apply mem_replace_char in H as [[H _]|H]; [by left|].
  cbn in H. destruct H as [->|[]]. by right.
Qed.

Lemma sanitize_filename_fixed (s : string) :
  sanitize_filename (sanitize_filename s) = sanitize_filename s.
Proof.
  assert (Hclean : forall c, mem c (sanitize_filename s) ->
                   c <> " "%char /\ c <> "("%char /\ c <> ")"%char)
    by apply sanitize_filename_clean.
  unfold sanitize_filename at 1.
  rewrite (replace_char_absent " " "-"), (replace_char_absent "(" ""),
    (replace_char_absent ")" ""); [done| | |]; intros H%Hclean; tauto.
Qed.

(** The path that the image pass writes is the path of its own file name. *)
Lemma image_path_settled (is_cover : bool) (src : string) :
  let path := (if is_cover then "images/" else "../images/")
              +:+ sanitize_filename (PyPath.basename src) in
  (if is_cover then "images/" else "../images/")
  +:+ sanitize_filename (PyPath.basename path) = path.
Proof.
  intros path.
  assert (PyPath.basename path = sanitize_filename (PyPath.basename src)) as ->;
    [|by rewrite sanitize_filename_fixed].
  assert (~ mem "/" (sanitize_filename (PyPath.basename src))) as Hslash.
  { intros [H|H]%sanitize_filename_mem; [by apply basename_no_slash in H|done]. }
  unfold path. unfold PyPath.basename at 1. destruct is_cover.
  - change "images/" with ("images" +:+ "/").
    rewrite append_assoc, (append_cons "/" ""), append_nil_l.
    by rewrite (after_last_append "/" "images" _ Hslash).
  - change "../images/" with ("../images" +:+ "/").
    rewrite append_assoc, (append_cons "/" ""), append_nil_l.
    by rewrite (after_last_append "/" "../images" _ Hslash).
Qed.

(** X7.  Below the body that the converter of [create_epub_complete.py]
    writes out every [img] tag with a source is settled: its [src] is
    the path, in the images directory, of its own sanitized file name,
    and the tag has an [alt]. *)
Theorem clean_body_settles_images (is_cover : bool) (body : Bs4.node) :
  every_below (image_settled is_cover) (Complete.clean_body is_cover body) = true.
Proof.
  unfold Complete.clean_body.
  apply (every_below_update (image_settled is_cover)).
  { intros nm a cs cs'. unfold image_settled, Complete.fix_link.
    destruct (String.eqb nm "a") eqn:Hnm; [|done].
    apply String.eqb_eq in Hnm as ->. done. }
  apply (every_below_update (fun _ => true)); [|apply every_below_true].
  intros nm a cs cs' _. unfold image_settled, Complete.fix_image.
  destruct (String.eqb nm "img") eqn:Hnm; [|done]. cbn [andb].
  destruct (truthy (Bs4.get "src" a)) eqn:Hsrc; [|by rewrite Hsrc].
  set (path := (if is_cover then "images/" else "../images/")
               +:+ sanitize_filename (PyPath.basename (Bs4.get "src" a))).
  assert (truthy path = true) as Hpath by (unfold path; by destruct is_cover).
  pose proof (image_path_settled is_cover (Bs4.get "src" a)) as Hsettled.
  cbn zeta in Hsettled. fold path in Hsettled.
  destruct (truthy (Bs4.get "alt" (Bs4.set "src" path a))) eqn:Halt.
  - rewrite get_set_eq, Hpath, Hsettled, String.eqb_refl. by apply has_attr_get.
  - rewrite get_set_ne, get_set_eq, Hpath, Hsettled, String.eqb_refl by done.
    apply has_attr_set.
Qed.

End TreeFacts.

(** ** A run of [create_epub_complete.py] *)

Module FrameFacts.
Import Complete ArchiveDefs ArchiveFacts FrameDefs PyStrFacts.

Lemma frames_ret {A : Type} (P : world -> Prop) (a : A) : frames P (mret a).
Proof. by intros w HP. Qed.

Lemma frames_raise {A : Type} (P : world -> Prop) (e : string) : frames P (@raise A e).
Proof. by intros w HP. Qed.

Lemma frames_bind {A B : Type} (P : world -> Prop) (m : prog A) (k : A -> prog B) :
  frames P m -> (forall a, frames P (k a)) -> frames P (m ≫= k).
Proof.
  intros Hm Hk w HP. rewrite bind_unfold. specialize (Hm w HP).
  destruct (m w) as [[a w1]|e w1]; [by apply Hk|done].
Qed.

Lemma frames_if {A : Type} (P : world -> Prop) (b : bool) (m1 m2 : prog A) :
  frames P m1 -> frames P m2 -> frames P (if b then m1 else m2).
Proof. by destruct b. Qed.

Lemma frames_try_except {A : Type} (P : world -> Prop) (body handler : prog A) :
  frames P body -> frames P handler -> frames P (try_except body handler).
Proof.
  intros Hb Hh w HP. unfold try_except. specialize (Hb w HP).
  destruct (body w) as [[a w1]|e w1]; [done|by apply Hh].
Qed.

Lemma frames_for_each {A : Type} (P : world -> Prop) (l : list A) (body : A -> prog unit) :
  (forall x, frames P (body x)) -> frames P (for_each l body).
Proof.
  intros Hbody. induction l as [|x l IH]; [apply frames_ret|]. cbn [for_each].
  apply frames_bind; [apply Hbody|by intros _].
Qed.

(** The steps of a build keep a property of the state that printing,
    writing below [epub_build], removing that directory and writing the
    archives leave alone. *)
Section Build.
Context (lib : libs) (P : world -> Prop) (outputs : string -> Prop).
Hypothesis P_stdout : forall w out, P w -> P (World (files w) (archives w) out).
Hypothesis P_write : forall w rest d,
  P w -> P (World (Store.write ("epub_build/" +:+ rest) d (files w)) (archives w) (stdout w)).
Hypothesis P_rmtree : forall w,
  P w -> P (World (Store.rmtree "epub_build" (files w)) (archives w) (stdout w)).
Hypothesis P_output : forall o w es,
  outputs o -> P w -> P (with_archive o es (opening o w)).

Lemma P_same (w : world) : P w -> P (World (files w) (archives w) (stdout w)).
Proof. apply P_stdout. Qed.

Lemma frames_print (m : message) : frames P (print m).
Proof. intros w HP. by apply P_stdout. Qed.

Lemma frames_path_exists (p : string) : frames P (path_exists p).
Proof. by intros w HP. Qed.

Lemma frames_read_file (p : string) : frames P (read_file p).
Proof. intros w HP. unfold read_file. by destruct (Store.lookup p (files w)). Qed.

Lemma frames_listdir (p : string) : frames P (listdir p).
Proof. intros w HP. unfold listdir. by destruct (Store.is_file (files w) p). Qed.

Lemma frames_write_file (rest d : string) :
  frames P (write_file ("epub_build/" +:+ rest) d).
Proof.
  intros w HP. unfold write_file. destruct (Store.is_dir (files w) _); [done|].
  by apply P_write.
Qed.

Lemma frames_copy2 (src rest : string) :
  frames P (copy2 src ("epub_build/" +:+ rest)).
Proof.
  apply frames_bind; [apply frames_read_file|intros d]. apply frames_write_file.
Qed.

Lemma frames_cleanup : frames P cleanup.
Proof.
  apply frames_bind; [apply frames_path_exists|intros e].
  apply frames_if; [|apply frames_ret].
  intros w HP. unfold rmtree. destruct (Store.is_file (files w) _); [done|].
  by apply P_rmtree.
Qed.

Lemma frames_create_mimetype : frames P create_mimetype.
Proof.
  apply frames_bind; [apply (frames_write_file "mimetype")|intros _; apply frames_print].
Qed.

Lemma frames_create_container_xml (container_xml : string) :
  frames P (create_container_xml container_xml).
Proof.
  apply frames_bind; [apply (frames_write_file "META-INF/container.xml")|].
  intros _; apply frames_print.
Qed.

Lemma frames_create_css_file (css_content : string) :
  frames P (create_css_file css_content).
Proof.
  apply frames_bind; [apply (frames_write_file "OEBPS/Styles/style.css")|].
  intros _; apply frames_print.
Qed.

Lemma frames_convert_html_to_xhtml (html_file : string) (is_kdp is_cover : bool) :
  frames P (convert_html_to_xhtml lib html_file is_kdp is_cover).
Proof.
  apply frames_bind; [apply frames_path_exists|intros e].
  apply frames_if.
  - apply frames_bind; [apply frames_read_file|intros content]. cbv zeta.
    destruct (document_title _); [apply frames_ret|apply frames_raise].
  - apply frames_bind; [apply frames_print|intros _; apply frames_ret].
Qed.

Lemma frames_convert_one (is_kdp : bool) (html_file : string) :
  frames P (convert_one lib is_kdp html_file).
Proof.
  apply frames_bind; [apply frames_path_exists|intros e].
  apply frames_if.
  - apply frames_bind; [apply frames_convert_html_to_xhtml|intros [xhtml|]];
      [|apply frames_ret].
    apply frames_if; [|apply frames_ret].
    apply frames_bind; [|intros _; apply frames_bind;
                                   [apply frames_print|intros _; apply frames_ret]].
    destruct (String.eqb html_file "index.html").
    + apply (frames_write_file "OEBPS/cover.xhtml").
    + apply (frames_write_file ("OEBPS/Text/" +:+ _)).
  - apply frames_bind; [apply frames_print|intros _; apply frames_ret].
Qed.

Lemma frames_convert_files (is_kdp : bool) (l : list string) :
  frames P (convert_files lib is_kdp l).
Proof.
  induction l as [|f l IH]; [apply frames_ret|]. cbn [convert_files].
  apply frames_bind; [apply frames_convert_one|intros ok].
  apply frames_bind; [apply IH|intros rest; apply frames_ret].
Qed.

Lemma frames_convert_all_html_files (is_kdp : bool) :
  frames P (convert_all_html_files lib is_kdp).
Proof.
  apply frames_bind; [apply frames_print|intros _; apply frames_convert_files].
Qed.

Lemma frames_copy_from (src_prefix : string) (l : list string) :
  forall (copied_files : gset string) (copied_count : nat),
    frames P (copy_from src_prefix l copied_files copied_count).
Proof.
  induction l as [|f l IH]; intros copied_files copied_count; [apply frames_ret|].
  cbn [copy_from]. apply frames_if; [|apply IH].
  destruct (decide _); [apply IH|].
  apply frames_bind; [|intros _; apply IH].
  apply (frames_copy2 _ ("OEBPS/images/" +:+ _)).
Qed.

Lemma frames_copy_images : frames P copy_images.
Proof.
  apply frames_bind; [apply frames_print|intros _].
  apply frames_bind; [apply frames_listdir|intros root].
  apply frames_bind; [apply frames_copy_from|intros [copied_files copied_count]].
  apply frames_bind; [apply frames_path_exists|intros e].
  apply frames_bind.
  - apply frames_if; [|apply frames_ret].
    apply frames_bind; [apply frames_listdir|intros other]. apply frames_copy_from.
  - intros [copied_files' copied_count'].
    apply frames_bind; [apply frames_print|intros _; apply frames_ret].
Qed.

Lemma frames_write_then_print (rest d : string) (m : message) :
  frames P (write_file ("epub_build/" +:+ rest) d ;; print m).
Proof.
  apply frames_bind; [apply frames_write_file|intros _; apply frames_print].
Qed.

Lemma frames_create_content_opf (metadata : gmap string string) (is_kdp : bool) :
  frames P (create_content_opf lib metadata is_kdp).
Proof.
  intros w HP. unfold create_content_opf.
  destruct (manifest_and_spine metadata w) as [[items spine_ids]|]; [|done].
  by apply (frames_write_then_print "OEBPS/content.opf").
Qed.

Lemma frames_create_toc_ncx (metadata : gmap string string) :
  frames P (create_toc_ncx lib metadata).
Proof.
  intros w HP. unfold create_toc_ncx. cbv zeta.
  by apply (frames_write_then_print "OEBPS/toc.ncx").
Qed.

Lemma frames_create_nav_xhtml (metadata : gmap string string) :
  frames P (create_nav_xhtml metadata).
Proof.
  intros w HP. unfold create_nav_xhtml. cbv zeta.
  by apply (frames_write_then_print "OEBPS/nav.xhtml").
Qed.

Lemma frames_create_epub_file (output_name : string) (metadata : gmap string string) :
  outputs output_name -> frames P (create_epub_file lib output_name metadata).
Proof.
  intros Ho w HP. rewrite create_epub_file_unfold. cbv zeta.
  destruct (Store.lookup "epub_build/mimetype" _); [|by apply P_output].
  destruct (namelist lib _); [by apply P_output|].
  apply P_stdout. by apply (P_output output_name w).
Qed.

Lemma frames_run_epubcheck (epub_file : string) : frames P (run_epubcheck epub_file).
Proof.
  apply frames_bind; [apply frames_path_exists|intros e].
  apply frames_if; apply frames_print.
Qed.

Lemma frames_create_epub (is_kdp : bool) (output_name container_xml css_content : string)
    (metadata : gmap string string) :
  outputs output_name ->
  frames P (create_epub lib is_kdp output_name container_xml css_content metadata).
Proof.
  intros Ho. unfold create_epub.
  apply frames_bind; [apply frames_cleanup|intros _].
  apply frames_bind; [apply frames_print|intros _].
  apply frames_bind; [apply frames_create_mimetype|intros _].
  apply frames_bind; [apply frames_create_container_xml|intros _].
  apply frames_bind; [apply frames_create_css_file|intros _].
  apply frames_bind; [apply frames_convert_all_html_files|intros _].
  apply frames_bind; [apply frames_copy_images|intros _].
  apply frames_bind; [apply frames_create_content_opf|intros _].
  apply frames_bind; [apply frames_create_toc_ncx|intros _].
  apply frames_bind; [apply frames_create_nav_xhtml|intros _].
  by apply frames_create_epub_file.
Qed.

Lemma frames_load_metadata : frames P (load_metadata lib).
Proof.
  apply frames_bind; [apply frames_path_exists|intros e].
  apply frames_if.
  - apply frames_bind; [apply frames_read_file|intros c].
    destruct (parse_json lib c); [apply frames_ret|apply frames_raise].
  - apply frames_bind; [apply frames_print|intros _; apply frames_ret].
Qed.

Lemma frames_main (container_xml css_content : string) :
  outputs GUMROAD -> outputs KDP ->
  frames P (main lib container_xml css_content).
Proof.
  intros Hg Hk. unfold main.
  apply frames_bind; [apply frames_load_metadata|intros [md|]].
  - destruct (decide (md = ∅)).
    + apply frames_bind; [apply frames_print|intros _; apply frames_ret].
    + apply frames_try_except.
      * apply frames_bind.
        { apply frames_bind; [apply frames_print|intros _].
          by apply frames_create_epub. }
        intros gumroad_epub. apply frames_bind.
        { apply frames_bind; [apply frames_print|intros _].
          by apply frames_create_epub. }
        intros kdp_epub.
        apply frames_bind; [apply frames_cleanup|intros _].
        apply frames_bind; [apply frames_run_epubcheck|intros _].
        apply frames_bind; [apply frames_run_epubcheck|intros _].
        apply frames_bind; [apply frames_print|intros _; apply frames_ret].
      * apply frames_bind; [apply frames_print|intros _; apply frames_ret].
  - apply frames_bind; [apply frames_print|intros _; apply frames_ret].
Qed.

End Build.

(** *** Files outside the build directory *)

Lemma lookup_filter_keep (keep : string * string -> bool) (q : string)
    (fs : list (string * string)) :
  (forall c, keep (q, c) = true) ->
  Store.lookup q (List.filter keep fs) = Store.lookup q fs.
Proof.
  intros Hq. induction fs as [|[r d] fs IH]; [done|]. cbn [List.filter Store.lookup].
  destruct (keep (r, d)) eqn:Hkeep; cbn [Store.lookup]; [by rewrite IH|].
  destruct (String.eqb_spec r q) as [->|Hne]; [by rewrite Hq in Hkeep|done].
Qed.

Lemma lookup_filter_out (keep : string * string -> bool) (q : string)
    (fs : list (string * string)) :
  (forall c, keep (q, c) = false) -> Store.lookup q (List.filter keep fs) = None.
Proof.
  intros Hq. induction fs as [|[r d] fs IH]; [done|]. cbn [List.filter].
  destruct (keep (r, d)) eqn:Hkeep; [|done]. cbn [Store.lookup].
  destruct (String.eqb_spec r q) as [->|Hne]; [by rewrite Hq in Hkeep|done].
Qed.

Lemma files_opening (o q : string) (w : world) :
  o <> q -> Store.lookup q (files (opening o w)) = Store.lookup q (files w).
Proof.
  intros Hne. unfold opening. destruct (_ || _ || _); cbn [files]; [|done].
  rewrite lookup_remove. by apply String.eqb_neq in Hne as ->.
Qed.

(** A run leaves a file alone that is outside the build directory and
    is not one of the two archives. *)
Lemma frames_other_file (lib : libs) (container_xml css_content q : string)
    (c : option string) :
  String.prefix "epub_build/" q = false -> q <> GUMROAD -> q <> KDP ->
  frames (fun w => Store.lookup q (files w) = c) (main lib container_xml css_content).
Proof.
  intros Hq Hg Hk.
  apply (frames_main lib _ (fun o => o <> q)); [done| | | |done|done].
  - intros w rest d <-. cbn [files]. apply lookup_write_ne. intros <-.
    by rewrite ManifestFacts.prefix_append in Hq.
  - intros w <-. cbn [files]. unfold Store.rmtree. apply lookup_filter_keep.
    intros d. cbn [fst]. change ("epub_build" +:+ "/") with "epub_build/". by rewrite Hq.
  - intros o w es Ho <-. cbn [files with_archive]. by apply files_opening.
Qed.

(** X8.  In whatever way a run of [main] of [create_epub_complete.py]
    ends, a file that is neither below [epub_build] nor one of the two
    archives holds what it held before. *)
Theorem main_keeps_other_files (lib : libs) (container_xml css_content : string)
    (w : world) (q : string) :
  String.prefix "epub_build/" q = false -> q <> GUMROAD -> q <> KDP ->
  Store.lookup q (files (final (main lib container_xml css_content w)))
  = Store.lookup q (files w).
Proof.
  intros Hq Hg Hk.
  pose proof (frames_other_file lib container_xml css_content q
                (Store.lookup q (files w)) Hq Hg Hk w eq_refl) as H.
  by destruct (main lib container_xml css_content w) as [[ok w']|e w'].
Qed.

Lemma main_keeps_other_files_witness :
  Store.lookup "index.html"
    (files (final (main (Samples.sample_libs Samples.page zip_namelist)
                     "<container/>" "body {}" Samples.project)))
  = Store.lookup "index.html" (files Samples.project).
Proof.
  apply (main_keeps_other_files (Samples.sample_libs Samples.page zip_namelist)
           "<container/>" "body {}" Samples.project "index.html");
    [reflexivity|discriminate|discriminate].
Defined.

(** *** The end of a run *)





(** *** The archives of a run *)

(** The archive that a build writes. *)
Lemma build_archive (lib : libs) (is_kdp : bool)
    (output_name container_xml css_content : string) (metadata : gmap string string)
    (w w' : world) (returned : string) :
  create_epub lib is_kdp output_name container_xml css_content metadata w
  = Returns (returned, w') ->
  exists w4 mimetype,
    returned = output_name
    /\ Store.lookup "epub_build/mimetype" (files (opening output_name w4))
       = Some "application/epub+zip"
    /\ Store.lookup_archive output_name (archives w')
       = Some (written_entries (files (opening output_name w4)) "application/epub+zip")
    /\ files w' = files (opening output_name w4)
    /\ mimetype = "application/epub+zip".
Proof.
  unfold create_epub. intros H.
  apply bind_returns in H as (? & w1 & _ & H).
  apply bind_returns in H as (? & w2 & _ & H).
  apply bind_returns in H as (? & w3 & Hready%create_mimetype_ready & H).
  apply (build_steps_return lib "epub_build/mimetype" (Some "application/epub+zip")
           content_not_mimetype) in H as (w4 & Hready4 & H); [|done|done].
  rewrite create_epub_file_unfold in H. cbv zeta in H.
  assert (Hm : Store.lookup "epub_build/mimetype" (files (opening output_name w4))
               = if String.eqb output_name "epub_build/mimetype" then None
                 else Some "application/epub+zip").
  { unfold opening. destruct (String.eqb output_name "epub_build/mimetype") eqn:E.
    - apply String.eqb_eq in E as ->. unfold Store.is_file.
      rewrite Hready4. cbn. rewrite lookup_remove. by rewrite String.eqb_refl.
    - destruct (_ || _ || _); cbn; [|done]. rewrite lookup_remove. by rewrite E. }
  rewrite Hm in H.
  destruct (String.eqb output_name "epub_build/mimetype") eqn:E; [done|].
  destruct (namelist lib _) as [|first names]; [done|].
  injection H as <- <-. cbn [archives files with_archive].
  exists w4, "application/epub+zip". by rewrite lookup_archive_fresh.
Qed.

Lemma lookup_archive_remove_ne {A : Type} (p q : string) (l : list (string * A)) :
  p <> q -> Store.lookup_archive q (Store.remove p l) = Store.lookup_archive q l.
Proof.
  intros Hne. unfold Store.remove. induction l as [|[r c] l IH]; [done|].
  cbn [List.filter fst Store.lookup_archive].
  destruct (String.eqb_spec r p) as [->|Hr]; cbn [negb Store.lookup_archive].
  - by apply String.eqb_neq in Hne as ->.
  - by rewrite IH.
Qed.

Lemma lookup_archive_app_ne {A : Type} (p q : string) (c : A) (l : list (string * A)) :
  p <> q -> Store.lookup_archive q (l ++ [(p, c)]) = Store.lookup_archive q l.
Proof.
  intros Hne. induction l as [|[r d] l IH]; cbn [app Store.lookup_archive].
  - by apply String.eqb_neq in Hne as ->.
  - by rewrite IH.
Qed.

Lemma archives_opening (o q : string) (w : world) :
  o <> q ->
  Store.lookup_archive q (archives (opening o w)) = Store.lookup_archive q (archives w).
Proof.
  intros Hne. unfold opening. destruct (_ || _ || _); cbn [archives]; [|done].
  by apply lookup_archive_remove_ne.
Qed.

(** A build leaves the archives of other names alone. *)
Lemma frames_other_archive (lib : libs) (is_kdp : bool)
    (output_name container_xml css_content : string) (metadata : gmap string string)
    (q : string) (v : option (list zip_entry)) :
  output_name <> q ->
  frames (fun w => Store.lookup_archive q (archives w) = v)
    (create_epub lib is_kdp output_name container_xml css_content metadata).
Proof.
  intros Hne.
  apply (frames_create_epub lib _ (fun o => o <> q)); [done|done|done| |done].
  intros o w es Ho <-. cbn [archives with_archive].
  by rewrite lookup_archive_app_ne, lookup_archive_remove_ne, archives_opening.
Qed.

Lemma is_dir_false (dir p : string) (fs : list (string * string)) :
  Store.is_dir fs dir = false -> String.prefix (dir +:+ "/") p = true ->
  Store.lookup p fs = None.
Proof.
  intros Hdir Hp. induction fs as [|[r d] fs IH]; [done|].
  cbn [Store.is_dir existsb fst] in Hdir. apply orb_false_iff in Hdir as [Hr Hdir].
  cbn [Store.lookup]. destruct (String.eqb_spec r p) as [->|Hne]; [congruence|].
  by apply IH.
Qed.

(** After [cleanup] there is no file below [epub_build]. *)
Lemma cleanup_clears (w w' : world) (p : string) :
  cleanup w = Returns (tt, w') -> String.prefix "epub_build/" p = true ->
  Store.lookup p (files w') = None /\ archives w' = archives w.
Proof.
  unfold cleanup. rewrite bind_unfold. cbn [path_exists]. intros H Hp.
  destruct (Store.is_file (files w) "epub_build") eqn:Hfile.
  - cbn [orb] in H. unfold rmtree in H. by rewrite Hfile in H.
  - destruct (Store.is_dir (files w) "epub_build") eqn:Hdir.
    + cbn [orb] in H. unfold rmtree in H. rewrite Hfile in H. injection H as <-.
      split; [|done]. cbn [files]. unfold Store.rmtree. apply lookup_filter_out.
      intros c. cbn [fst]. change ("epub_build" +:+ "/") with "epub_build/". by rewrite Hp.
    + cbn [orb] in H. destruct (existsb _ _).
      * unfold rmtree in H. rewrite Hfile in H. injection H as <-.
        split; [|done]. cbn [files]. unfold Store.rmtree. apply lookup_filter_out.
        intros c. cbn [fst]. change ("epub_build" +:+ "/") with "epub_build/".
        by rewrite Hp.
      * injection H as <-. split; [|done]. by apply (is_dir_false "epub_build").
Qed.

(** X10.  When [main] of [create_epub_complete.py] returns [True], both
    archives are there, each with the stored entry [mimetype] of the
    text [application/epub+zip] first, and no file is left below
    [epub_build]. *)
Theorem successful_run_leaves_archives (lib : libs) (container_xml css_content : string)
    (w w' : world) :
  main lib container_xml css_content w = Returns (true, w') ->
  (forall output_name, output_name = GUMROAD \/ output_name = KDP ->
     exists others,
       Store.lookup_archive output_name (archives w')
       = Some (ZipEntry "mimetype" ZIP_STORED "application/epub+zip" :: others))
  /\ (forall p, String.prefix "epub_build/" p = true -> Store.lookup p (files w') = None).
Proof.
  unfold main. intros H.
  apply bind_returns in H as ([md|] & w0 & _ & H).
  2: { apply bind_returns in H as (? & ? & _ & H). by injection H. }
  destruct (decide (md = ∅)).
  { apply bind_returns in H as (? & ? & _ & H). by injection H. }
  unfold try_except in H.
  match type of H with
  | match ?body w0 with _ => _ end = _ => destruct (body w0) as [[ok w5]|e w5] eqn:Hbody
  end.
  2: { apply bind_returns in H as (? & ? & _ & H). by injection H. }
  injection H as -> ->.
  apply bind_returns in Hbody as (gumroad_epub & w1 & Hg & H).
  apply bind_returns in H as (kdp_epub & w2 & Hk & H).
  apply bind_returns in H as ([] & w3 & Hclean & H).
  apply bind_returns in H as (? & w4 & Hcheck1 & H).
  apply bind_returns in H as (? & w5 & Hcheck2 & H).
  apply bind_returns in H as (? & w6 & Hprint & H). injection H as <-.
  apply bind_returns in Hg as (? & w0' & _ & Hg).
  apply bind_returns in Hk as (? & w1' & Hbanner & Hk).
  assert (Hsame : forall q v,
             Store.lookup_archive q (archives w3) = v ->
             Store.lookup_archive q (archives w6) = v).
  { intros q v Hv.
    pose proof (frames_run_epubcheck (fun w => Store.lookup_archive q (archives w) = v)
                  ltac:(done) gumroad_epub w3 Hv) as H4. rewrite Hcheck1 in H4.
    pose proof (frames_run_epubcheck (fun w => Store.lookup_archive q (archives w) = v)
                  ltac:(done) kdp_epub w4 H4) as H5. rewrite Hcheck2 in H5.
    unfold print in Hprint. by injection Hprint as _ <-. }
  split.
  - intros output_name Hname.
    destruct (cleanup_clears w2 w3 "epub_build/" Hclean eq_refl) as [_ Harch].
    destruct (build_archive _ _ _ _ _ _ _ _ _ Hk) as (wk & ? & _ & _ & Hkdp & _).
    destruct (build_archive _ _ _ _ _ _ _ _ _ Hg) as (wg & ? & _ & _ & Hgum & _).
    destruct Hname as [-> | ->]; eexists; apply Hsame; rewrite Harch.
    + pose proof (frames_other_archive lib true KDP container_xml css_content md
                    GUMROAD (Store.lookup_archive GUMROAD (archives w1))
                    ltac:(done) w1') as Hframe.
      unfold print in Hbanner. injection Hbanner as _ <-. cbn [archives] in Hframe.
      specialize (Hframe eq_refl). unfold KDP in Hframe. rewrite Hk in Hframe.
      rewrite Hframe. exact Hgum.
    + exact Hkdp.
  - intros p Hp. destruct (cleanup_clears w2 w3 p Hclean Hp) as [Hnone _].
    pose proof (frames_run_epubcheck (fun w => Store.lookup p (files w) = None)
                  ltac:(done) gumroad_epub w3 Hnone) as H4. rewrite Hcheck1 in H4.
    pose proof (frames_run_epubcheck (fun w => Store.lookup p (files w) = None)
                  ltac:(done) kdp_epub w4 H4) as H5. rewrite Hcheck2 in H5.
    unfold print in Hprint. by injection Hprint as _ <-.
Qed.

Lemma successful_run_leaves_archives_witness :
  match main (Samples.sample_libs Samples.page zip_namelist) "<container/>" "body {}"
          Samples.project with
  | Returns (true, w') =>
      (forall output_name, output_name = GUMROAD \/ output_name = KDP ->
         exists others,
           Store.lookup_archive output_name (archives w')
           = Some (ZipEntry "mimetype" ZIP_STORED "application/epub+zip" :: others))
      /\ (forall p, String.prefix "epub_build/" p = true ->
                    Store.lookup p (files w') = None)
  | _ => False
  end.
Proof.
  destruct (main (Samples.sample_libs Samples.page zip_namelist) "<container/>" "body {}"
              Samples.project) as [[[] w']|e w'] eqn:H.
  - exact (successful_run_leaves_archives _ _ _ _ _ H).
  - vm_compute in H. discriminate H.
  - vm_compute in H. discriminate H.
Defined.

(** X11.  Unless [epub_build] is a file, [cleanup] returns; it removes
    the files below [epub_build] and nothing else, and leaves the
    archives and the printed lines as they are. *)
Theorem cleanup_removes_build_tree (w : world) :
  Store.is_file (files w) "epub_build" = false ->
  exists w',
    cleanup w = Returns (tt, w')
    /\ (forall p, Store.lookup p (files w')
                  = if String.prefix "epub_build/" p then None
                    else Store.lookup p (files w))
    /\ archives w' = archives w
    /\ stdout w' = stdout w.
Proof.
  intros Hfile. unfold cleanup. rewrite bind_unfold. cbn [path_exists]. rewrite Hfile.
  assert (Hrm : forall p,
             Store.lookup p (Store.rmtree "epub_build" (files w))
             = if String.prefix "epub_build/" p then None else Store.lookup p (files w)).
  { intros p. unfold Store.rmtree. change ("epub_build" +:+ "/") with "epub_build/".
    destruct (String.prefix "epub_build/" p) eqn:Hp.
    - apply lookup_filter_out. intros c. cbn [fst]. by rewrite Hp.
    - apply lookup_filter_keep. intros c. cbn [fst]. by rewrite Hp. }
  destruct (Store.is_dir (files w) "epub_build") eqn:Hdir; cbn [orb].
  - unfold rmtree. rewrite Hfile. by eexists.
  - destruct (existsb _ _).
    + unfold rmtree. rewrite Hfile. by eexists.
    + exists w. split; [done|]. split; [|done]. intros p.
      destruct (String.prefix "epub_build/" p) eqn:Hp; [|done].
      by apply (is_dir_false "epub_build").
Qed.

Lemma cleanup_removes_build_tree_witness :
  exists w',
    cleanup Samples.build_tree = Returns (tt, w')
    /\ (forall p, Store.lookup p (files w')
                  = if String.prefix "epub_build/" p then None
                    else Store.lookup p (files Samples.build_tree))
    /\ archives w' = archives Samples.build_tree
    /\ stdout w' = stdout Samples.build_tree.
Proof. apply (cleanup_removes_build_tree Samples.build_tree). reflexivity. Defined.

End FrameFacts.

(** ** The steps of a build *)

Module StepFacts.
Import Complete ArchiveDefs ArchiveFacts FrameDefs FrameFacts PyStrFacts StepDefs.

Lemma is_file_write (p q c : string) (fs : list (string * string)) :
  Store.is_file fs p = true -> Store.is_file (Store.write q c fs) p = true.
Proof.
  unfold Store.is_file. destruct (decide (q = p)) as [->|Hne].
  - by rewrite lookup_write_eq.
  - by rewrite lookup_write_ne.
Qed.

(** The steps that only print and write below [epub_build] keep a file
    that is there. *)
Lemma frames_is_file (p : string) :
  (forall w out, Store.is_file (files w) p = true ->
                 Store.is_file (files (World (files w) (archives w) out)) p = true)
  /\ (forall w rest d,
        Store.is_file (files w) p = true ->
        Store.is_file
          (files (World (Store.write ("epub_build/" +:+ rest) d (files w))
                    (archives w) (stdout w))) p = true).
Proof. split; [done|]. intros w rest d H. by apply is_file_write. Qed.

Lemma convert_one_written (lib : libs) (is_kdp : bool) (html_file : string) (w w1 : world) :
  convert_one lib is_kdp html_file w = Returns (true, w1) ->
  Store.is_file (files w1) (output_file html_file) = true.
Proof.
  unfold convert_one. intros H.
  apply bind_returns in H as ([] & w0 & _ & H).
  2: { apply bind_returns in H as (? & ? & _ & H). by injection H. }
  apply bind_returns in H as ([xhtml|] & w2 & _ & H); [|by injection H].
  destruct (PyStr.truthy xhtml); [|by injection H].
  apply bind_returns in H as ([] & w3 & Hwrite & H).
  apply bind_returns in H as ([] & w4 & Hprint & H).
  injection H as <-. unfold print in Hprint. injection Hprint as <-. cbn [files].
  unfold write_file in Hwrite. destruct (Store.is_dir (files w2) _); [done|].
  injection Hwrite as <-. cbn [files]. unfold Store.is_file, output_file.
  by rewrite lookup_write_eq.
Qed.

Lemma convert_files_written (lib : libs) (is_kdp : bool) (l : list string) :
  forall w converted w',
    convert_files lib is_kdp l w = Returns (converted, w') ->
    sublist converted l
    /\ forall html_file, In html_file converted ->
                         Store.is_file (files w') (output_file html_file) = true.
Proof.
  induction l as [|f l IH]; intros w converted w'.
  - intros [= <- <-]. split; [done|]. by intros f [].
  - cbn [convert_files]. intros H.
    apply bind_returns in H as (ok & w1 & Hone & H).
    apply bind_returns in H as (rest & w2 & Hrest & H). injection H as <- <-.
    destruct (IH _ _ _ Hrest) as [Hsub Hwritten]. destruct ok.
    + split; [by apply sublist_skip|]. intros html_file [<-|Hin]; [|by apply Hwritten].
      apply convert_one_written in Hone.
      destruct (frames_is_file (output_file f)) as [H1 H2].
      pose proof (frames_convert_files lib
                    (fun w => Store.is_file (files w) (output_file f) = true)
                    H1 H2 is_kdp l w1 Hone) as Hkeep.
      by rewrite Hrest in Hkeep.
    + split; [by apply sublist_cons|done].
Qed.

(** X12.  The list that [convert_all_html_files] returns holds source
    files of [HTML_FILES_ORDER], in that order, and for each of them the
    XHTML file is in the build tree: [cover.xhtml] for [index.html], and
    the file of the same name under [Text] for every other. *)
Theorem converted_files_are_written (lib : libs) (is_kdp : bool) (w : world)
    (converted : list string) (w' : world) :
  convert_all_html_files lib is_kdp w = Returns (converted, w') ->
  sublist converted HTML_FILES_ORDER
  /\ forall html_file, In html_file converted ->
                       Store.is_file (files w') (output_file html_file) = true.
Proof.
  unfold convert_all_html_files. intros H.
  apply bind_returns in H as ([] & w1 & _ & H). by eapply convert_files_written.
Qed.

Lemma converted_files_are_written_witness :
  match convert_all_html_files (Samples.sample_libs Samples.page zip_namelist) false
          Samples.project with
  | Returns (converted, w') =>
      sublist converted HTML_FILES_ORDER
      /\ forall html_file, In html_file converted ->
                           Store.is_file (files w') (output_file html_file) = true
  | Raises _ _ => False
  end.
Proof.
  destruct (convert_all_html_files (Samples.sample_libs Samples.page zip_namelist) false
              Samples.project) as [[converted w']|e w'] eqn:H.
  - exact (converted_files_are_written _ _ _ _ _ H).
  - vm_compute in H. discriminate H.
Defined.

(** *** The images *)

Lemma copy2_written (src rest : string) (w w' : world) :
  copy2 src ("epub_build/" +:+ rest) w = Returns (tt, w') ->
  Store.is_file (files w') ("epub_build/" +:+ rest) = true
  /\ forall p, Store.is_file (files w) p = true -> Store.is_file (files w') p = true.
Proof.
  unfold copy2. intros H. apply bind_returns in H as (c & w1 & Hread & H).
  unfold read_file in Hread. destruct (Store.lookup src (files w)); [|done].
  injection Hread as <- <-. unfold write_file in H.
  destruct (Store.is_dir (files w) _); [done|]. injection H as <-. cbn [files].
  split; [unfold Store.is_file; by rewrite lookup_write_eq|].
  intros p. apply is_file_write.
Qed.

(** The loop of [copy_images] over one directory: the count grows as
    the set of names does, the file of every name of the set is there,
    and the sanitized name of every image of the directory is in the set. *)
Lemma copy_from_counts (src_prefix : string) (l : list string) :
  forall (copied_files : gset string) (copied_count : nat) (w : world)
         (copied_files' : gset string) (copied_count' : nat) (w' : world),
    copy_from src_prefix l copied_files copied_count w
    = Returns ((copied_files', copied_count'), w') ->
    copied_count = size copied_files ->
    (forall name, name ∈ copied_files -> Store.is_file (files w) (image_file name) = true) ->
    copied_count' = size copied_files'
    /\ copied_files ⊆ copied_files'
    /\ (forall name, name ∈ copied_files' ->
                     Store.is_file (files w') (image_file name) = true)
    /\ (forall file, In file l -> is_image file = true ->
                     sanitize_filename file ∈ copied_files').
Proof.
  induction l as [|f l IH];
    intros copied_files copied_count w copied_files' copied_count' w'.
  - intros [= <- <- <-] Hcount Hfiles. split; [done|]. split; [done|]. split; [done|].
    by intros file [].
  - cbn [copy_from]. destruct (is_image f) eqn:Himage.
    + destruct (decide (sanitize_filename f ∈ copied_files)) as [Hin|Hnew].
      * intros H Hcount Hfiles.
        destruct (IH _ _ _ _ _ _ H Hcount Hfiles) as (H1 & H2 & H3 & H4).
        split; [done|]. split; [done|]. split; [done|].
        intros file [<-|Hfile] Hi; [set_solver|by apply H4].
      * intros H Hcount Hfiles.
        apply bind_returns in H as ([] & w1 & Hcopy & H).
        apply (copy2_written _ ("OEBPS/images/" +:+ _)) in Hcopy as [Hnew_file Hkeep].
        destruct (IH _ _ _ _ _ _ H) as (H1 & H2 & H3 & H4).
        { rewrite size_union by set_solver. rewrite size_singleton. lia. }
        { intros name [->%elem_of_singleton|Hname]%elem_of_union; [done|].
          by apply Hkeep, Hfiles. }
        split; [done|]. split; [set_solver|]. split; [done|].
        intros file [<-|Hfile] Hi; [set_solver|by apply H4].
    + intros H Hcount Hfiles.
      destruct (IH _ _ _ _ _ _ H Hcount Hfiles) as (H1 & H2 & H3 & H4).
      split; [done|]. split; [done|]. split; [done|].
      intros file [<-|Hfile] Hi; [congruence|by apply H4].
Qed.

(** X13.  The number that [copy_images] returns and prints is the number
    of the different names under which it has copied images: the file of
    each of these names is in the images directory of the build tree,
    and the sanitized name of every image of the project directory is
    among them. *)
Theorem copy_images_counts_names (w : world) (copied_count : nat) (w' : world) :
  copy_images w = Returns (copied_count, w') ->
  exists names : gset string,
    copied_count = size names
    /\ (forall name, name ∈ names -> Store.is_file (files w') (image_file name) = true)
    /\ (forall file, In file (Store.listdir "." (files w)) -> is_image file = true ->
                     sanitize_filename file ∈ names)
    /\ stdout w' = stdout w ++ [Line "Copying images..."; CopiedImages copied_count].
Proof.
  unfold copy_images. intros H.
  assert (Hout : forall src_prefix l (names names' : gset string) n n' wa wb,
             copy_from src_prefix l names n wa = Returns ((names', n'), wb) ->
             stdout wb = stdout wa).
  { intros src_prefix l. induction l as [|f l IH]; intros names names' n n' wa wb.
    - by intros [= _ _ <-].
    - cbn [copy_from]. destruct (is_image f); [|apply IH].
      destruct (decide _); [apply IH|]. intros Hb.
      apply bind_returns in Hb as ([] & wc & Hcopy & Hb). apply IH in Hb. rewrite Hb.
      unfold copy2 in Hcopy. apply bind_returns in Hcopy as (c & wd & Hread & Hcopy).
      unfold read_file in Hread. destruct (Store.lookup _ _); [|done].
      injection Hread as _ <-. unfold write_file in Hcopy.
      destruct (Store.is_dir _ _); [done|]. by injection Hcopy as <-. }
  apply bind_returns in H as ([] & w1 & Hprint & H).
  unfold print in Hprint. injection Hprint as <-.
  apply bind_returns in H as (root & w2 & Hroot & H).
  unfold listdir in Hroot. cbn [files] in Hroot.
  destruct (Store.is_file (files w) "."); [done|]. injection Hroot as <- <-.
  apply bind_returns in H as ([names1 count1] & w3 & Hcopy1 & H).
  pose proof (Hout _ _ _ _ _ _ _ _ Hcopy1) as Hout1. cbn [stdout] in Hout1.
  apply copy_from_counts in Hcopy1 as (Hc1 & _ & Hf1 & Hi1); [|done|set_solver].
  apply bind_returns in H as (e & w4 & Hexists & H).
  unfold path_exists in Hexists. injection Hexists as _ <-.
  apply bind_returns in H as ([names2 count2] & w5 & Hcopy2 & H).
  apply bind_returns in H as ([] & w6 & Hprint & H). injection H as <- <-.
  unfold print in Hprint. injection Hprint as <-. cbn [files stdout].
  destruct e.
  - apply bind_returns in Hcopy2 as (other & w7 & Hother & Hcopy2).
    unfold listdir in Hother. destruct (Store.is_file (files w3) "otherbooks"); [done|].
    injection Hother as <- <-.
    pose proof (Hout _ _ _ _ _ _ _ _ Hcopy2) as Hout2.
    apply copy_from_counts in Hcopy2 as (Hc2 & Hsub & Hf2 & _); [|done|done].
    exists names2. split; [done|]. split; [done|]. split; [set_solver|].
    rewrite Hout2, Hout1. by rewrite <- app_assoc.
  - injection Hcopy2 as <- <- <-.
    exists names1. split; [done|]. split; [done|]. split; [done|].
    rewrite Hout1. by rewrite <- app_assoc.
Qed.

Lemma copy_images_counts_names_witness :
  match copy_images Samples.project with
  | Returns (copied_count, w') =>
      exists names : gset string,
        copied_count = size names
        /\ (forall name, name ∈ names ->
                         Store.is_file (files w') (image_file name) = true)
        /\ (forall file, In file (Store.listdir "." (files Samples.project)) ->
                         is_image file = true -> sanitize_filename file ∈ names)
        /\ stdout w' = stdout Samples.project
                       ++ [Line "Copying images..."; CopiedImages copied_count]
  | Raises _ _ => False
  end.
Proof.
  destruct (copy_images Samples.project) as [[copied_count w']|e w'] eqn:H.
  - exact (copy_images_counts_names _ _ _ H).
  - vm_compute in H. discriminate H.
Defined.

End StepFacts.

(** ** The entity step, again *)

Module TextFacts.
Import PyStr PyStrFacts EntityDefs EntityFacts.






End TextFacts.

(** ** The build of [create_both_epubs.py] *)

Module BothFacts.
Import ArchiveDefs ArchiveFacts FrameDefs FrameFacts PyStrFacts BothDefs.

(** The steps of [create_epub_version] keep a property of the state that
    printing, writing below the build directory and writing the archive
    leave alone. *)
Section Version.
Context (lib : libs) (assemble : string -> bool -> Bs4.node -> Bs4.node -> string).
Context (uuid4 : world -> string) (java : string -> world -> Both.completed).
Context (P : world -> Prop) (base : string) (outputs : string -> Prop).
Hypothesis P_stdout : forall w out, P w -> P (World (files w) (archives w) out).
Hypothesis P_write : forall w rest d,
  P w ->
  P (World (Store.write (base +:+ "/OEBPS/" +:+ rest) d (files w)) (archives w) (stdout w)).
Hypothesis P_mimetype : forall w d,
  P w -> P (World (Store.write (base +:+ "/mimetype") d (files w)) (archives w) (stdout w)).
Hypothesis P_container : forall w d,
  P w ->
  P (World (Store.write (base +:+ "/META-INF/container.xml") d (files w))
       (archives w) (stdout w)).
Hypothesis P_remove : forall w o,
  outputs o -> P w ->
  P (World (Store.remove o (files w)) (Store.remove o (archives w)) (stdout w)).
Hypothesis P_open : forall w o,
  outputs o -> P w ->
  P (World (files w) (Store.remove o (archives w) ++ [(o, [])]) (stdout w)).
Hypothesis P_append : forall w o e,
  outputs o -> P w ->
  P (World (files w) (Complete.append_entry o e (archives w)) (stdout w)).

Lemma stays_print (m : message) : frames P (print m).
Proof. intros w HP. by apply P_stdout. Qed.

Lemma stays_write_file (rest d : string) :
  frames P (write_file (base +:+ "/OEBPS/" +:+ rest) d).
Proof.
  intros w HP. unfold write_file. destruct (Store.is_dir (files w) _); [done|].
  by apply P_write.
Qed.

Lemma stays_shutil_copy2 (src rest : string) :
  frames P (Both.shutil_copy2 src (base +:+ "/OEBPS/" +:+ rest)).
Proof.
  unfold Both.shutil_copy2. apply frames_if; [apply frames_raise|].
  apply frames_bind; [apply frames_read_file|intros d]. apply stays_write_file.
Qed.

Lemma stays_makedirs (dir_path : string) : frames P (Both.makedirs dir_path).
Proof. intros w HP. unfold Both.makedirs. by destruct (existsb _ _). Qed.

Lemma stays_ensure_directory_structure :
  frames P (Both.ensure_directory_structure base).
Proof.
  unfold Both.ensure_directory_structure.
  apply frames_bind; [apply frames_for_each, stays_makedirs|intros _]. cbv zeta.
  apply frames_bind; [apply frames_path_exists|intros e].
  apply frames_bind.
  - apply frames_if; [apply frames_ret|].
    intros w HP. unfold write_file. destruct (Store.is_dir (files w) _); [done|].
    by apply P_mimetype.
  - intros _. intros w HP. unfold write_file.
    destruct (Store.is_dir (files w) _); [done|]. by apply P_container.
Qed.

Lemma stays_append_file (rest c : string) :
  frames P (Both.append_file (base +:+ "/OEBPS/" +:+ rest) c).
Proof. intros w HP. unfold Both.append_file. by apply stays_write_file. Qed.

Lemma stays_copy_styles_file (kdp_mode : bool) :
  frames P (Both.copy_styles_file base kdp_mode).
Proof.
  unfold Both.copy_styles_file. cbv zeta.
  apply frames_bind; [apply frames_path_exists|intros e].
  apply frames_bind.
  - apply frames_if; [apply (stays_shutil_copy2 _ "Styles/style.css")|].
    apply (stays_write_file "Styles/style.css").
  - intros _. apply frames_if; [|apply frames_ret].
    apply frames_bind; [apply frames_read_file|intros existing_styles].
    apply frames_if; [apply frames_ret|].
    apply (stays_append_file "Styles/style.css").
Qed.

Lemma stays_convert_html_to_xhtml (html_file_path : string) (kdp_mode : bool) :
  frames P (Both.convert_html_to_xhtml lib assemble html_file_path
              (base +:+ "/OEBPS/Text") kdp_mode).
Proof.
  unfold Both.convert_html_to_xhtml.
  apply frames_bind; [apply frames_read_file|intros content]. cbv zeta.
  destruct (Bs4.find "body" _) as [body|]; [|apply frames_ret].
  apply frames_bind; [|intros _; apply frames_ret].
  rewrite append_assoc. apply (stays_write_file ("Text/" +:+ _)).
Qed.

Lemma stays_convert_all (kdp_mode : bool) :
  frames P (Both.convert_all lib assemble base kdp_mode).
Proof.
  unfold Both.convert_all.
  apply frames_bind; [apply stays_print|intros _].
  apply frames_for_each. intros html_file. unfold Both.convert_step.
  apply frames_bind; [apply frames_path_exists|intros e].
  apply frames_if; [|apply stays_print].
  apply frames_bind; [apply stays_print|intros _].
  apply frames_bind; [apply stays_convert_html_to_xhtml|intros _; apply frames_ret].
Qed.

Lemma stays_copy_each (source_dir : string) (l : list string) :
  forall copied_count : nat,
    frames P (Both.copy_each source_dir (base +:+ "/OEBPS/Images") l copied_count).
Proof.
  induction l as [|file l IH]; intros copied_count; [apply frames_ret|].
  cbn [Both.copy_each]. apply frames_if; [|apply IH].
  apply frames_bind; [|intros _; apply IH].
  rewrite append_assoc. apply (stays_shutil_copy2 _ ("Images/" +:+ _)).
Qed.

Lemma stays_copy_images (source_dir : string) :
  frames P (Both.copy_images source_dir (base +:+ "/OEBPS/Images")).
Proof.
  apply frames_bind; [apply frames_listdir|intros l]. apply stays_copy_each.
Qed.

Lemma stays_copy_cover (metadata : gmap string string) :
  frames P (Both.copy_cover metadata (base +:+ "/OEBPS/Images")).
Proof.
  unfold Both.copy_cover. cbv zeta.
  apply frames_if; [|apply frames_ret].
  assert (frames P
            (e ← path_exists (default "" (metadata !! "cover_image"));
             if e : bool then
               Both.shutil_copy2 (default "" (metadata !! "cover_image"))
                 ((base +:+ "/OEBPS/Images") +:+ "/"
                  +:+ PyPath.basename (default "" (metadata !! "cover_image"))) ;;
               print (Line ("Copied cover image: "
                            +:+ PyPath.basename (default "" (metadata !! "cover_image"))))
             else print (Line ("Warning: Cover image not found at "
                               +:+ default "" (metadata !! "cover_image"))))) as Hcopy.
  { apply frames_bind; [apply frames_path_exists|intros e].
    apply frames_if; [|apply stays_print].
    apply frames_bind; [|intros _; apply stays_print].
    rewrite append_assoc. apply (stays_shutil_copy2 _ ("Images/" +:+ _)). }
  by apply frames_if.
Qed.

Lemma stays_create_cover_page (metadata : gmap string string) :
  frames P (Both.create_cover_page metadata base).
Proof.
  unfold Both.create_cover_page. cbv zeta. apply (stays_write_file "cover.xhtml").
Qed.

Lemma stays_create_content_opf (metadata : gmap string string) (kdp_mode : bool)
    (book_uuid : string) :
  frames P (Both.create_content_opf uuid4 metadata base kdp_mode book_uuid).
Proof.
  intros w HP. unfold Both.create_content_opf. cbv zeta.
  by destruct (Both.manifest_items _ _ _ _).
Qed.

Lemma stays_create_toc_ncx (metadata : gmap string string) (book_uuid : string) :
  frames P (Both.create_toc_ncx uuid4 metadata base book_uuid).
Proof.
  intros w HP. unfold Both.create_toc_ncx. cbv zeta.
  by apply (stays_write_file "toc.ncx").
Qed.

Lemma stays_zip_write (output_filename file_path arcname : string) (method : compression) :
  outputs output_filename ->
  frames P (Complete.zip_write output_filename file_path arcname method).
Proof.
  intros Ho. apply frames_bind; [apply frames_read_file|intros c].
  intros w HP. by apply P_append.
Qed.

Lemma stays_create_epub_file (output_filename : string) :
  outputs output_filename ->
  frames P (Both.create_epub_file lib base output_filename).
Proof.
  intros Ho. unfold Both.create_epub_file.
  apply frames_bind; [apply frames_path_exists|intros e].
  apply frames_bind.
  { apply frames_if; [|apply frames_ret]. intros w HP. by apply P_remove. }
  intros _. apply frames_bind; [intros w HP; by apply P_open|intros _].
  apply frames_bind; [by apply stays_zip_write|intros _].
  apply frames_bind; [by apply stays_zip_write|intros _].
  apply frames_bind; [by intros w HP|intros oebps].
  apply frames_bind.
  { apply frames_for_each. intros file_path. by apply stays_zip_write. }
  intros _. apply frames_bind.
  { intros w HP. unfold Complete.zip_read. by destruct (Store.lookup_archive _ _). }
  intros file_list. destruct (namelist lib file_list) as [|first rest]; [apply frames_raise|].
  apply frames_bind; [|intros _; apply stays_print].
  apply frames_if; apply stays_print.
Qed.

Lemma stays_run_epubcheck (epub_file : string) :
  frames P (Both.run_epubcheck java epub_file).
Proof.
  unfold Both.run_epubcheck.
  apply frames_bind; [apply frames_path_exists|intros e].
  apply frames_if.
  - apply frames_bind; [apply stays_print|intros _].
    apply frames_bind; [by intros w HP|intros [returncode out err| |e']].
    + apply frames_if.
      * apply frames_bind; [apply stays_print|intros _; apply frames_ret].
      * apply frames_bind; [apply stays_print|intros _].
        apply frames_bind; [apply stays_print|intros _].
        apply frames_bind; [|intros _; apply frames_ret].
        apply frames_if; [apply stays_print|apply frames_ret].
    + apply frames_bind; [apply stays_print|intros _; apply frames_ret].
    + apply frames_bind; [apply stays_print|intros _; apply frames_ret].
  - apply frames_bind; [apply stays_print|intros _; apply frames_ret].
Qed.

Lemma frames_returns {A : Type} (m : prog A) (w w' : world) (a : A) :
  frames P m -> P w -> m w = Returns (a, w') -> P w'.
Proof. intros Hm HP H. specialize (Hm w HP). by rewrite H in Hm. Qed.

(** The steps of [create_epub_version] between
    [ensure_directory_structure] and [create_epub_file]. *)
Lemma fill_steps_return {B : Type} (metadata : gmap string string) (kdp_mode : bool)
    (k : prog B) (w w' : world) (b : B) :
  P w ->
  (Both.copy_styles_file base kdp_mode ;;
   Both.convert_all lib assemble base kdp_mode ;;
   print (Line "Copying images...") ;;
   copied_count ← Both.copy_images "." (base +:+ "/OEBPS/Images");
   print (CopiedImages copied_count) ;;
   Both.copy_cover metadata (base +:+ "/OEBPS/Images") ;;
   Both.create_cover_page metadata base ;;
   book_uuid ← Both.str_uuid4 uuid4;
   print (Line "Creating content.opf...") ;;
   content_opf ← Both.create_content_opf uuid4 metadata base kdp_mode book_uuid;
   write_file (base +:+ "/OEBPS/content.opf") content_opf ;;
   Both.create_toc_ncx uuid4 metadata base book_uuid ;;
   print (Line "Creating EPUB file...") ;;
   k) w = Returns (b, w') ->
  exists w1, P w1 /\ k w1 = Returns (b, w').
Proof.
  intros HP H.
  apply bind_returns in H as (? & w1 & H1 & H).
  apply frames_returns in H1; [|apply stays_copy_styles_file|done].
  apply bind_returns in H as (? & w2 & H2 & H).
  apply frames_returns in H2; [|apply stays_convert_all|done].
  apply bind_returns in H as (? & w3 & H3 & H).
  apply frames_returns in H3; [|apply stays_print|done].
  apply bind_returns in H as (copied_count & w4 & H4 & H).
  apply frames_returns in H4; [|apply stays_copy_images|done].
  apply bind_returns in H as (? & w5 & H5 & H).
  apply frames_returns in H5; [|apply stays_print|done].
  apply bind_returns in H as (? & w6 & H6 & H).
  apply frames_returns in H6; [|apply stays_copy_cover|done].
  apply bind_returns in H as (? & w7 & H7 & H).
  apply frames_returns in H7; [|apply stays_create_cover_page|done].
  apply bind_returns in H as (book_uuid & w8 & H8 & H).
  injection H8 as _ <-.
  apply bind_returns in H as (? & w9 & H9 & H).
  apply frames_returns in H9; [|apply stays_print|done].
  apply bind_returns in H as (content_opf & w10 & H10 & H).
  apply frames_returns in H10; [|apply stays_create_content_opf|done].
  apply bind_returns in H as (? & w11 & H11 & H).
  apply frames_returns in H11; [|apply (stays_write_file "content.opf")|done].
  apply bind_returns in H as (? & w12 & H12 & H).
  apply frames_returns in H12; [|apply stays_create_toc_ncx|done].
  apply bind_returns in H as (? & w13 & H13 & H).
  apply frames_returns in H13; [|apply stays_print|done].
  by exists w13.
Qed.

Lemma stays_create_epub_version (metadata : gmap string string) (version_name : string)
    (kdp_mode : bool) :
  base = base_dir version_name ->
  outputs (output_filename metadata version_name) ->
  frames P (Both.create_epub_version lib assemble uuid4 java metadata version_name kdp_mode).
Proof.
  intros Hbase Ho. unfold Both.create_epub_version. cbv zeta.
  change ("epub_" +:+ PyStr.lower version_name) with (base_dir version_name).
  rewrite <- Hbase.
  apply frames_bind; [apply stays_print|intros _].
  apply frames_bind; [apply stays_ensure_directory_structure|intros _].
  apply frames_bind; [apply stays_copy_styles_file|intros _].
  apply frames_bind; [apply stays_convert_all|intros _].
  apply frames_bind; [apply stays_print|intros _].
  apply frames_bind; [apply stays_copy_images|intros copied_count].
  apply frames_bind; [apply stays_print|intros _].
  apply frames_bind; [apply stays_copy_cover|intros _].
  apply frames_bind; [apply stays_create_cover_page|intros _].
  apply frames_bind; [by intros w HP|intros book_uuid].
  apply frames_bind; [apply stays_print|intros _].
  apply frames_bind; [apply stays_create_content_opf|intros content_opf].
  apply frames_bind; [apply (stays_write_file "content.opf")|intros _].
  apply frames_bind; [apply stays_create_toc_ncx|intros _].
  apply frames_bind; [apply stays_print|intros _].
  apply frames_bind; [by apply stays_create_epub_file|intros _].
  apply frames_bind; [apply stays_print|intros _].
  apply frames_bind; [apply stays_run_epubcheck|intros epubcheck_passed].
  apply frames_ret.
Qed.

End Version.

Lemma stays_load_metadata (lib : libs) (P : world -> Prop) :
  (forall w out, P w -> P (World (files w) (archives w) out)) ->
  frames P (Both.load_metadata lib).
Proof.
  intros P_stdout. unfold Both.load_metadata.
  apply frames_bind; [apply frames_path_exists|intros e].
  apply frames_if.
  - apply frames_bind; [apply frames_read_file|intros c].
    destruct (parse_json lib c); [apply frames_ret|apply frames_raise].
  - apply frames_bind; [by apply stays_print|intros _; apply frames_ret].
Qed.

(** What [main] keeps: a property of the state that printing, writing
    below the two build directories and writing the two archives leave
    alone. *)
Lemma stays_main (lib : libs) (assemble : string -> bool -> Bs4.node -> Bs4.node -> string)
    (uuid4 : world -> string) (java : string -> world -> Both.completed)
    (P : world -> Prop) (outputs : string -> Prop) :
  (forall w out, P w -> P (World (files w) (archives w) out)) ->
  (forall version_name w rest d,
     version_name = "Gumroad" \/ version_name = "KDP" ->
     P w ->
     P (World (Store.write (base_dir version_name +:+ "/" +:+ rest) d (files w))
          (archives w) (stdout w))) ->
  (forall w o, outputs o -> P w ->
     P (World (Store.remove o (files w)) (Store.remove o (archives w)) (stdout w))) ->
  (forall w o, outputs o -> P w ->
     P (World (files w) (Store.remove o (archives w) ++ [(o, [])]) (stdout w))) ->
  (forall w o e, outputs o -> P w ->
     P (World (files w) (Complete.append_entry o e (archives w)) (stdout w))) ->
  (forall metadata version_name, outputs (output_filename metadata version_name)) ->
  frames P (Both.main lib assemble uuid4 java).
Proof.
  intros P_stdout P_write P_remove P_open P_append Ho. unfold Both.main.
  assert (Hversion : forall md version_name kdp_mode,
            version_name = "Gumroad" \/ version_name = "KDP" ->
            frames P (Both.create_epub_version lib assemble uuid4 java md
                        version_name kdp_mode)).
  { intros md version_name kdp_mode Hv.
    apply (stays_create_epub_version lib assemble uuid4 java P (base_dir version_name)
             outputs); try done.
    - intros w rest d HP. by apply (P_write version_name w ("OEBPS/" +:+ rest)).
    - intros w d HP. by apply (P_write version_name w "mimetype").
    - intros w d HP. by apply (P_write version_name w "META-INF/container.xml"). }
  apply frames_bind; [by apply stays_load_metadata|intros [md|]].
  - destruct (decide (md = ∅)).
    + apply frames_bind; [by apply stays_print|intros _; apply frames_ret].
    + apply frames_bind; [by apply stays_print|intros _].
      apply frames_bind; [by apply stays_print|intros _].
      apply frames_bind; [by apply stays_print|intros _].
      apply frames_bind; [apply Hversion; by left|intros [gumroad_file gumroad_check]].
      apply frames_bind; [apply Hversion; by right|intros [kdp_file kdp_check]].
      apply frames_bind; [by apply stays_print|intros _].
      apply frames_bind; [by apply stays_print|intros _].
      apply frames_bind; [by apply stays_print|intros _].
      apply frames_bind; [by apply stays_print|intros _].
      apply frames_bind; [by apply stays_print|intros _].
      apply frames_ret.
  - apply frames_bind; [by apply stays_print|intros _; apply frames_ret].
Qed.

Lemma output_filename_ends (metadata : gmap string string) (version_name : string) :
  PyStr.endswith (output_filename metadata version_name) ".epub" = true.
Proof.
  unfold output_filename. do 2 apply LinkFacts.endswith_append_l.
  apply (LinkFacts.endswith_append version_name ".epub").
Qed.

Lemma output_filename_other (metadata : gmap string string) (version_name q : string) :
  PyStr.endswith q ".epub" = false -> output_filename metadata version_name <> q.
Proof. intros Hq <-. by rewrite output_filename_ends in Hq. Qed.

Lemma lookup_write_below (base rest q d : string) (fs : list (string * string)) :
  String.prefix (base +:+ "/") q = false ->
  Store.lookup q (Store.write (base +:+ "/" +:+ rest) d fs) = Store.lookup q fs.
Proof.
  intros Hq. apply lookup_write_ne. intros <-.
  by rewrite <- append_assoc, ManifestFacts.prefix_append in Hq.
Qed.

(** A run leaves a file alone that is outside the two build directories
    and is not called like an archive. *)
Lemma stays_other_file (lib : libs)
    (assemble : string -> bool -> Bs4.node -> Bs4.node -> string)
    (uuid4 : world -> string) (java : string -> world -> Both.completed)
    (q : string) (c : option string) :
  String.prefix "epub_gumroad/" q = false -> String.prefix "epub_kdp/" q = false ->
  PyStr.endswith q ".epub" = false ->
  frames (fun w => Store.lookup q (files w) = c) (Both.main lib assemble uuid4 java).
Proof.
  intros Hg Hk Hq.
  apply (stays_main lib assemble uuid4 java _ (fun o => o <> q)).
  - done.
  - intros version_name w rest d Hv <-. cbn [files].
    apply lookup_write_below. by destruct Hv as [-> | ->].
  - intros w o Ho <-. cbn [files]. rewrite lookup_remove.
    by apply String.eqb_neq in Ho as ->.
  - done.
  - done.
  - intros metadata version_name. by apply output_filename_other.
Qed.

(** X19.  In whatever way a run of [main] of [create_both_epubs.py] ends,
    a file that is outside [epub_gumroad] and [epub_kdp] and whose name
    does not end in [.epub] holds what it held before. *)
Theorem both_main_keeps_sources (lib : libs)
    (assemble : string -> bool -> Bs4.node -> Bs4.node -> string)
    (uuid4 : world -> string) (java : string -> world -> Both.completed)
    (q : string) (w : world) :
  String.prefix "epub_gumroad/" q = false -> String.prefix "epub_kdp/" q = false ->
  PyStr.endswith q ".epub" = false ->
  Store.lookup q (files (final (Both.main lib assemble uuid4 java w)))
  = Store.lookup q (files w).
Proof.
  intros Hg Hk Hq.
  pose proof (stays_other_file lib assemble uuid4 java q (Store.lookup q (files w))
                Hg Hk Hq w eq_refl) as H.
  unfold final. by destruct (Both.main _ _ _ _ w) as [[ok w']|e w'].
Qed.

Lemma both_main_keeps_sources_witness :
  Store.lookup "index.html"
    (files (final (Both.main sample_libs assembled sample_uuid checker_passes
                     stale_project)))
  = Store.lookup "index.html" (files stale_project).
Proof.
  apply (both_main_keeps_sources sample_libs assembled sample_uuid checker_passes
           "index.html" stale_project); reflexivity.
Defined.

(** X20.  [create_both_epubs.py] removes no file: a file that is there
    before a run of [main], whatever its directory, is there when the
    run ends (by return or by exception), unless its name ends in
    [.epub]. *)
Theorem both_main_removes_nothing (lib : libs)
    (assemble : string -> bool -> Bs4.node -> Bs4.node -> string)
    (uuid4 : world -> string) (java : string -> world -> Both.completed)
    (q : string) (w : world) :
  Store.is_file (files w) q = true ->
  PyStr.endswith q ".epub" = false ->
  Store.is_file (files (final (Both.main lib assemble uuid4 java w))) q = true.
Proof.
  intros Hfile Hq.
  assert (frames (fun w => Store.is_file (files w) q = true)
            (Both.main lib assemble uuid4 java)) as H.
  { apply (stays_main lib assemble uuid4 java _ (fun o => o <> q)).
    - done.
    - intros version_name w0 rest d _ H. by apply StepFacts.is_file_write.
    - intros w0 o Ho H. cbn [files]. unfold Store.is_file in *. rewrite lookup_remove.
      by apply String.eqb_neq in Ho as ->.
    - done.
    - done.
    - intros metadata version_name. by apply output_filename_other. }
  specialize (H w Hfile). unfold final.
  by destruct (Both.main _ _ _ _ w) as [[ok w']|e w'].
Qed.

Lemma both_main_removes_nothing_witness :
  Store.is_file
    (files (final (Both.main sample_libs assembled sample_uuid checker_passes
                     stale_project)))
    "epub_gumroad/OEBPS/Text/old.xhtml"
  = true.
Proof.
  apply (both_main_removes_nothing sample_libs assembled sample_uuid checker_passes
           "epub_gumroad/OEBPS/Text/old.xhtml" stale_project); reflexivity.
Defined.


(** *** The archive of a version *)

Lemma write_walked_in (base p : string) (paths : list string) :
  forall (es : list zip_entry) (w : world),
    (forall f, In f paths -> is_Some (Store.lookup f (files w))) ->
    for_each paths
      (fun file_path =>
         Complete.zip_write p file_path (Both.arc_path base file_path) ZIP_DEFLATED)
      (with_archive p es w)
    = Returns (tt, with_archive p (es ++ List.map (walked base (files w)) paths) w).
Proof.
  induction paths as [|f paths IH]; intros es w Hex.
  - cbn. by rewrite app_nil_r.
  - cbn [for_each List.map]. rewrite bind_unfold, zip_write_with_archive.
    destruct (Hex f (or_introl eq_refl)) as [c Hc]. rewrite Hc.
    rewrite IH by (intros; apply Hex; by right).
    unfold walked at 2. rewrite Hc. cbn [default].
    by rewrite <- app_assoc.
Qed.

(** What [create_epub_file] has done when it returns: the archive holds
    the entries of the build tree, and the files are those it found, an
    older file called like the archive apart. *)
Lemma create_epub_file_returns (lib : libs) (base output_filename : string)
    (w w' : world) (a : unit) :
  Both.create_epub_file lib base output_filename w = Returns (a, w') ->
  exists mimetype container,
    (files w' = files w \/ files w' = Store.remove output_filename (files w))
    /\ Store.lookup (base +:+ "/mimetype") (files w') = Some mimetype
    /\ Store.lookup (base +:+ "/META-INF/container.xml") (files w') = Some container
    /\ Store.lookup_archive output_filename (archives w')
       = Some (written base (files w') mimetype container).
Proof.
  unfold Both.create_epub_file. rewrite bind_unfold. cbn [path_exists].
  rewrite bind_unfold.
  set (e := _ || _ || _).
  set (w1 := if e then World (Store.remove output_filename (files w))
                          (Store.remove output_filename (archives w)) (stdout w)
             else w).
  assert (Hopen : (if e then remove_file output_filename else mret tt) w = Returns (tt, w1)).
  { unfold w1. by destruct e. }
  assert (Hfiles : files w1 = files w \/ files w1 = Store.remove output_filename (files w)).
  { unfold w1. destruct e; [by right|by left]. }
  rewrite Hopen. clear Hopen. rewrite bind_unfold.
  change (Complete.zip_open output_filename w1)
    with (Returns (tt, with_archive output_filename [] w1)).
  cbv beta iota zeta.
  rewrite bind_unfold, zip_write_with_archive.
  destruct (Store.lookup (base +:+ "/mimetype") (files w1)) as [mimetype|] eqn:Hm; [|done].
  rewrite bind_unfold, zip_write_with_archive.
  destruct (Store.lookup (base +:+ "/META-INF/container.xml") (files w1))
    as [container|] eqn:Hc; [|done].
  rewrite bind_unfold, walk_files_with_archive.
  rewrite bind_unfold, write_walked_in by (intros f Hf; by apply lookup_walk_files in Hf).
  rewrite bind_unfold, zip_read_with_archive.
  cbn [app]. fold (written base (files w1) mimetype container).
  destruct (namelist lib _) as [|first names]; [done|].
  rewrite !bind_unfold. intros H. exists mimetype, container.
  assert (files w' = files w1
          /\ archives w' = archives (with_archive output_filename
                                       (written base (files w1) mimetype container) w1))
    as [Hf Ha].
  { destruct (String.eqb first "mimetype"); cbn in H; injection H as _ <-; done. }
  rewrite Hf, Ha. split; [done|]. split; [done|]. split; [done|].
  apply lookup_with_archive.
Qed.


Lemma oebps_not_mimetype (base rest : string) :
  base +:+ "/OEBPS/" +:+ rest <> base +:+ "/mimetype".
Proof. intros H%ManifestFacts.append_inj_l. rewrite !append_cons in H. discriminate H. Qed.

Lemma oebps_not_container (base rest : string) :
  base +:+ "/OEBPS/" +:+ rest <> base +:+ "/META-INF/container.xml".
Proof. intros H%ManifestFacts.append_inj_l. rewrite !append_cons in H. discriminate H. Qed.

Lemma mimetype_not_container (base : string) :
  base +:+ "/META-INF/container.xml" <> base +:+ "/mimetype".
Proof. intros H%ManifestFacts.append_inj_l. discriminate H. Qed.

Lemma lookup_remove_Some (o p c : string) (fs : list (string * string)) :
  Store.lookup p (Store.remove o fs) = Some c -> Store.lookup p fs = Some c.
Proof. rewrite lookup_remove. by destruct (String.eqb o p). Qed.

Lemma makedirs_returns (dirs : list string) (w w' : world) (a : unit) :
  for_each dirs Both.makedirs w = Returns (a, w') -> w' = w.
Proof.
  revert w. induction dirs as [|d dirs IH]; intros w; cbn [for_each].
  - by intros [= <-].
  - rewrite bind_unfold. unfold Both.makedirs at 1.
    destruct (existsb _ _); [done|]. apply IH.
Qed.

(** What [ensure_directory_structure] leaves: a mimetype file that was
    there holds what it held, a new one holds the literal text; the
    container file is written anew; no file is lost. *)
Lemma ensure_directory_structure_returns (base : string) (w w' : world) (a : unit) :
  Both.ensure_directory_structure base w = Returns (a, w') ->
  (forall m, Store.lookup (base +:+ "/mimetype") (files w') = Some m ->
             m = default "application/epub+zip"
                   (Store.lookup (base +:+ "/mimetype") (files w)))
  /\ Store.lookup (base +:+ "/META-INF/container.xml") (files w') = Some Both.container_xml
  /\ archives w' = archives w
  /\ (forall p, Store.is_file (files w) p = true -> Store.is_file (files w') p = true).
Proof.
  unfold Both.ensure_directory_structure.
  intros (? & w1 & ->%makedirs_returns & H)%bind_returns. cbv zeta in H.
  apply bind_returns in H as (e & w2 & He & H). cbn [path_exists] in He.
  injection He as <- <-.
  apply bind_returns in H as (? & w3 & H3 & H).
  unfold write_file in H. destruct (Store.is_dir (files w3) _); [done|].
  injection H as _ <-. cbn [files archives].
  assert ((forall m, Store.lookup (base +:+ "/mimetype") (files w3) = Some m ->
                     m = default "application/epub+zip"
                           (Store.lookup (base +:+ "/mimetype") (files w)))
          /\ archives w3 = archives w
          /\ (forall p, Store.is_file (files w) p = true ->
                         Store.is_file (files w3) p = true)) as (Hm & Ha & Hmono).
  { destruct (_ || _ || _) eqn:He.
    - injection H3 as _ <-. split; [|done]. intros m Hm. by rewrite Hm.
    - unfold write_file in H3. destruct (Store.is_dir (files w) _); [done|].
      injection H3 as _ <-. cbn [files archives].
      apply orb_false_iff in He as [[He _]%orb_false_iff _].
      unfold Store.is_file in He.
      destruct (Store.lookup (base +:+ "/mimetype") (files w)) eqn:Hl; [done|].
      split; [|split; [done|]].
      + rewrite lookup_write_eq. by intros m [= <-].
      + intros p Hp. by apply StepFacts.is_file_write. }
  split.
  { intros m. rewrite lookup_write_ne by apply mimetype_not_container. apply Hm. }
  split; [apply lookup_write_eq|]. split; [done|].
  intros p Hp. by apply StepFacts.is_file_write, Hmono.
Qed.

Lemma lookup_In_paths (p c : string) (fs : list (string * string)) :
  Store.lookup p fs = Some c -> In p (List.map fst fs).
Proof.
  induction fs as [|[q d] fs IH]; [done|]. cbn [Store.lookup List.map fst].
  destruct (String.eqb_spec q p) as [->|Hne]; [by left|]. intros H. right. by apply IH.
Qed.

(** What [create_epub_version] has done when it returns. *)
Lemma create_epub_version_returns (lib : libs)
    (assemble : string -> bool -> Bs4.node -> Bs4.node -> string)
    (uuid4 : world -> string) (java : string -> world -> Both.completed)
    (metadata : gmap string string) (version_name : string) (kdp_mode : bool)
    (w w' : world) (output : string) (epubcheck_passed : bool) :
  Both.create_epub_version lib assemble uuid4 java metadata version_name kdp_mode w
  = Returns ((output, epubcheck_passed), w') ->
  output = output_filename metadata version_name
  /\ Store.lookup_archive output (archives w')
     = Some (written (base_dir version_name) (files w')
               (default "application/epub+zip"
                  (Store.lookup (base_dir version_name +:+ "/mimetype") (files w)))
               Both.container_xml)
  /\ (forall p, Store.is_file (files w) p = true -> p <> output ->
                 Store.is_file (files w') p = true).
Proof.
  unfold Both.create_epub_version. cbv zeta.
  change ("epub_" +:+ PyStr.lower version_name) with (base_dir version_name).
  set (base := base_dir version_name).
  change (PyStr.replace " " "_" (default "Book" (metadata !! "title"))
          +:+ "_" +:+ version_name +:+ ".epub")
    with (output_filename metadata version_name).
  set (o := output_filename metadata version_name).
  intros H.
  apply bind_returns in H as (? & w0 & H0 & H).
  unfold print in H0. injection H0 as _ <-.
  apply bind_returns in H as (? & w1 & H1 & H).
  apply ensure_directory_structure_returns in H1 as (Hm & Hc & _ & Hmono).
  cbn [files] in Hm, Hmono.
  set (P := fun w2 : world =>
              Store.lookup (base +:+ "/mimetype") (files w2)
              = Store.lookup (base +:+ "/mimetype") (files w1)
              /\ Store.lookup (base +:+ "/META-INF/container.xml") (files w2)
                 = Some Both.container_xml
              /\ forall p, Store.is_file (files w) p = true ->
                           Store.is_file (files w2) p = true).
  assert (P_stdout : forall w3 out, P w3 -> P (World (files w3) (archives w3) out)).
  { by intros w3 out HP. }
  assert (P_write : forall w3 rest d,
            P w3 ->
            P (World (Store.write (base +:+ "/OEBPS/" +:+ rest) d (files w3))
                 (archives w3) (stdout w3))).
  { intros w3 rest d (Hm3 & Hc3 & Hmono3). unfold P. cbn [files].
    rewrite !lookup_write_ne by (apply oebps_not_mimetype || apply oebps_not_container).
    split; [done|]. split; [done|].
    intros p Hp. by apply StepFacts.is_file_write, Hmono3. }
  assert (HP : P w1) by done.
  destruct (fill_steps_return lib assemble uuid4 P base P_stdout P_write
              metadata kdp_mode _ _ _ _ HP H) as (w2 & (Hm2 & Hc2 & Hmono2) & H2).
  clear H. rename H2 into H.
  apply bind_returns in H as (? & w3 & H3 & H).
  apply create_epub_file_returns in H3 as (mimetype & container & Hf3 & Hm3 & Hc3 & Ha3).
  assert (Hkeep : frames (fun w4 => files w4 = files w3 /\ archives w4 = archives w3)
                    (print (Line (version_name +:+ " EPUB creation complete!")) ;;
                     Both.run_epubcheck java o)).
  { apply frames_bind; [by intros w4 HP4|intros _].
    apply stays_run_epubcheck. by intros w4 out HP4. }
  apply bind_returns in H as (? & w4 & H4 & H).
  apply bind_returns in H as (passed & w5 & H5 & H).
  injection H as <- <- <-.
  assert (files w5 = files w3 /\ archives w5 = archives w3) as [Hf5 Ha5].
  { specialize (Hkeep w3 (conj eq_refl eq_refl)). rewrite bind_unfold, H4, H5 in Hkeep.
    done. }
  rewrite Hf5, Ha5. split; [done|].
  assert (Store.lookup (base +:+ "/mimetype") (files w2) = Some mimetype
          /\ Store.lookup (base +:+ "/META-INF/container.xml") (files w2) = Some container)
    as [Hm2' Hc2'].
  { destruct Hf3 as [Hf3|Hf3]; rewrite Hf3 in Hm3, Hc3; [done|].
    split; by eapply lookup_remove_Some. }
  rewrite Hc2 in Hc2'. injection Hc2' as <-.
  rewrite Hm2 in Hm2'. apply Hm in Hm2'. rewrite <- Hm2'.
  split; [done|].
  intros p Hp Hne. specialize (Hmono2 p Hp).
  destruct Hf3 as [-> | ->]; [done|].
  unfold Store.is_file in *. rewrite lookup_remove.
  destruct (String.eqb_spec o p) as [Heq|_]; [by destruct Hne|done].
Qed.


Lemma base_dir_not_dot (version_name : string) : base_dir version_name <> ".".
Proof. unfold base_dir. rewrite append_cons. discriminate. Qed.

Lemma walked_below (base p : string) (fs : list (string * string)) :
  base <> "." ->
  In p (Store.walk_files (base +:+ "/OEBPS") fs) ->
  String.prefix "OEBPS/" (Both.arc_path base p) = true.
Proof.
  intros Hbase [_ Hp]%filter_In. unfold Store.below, Store.relative_to in Hp.
  destruct (String.eqb_spec (base +:+ "/OEBPS") ".") as [Hdot|_].
  { apply (f_equal String.length) in Hdot.
    rewrite ManifestFacts.length_append in Hdot. cbn in Hdot. lia. }
  destruct (String.prefix _ p) eqn:Hpre; [|done].
  apply ArchiveFacts.prefix_split in Hpre as [r ->].
  unfold Both.arc_path. rewrite !append_assoc.
  change (base +:+ "/OEBPS" +:+ "/" +:+ r) with (base +:+ "/" +:+ ("OEBPS/" +:+ r)).
  rewrite (ManifestFacts.relative_to_join base) by done. cbn [default].
  apply (ManifestFacts.prefix_append "OEBPS/").
Qed.

(** X21.  When [create_epub_version] returns, the archive it names
    starts with the entry [mimetype], stored without compression, and
    the container file, rewritten by this build; every other entry is
    deflated and lies below [OEBPS/].  The mimetype entry holds what the
    mimetype file of the build directory held before the build, whatever
    that is, and the text [application/epub+zip] only when there was no
    such file. *)
Theorem version_archive_starts_with_mimetype (lib : libs)
    (assemble : string -> bool -> Bs4.node -> Bs4.node -> string)
    (uuid4 : world -> string) (java : string -> world -> Both.completed)
    (metadata : gmap string string) (version_name : string) (kdp_mode : bool)
    (w w' : world) (output : string) (epubcheck_passed : bool) :
  Both.create_epub_version lib assemble uuid4 java metadata version_name kdp_mode w
  = Returns ((output, epubcheck_passed), w') ->
  output = output_filename metadata version_name
  /\ exists others,
      Store.lookup_archive output (archives w')
      = Some (ZipEntry "mimetype" ZIP_STORED
                (default "application/epub+zip"
                   (Store.lookup (base_dir version_name +:+ "/mimetype") (files w)))
              :: ZipEntry "META-INF/container.xml" ZIP_DEFLATED Both.container_xml
              :: others)
      /\ Forall (fun e => compress_type e = ZIP_DEFLATED
                          /\ String.prefix "OEBPS/" (arcname e) = true) others.
Proof.
  intros (Hout & Harchive & _)%create_epub_version_returns. split; [done|].
  eexists. split; [exact Harchive|].
  apply Forall_forall. intros e (p & <- & Hp)%list_elem_of_In%in_map_iff.
  split; [done|]. cbn [walked arcname].
  eapply walked_below; [apply base_dir_not_dot|done].
Qed.

Lemma version_archive_starts_with_mimetype_witness :
  match Both.create_epub_version sample_libs assembled sample_uuid checker_passes
          Samples.metadata "Gumroad" false stale_project with
  | Returns ((output, epubcheck_passed), w') =>
      output = "Escape_The_Hell_Myth_Gumroad.epub"
      /\ exists others,
          Store.lookup_archive output (archives w')
          = Some (ZipEntry "mimetype" ZIP_STORED "stale"
                  :: ZipEntry "META-INF/container.xml" ZIP_DEFLATED Both.container_xml
                  :: others)
          /\ Forall (fun e => compress_type e = ZIP_DEFLATED
                              /\ String.prefix "OEBPS/" (arcname e) = true) others
  | Raises _ _ => False
  end.
Proof.
  destruct (Both.create_epub_version sample_libs assembled sample_uuid checker_passes
              Samples.metadata "Gumroad" false stale_project)
    as [[[output epubcheck_passed] w']|e w'] eqn:H.
  - exact (version_archive_starts_with_mimetype _ _ _ _ _ _ _ _ _ _ _ H).
  - vm_compute in H. discriminate H.
Defined.

(** X22.  [create_both_epubs.py] does not clear a build directory: a file
    that lies below [OEBPS] of the build directory before the build is
    an entry of the archive that [create_epub_version] writes, under its
    path inside the build directory and with the content it has after
    the build. *)
Theorem stale_file_is_archived (lib : libs)
    (assemble : string -> bool -> Bs4.node -> Bs4.node -> string)
    (uuid4 : world -> string) (java : string -> world -> Both.completed)
    (metadata : gmap string string) (version_name : string) (kdp_mode : bool)
    (w w' : world) (output : string) (epubcheck_passed : bool) (rest content : string) :
  Store.lookup (base_dir version_name +:+ "/OEBPS/" +:+ rest) (files w) = Some content ->
  base_dir version_name +:+ "/OEBPS/" +:+ rest <> output_filename metadata version_name ->
  Both.create_epub_version lib assemble uuid4 java metadata version_name kdp_mode w
  = Returns ((output, epubcheck_passed), w') ->
  exists entries content',
    Store.lookup_archive output (archives w') = Some entries
    /\ Store.lookup (base_dir version_name +:+ "/OEBPS/" +:+ rest) (files w')
       = Some content'
    /\ In (ZipEntry ("OEBPS/" +:+ rest) ZIP_DEFLATED content') entries.
Proof.
  intros Hfile Hne (Hout & Harchive & Hmono)%create_epub_version_returns.
  set (p := base_dir version_name +:+ "/OEBPS/" +:+ rest) in *.
  assert (Hp : Store.is_file (files w') p = true).
  { apply Hmono; [|by rewrite Hout]. unfold Store.is_file. by rewrite Hfile. }
  unfold Store.is_file in Hp.
  destruct (Store.lookup p (files w')) as [content'|] eqn:Hl; [|done].
  eexists _, content'. split; [exact Harchive|]. split; [done|].
  unfold written. right. right. apply in_map_iff. exists p. split.
  - unfold walked. rewrite Hl. cbn [default]. f_equal. unfold Both.arc_path, p.
    change (base_dir version_name +:+ "/OEBPS/" +:+ rest)
      with (base_dir version_name +:+ "/" +:+ ("OEBPS/" +:+ rest)).
    by rewrite ManifestFacts.relative_to_join by apply base_dir_not_dot.
  - apply filter_In. split; [by eapply lookup_In_paths|].
    unfold Store.below, p.
    change (base_dir version_name +:+ "/OEBPS/" +:+ rest)
      with (base_dir version_name +:+ "/OEBPS" +:+ "/" +:+ rest).
    rewrite <- (append_assoc (base_dir version_name) "/OEBPS" ("/" +:+ rest)).
    rewrite ManifestFacts.relative_to_join; [done|].
    intros Hdot. apply (f_equal String.length) in Hdot.
    rewrite ManifestFacts.length_append in Hdot. cbn in Hdot. lia.
Qed.

Lemma stale_file_is_archived_witness :
  match Both.create_epub_version sample_libs assembled sample_uuid checker_passes
          Samples.metadata "Gumroad" false stale_project with
  | Returns ((output, epubcheck_passed), w') =>
      exists entries content',
        Store.lookup_archive output (archives w') = Some entries
        /\ Store.lookup "epub_gumroad/OEBPS/Text/old.xhtml" (files w') = Some content'
        /\ In (ZipEntry "OEBPS/Text/old.xhtml" ZIP_DEFLATED content') entries
  | Raises _ _ => False
  end.
Proof.
  destruct (Both.create_epub_version sample_libs assembled sample_uuid checker_passes
              Samples.metadata "Gumroad" false stale_project)
    as [[[output epubcheck_passed] w']|e w'] eqn:H.
  - refine (stale_file_is_archived _ _ _ _ Samples.metadata "Gumroad" _ _ _ _ _
              "Text/old.xhtml" "<html/>" _ _ H).
    + reflexivity.
    + vm_compute. discriminate.
  - vm_compute in H. discriminate H.
Defined.


(** *** A run without the checker *)

Lemma is_dir_write (p q d : string) (fs : list (string * string)) :
  Store.is_dir (Store.write p d fs) q = Store.is_dir fs q || String.prefix (q +:+ "/") p.
Proof.
  unfold Store.is_dir. induction fs as [|[r c] fs IH]; cbn [Store.write existsb fst].
  - by rewrite orb_false_r.
  - destruct (String.eqb_spec r p) as [->|Hne]; cbn [existsb fst].
    + by destruct (String.prefix (q +:+ "/") p), (existsb _ fs).
    + rewrite IH. by rewrite orb_assoc.
Qed.

Lemma is_dir_remove (o q : string) (fs : list (string * string)) :
  Store.is_dir fs q = false -> Store.is_dir (Store.remove o fs) q = false.
Proof.
  unfold Store.is_dir, Store.remove. induction fs as [|[r c] fs IH]; [done|].
  cbn [existsb List.filter fst]. intros [H1 H2]%orb_false_iff.
  destruct (negb _); cbn [existsb fst]; [|by apply IH]. by rewrite H1, IH.
Qed.

Lemma named_remove {A : Type} (o q : string) (l : list (string * A)) :
  existsb (fun a => String.eqb (fst a) q) l = false ->
  existsb (fun a => String.eqb (fst a) q) (Store.remove o l) = false.
Proof.
  unfold Store.remove. induction l as [|[r c] l IH]; [done|].
  cbn [existsb List.filter fst]. intros [H1 H2]%orb_false_iff.
  destruct (negb _); cbn [existsb fst]; [|by apply IH]. by rewrite H1, IH.
Qed.

Lemma named_append_entry (o q : string) (e : zip_entry) (l : list (string * list zip_entry)) :
  existsb (fun a => String.eqb (fst a) q) (Complete.append_entry o e l)
  = existsb (fun a => String.eqb (fst a) q) l.
Proof.
  unfold Complete.append_entry. induction l as [|[r c] l IH]; [done|].
  cbn [List.map existsb fst]. rewrite IH. by destruct (String.eqb r o).
Qed.

(** The path [q] names nothing: no file, no directory, no archive. *)
Lemma absent_iff (q : string) (w : world) :
  path_exists q w = Returns (false, w)
  <-> Store.is_file (files w) q = false /\ Store.is_dir (files w) q = false
      /\ existsb (fun a => String.eqb (fst a) q) (archives w) = false.
Proof.
  unfold path_exists. split.
  - intros [= H]. by apply orb_false_iff in H as [[? ?]%orb_false_iff ?].
  - intros (-> & -> & ->). done.
Qed.

(** A build leaves the place of the checker empty. *)
Section Unchecked.
Context (lib : libs) (assemble : string -> bool -> Bs4.node -> Bs4.node -> string).
Context (uuid4 : world -> string) (java : string -> world -> Both.completed).

Lemma no_checker_stdout (w : world) (out : list message) :
  no_checker w -> no_checker (World (files w) (archives w) out).
Proof. unfold no_checker. rewrite !absent_iff. done. Qed.

Lemma no_checker_write (version_name rest d : string) (w : world) :
  no_checker w ->
  no_checker (World (Store.write (base_dir version_name +:+ "/" +:+ rest) d (files w))
            (archives w) (stdout w)).
Proof.
  unfold no_checker. rewrite !absent_iff. cbn [files archives]. intros (Hf & Hd & Ha).
  assert (Hpre : forall x y, String.prefix (String "e" (String "p" (String "u"
                   (String "b" (String "c" x))))) (base_dir version_name +:+ y) = false).
  { intros x y. unfold base_dir. rewrite !append_cons.
    rewrite !prefix_cons. rewrite !bool_decide_eq_true_2 by done. cbn [andb].
    by rewrite bool_decide_eq_false_2. }
  split; [|split; [|done]].
  - unfold Store.is_file in *. rewrite lookup_write_ne; [done|].
    intros Heq. specialize (Hpre "heck-5.2.0/epubcheck.jar" ("/" +:+ rest)).
    rewrite Heq in Hpre. vm_compute in Hpre. discriminate Hpre.
  - rewrite is_dir_write, Hd. cbn [orb]. apply Hpre.
Qed.

Lemma archive_not_checker (metadata : gmap string string) (version_name : string) :
  output_filename metadata version_name <> Both.EPUBCCHECK_PATH.
Proof. by apply output_filename_other. Qed.

Lemma no_checker_remove (o : string) (w : world) :
  no_checker w ->
  no_checker (World (Store.remove o (files w)) (Store.remove o (archives w)) (stdout w)).
Proof.
  unfold no_checker. rewrite !absent_iff. cbn [files archives]. intros (Hf & Hd & Ha).
  split; [|split].
  - unfold Store.is_file in *. rewrite lookup_remove. by destruct (String.eqb o _).
  - by apply is_dir_remove.
  - by apply named_remove.
Qed.

Lemma no_checker_open (o : string) (w : world) :
  o <> Both.EPUBCCHECK_PATH -> no_checker w ->
  no_checker (World (files w) (Store.remove o (archives w) ++ [(o, [])]) (stdout w)).
Proof.
  unfold no_checker. rewrite !absent_iff. cbn [files archives]. intros Ho (Hf & Hd & Ha).
  split; [done|]. split; [done|].
  rewrite existsb_app, named_remove by done. cbn [existsb fst orb].
  rewrite orb_false_r. by apply String.eqb_neq.
Qed.

Lemma no_checker_append (o : string) (e : zip_entry) (w : world) :
  no_checker w ->
  no_checker (World (files w) (Complete.append_entry o e (archives w)) (stdout w)).
Proof.
  unfold no_checker. rewrite !absent_iff. cbn [files archives].
  by rewrite named_append_entry.
Qed.

Lemma run_epubcheck_skipped (epub_file : string) (w : world) :
  no_checker w ->
  Both.run_epubcheck java epub_file w
  = Returns (true, World (files w) (archives w) (stdout w ++ [EpubcheckSkipped])).
Proof.
  intros H. unfold Both.run_epubcheck. rewrite bind_unfold. unfold no_checker in H.
  by rewrite H.
Qed.

(** Without the checker a version that is built counts as checked. *)
Lemma version_unchecked (metadata : gmap string string) (version_name : string)
    (kdp_mode : bool) (w w' : world) (output : string) (epubcheck_passed : bool) :
  no_checker w ->
  Both.create_epub_version lib assemble uuid4 java metadata version_name kdp_mode w
  = Returns ((output, epubcheck_passed), w') ->
  epubcheck_passed = true /\ no_checker w'.
Proof.
  intros HP. unfold Both.create_epub_version. cbv zeta.
  change ("epub_" +:+ PyStr.lower version_name) with (base_dir version_name).
  change (PyStr.replace " " "_" (default "Book" (metadata !! "title"))
          +:+ "_" +:+ version_name +:+ ".epub")
    with (output_filename metadata version_name).
  pose proof (archive_not_checker metadata version_name) as Ho.
  set (base := base_dir version_name) in *.
  set (o := output_filename metadata version_name) in *.
  assert (P_write : forall w0 rest d,
            no_checker w0 ->
            no_checker (World (Store.write (base +:+ "/" +:+ rest) d (files w0))
                          (archives w0) (stdout w0))).
  { intros w0 rest d. apply no_checker_write. }
  intros H.
  apply bind_returns in H as (? & w0 & H0 & H).
  apply (frames_returns no_checker) in H0;
    [|apply stays_print, no_checker_stdout|done].
  apply bind_returns in H as (? & w1 & H1 & H).
  apply (frames_returns no_checker) in H1; [| |done].
  2: { apply stays_ensure_directory_structure.
       - intros w2 d. apply (P_write w2 "mimetype").
       - intros w2 d. apply (P_write w2 "META-INF/container.xml"). }
  destruct (fill_steps_return lib assemble uuid4 no_checker base no_checker_stdout
              (fun w2 rest d => P_write w2 ("OEBPS/" +:+ rest) d)
              metadata kdp_mode _ _ _ _ H1 H) as (w2 & H2 & H').
  clear H. rename H' into H.
  apply bind_returns in H as (? & w3 & H3 & H).
  apply (frames_returns no_checker) in H3; [| |done].
  2: { apply (stays_create_epub_file lib no_checker base
                (fun o' => o' <> Both.EPUBCCHECK_PATH)); try done.
       - apply no_checker_stdout.
       - intros w4 o' _. apply no_checker_remove.
       - intros w4 o'. apply no_checker_open.
       - intros w4 o' e _. apply no_checker_append. }
  apply bind_returns in H as (? & w4 & H4 & H).
  apply (frames_returns no_checker) in H4;
    [|apply stays_print, no_checker_stdout|done].
  apply bind_returns in H as (passed & w5 & H5 & H).
  injection H as _ <- <-.
  rewrite run_epubcheck_skipped in H5 by done. injection H5 as <- <-.
  split; [done|]. by apply no_checker_stdout.
Qed.

End Unchecked.

Lemma load_metadata_some (lib : libs) (w w' : world) (md : gmap string string) :
  Both.load_metadata lib w = Returns (Some md, w') -> w' = w.
Proof.
  unfold Both.load_metadata. rewrite bind_unfold. cbn [path_exists].
  destruct (_ || _ || _).
  - rewrite bind_unfold. unfold read_file. destruct (Store.lookup _ _); [|done].
    destruct (parse_json lib _); [|done]. by intros [= _ <-].
  - rewrite bind_unfold. cbn [print]. done.
Qed.

(** X23.  When the checker is not installed, the result of [main] of
    [create_both_epubs.py] only tells whether the metadata was loaded:
    a run that returns, returns [True] exactly when the metadata file
    holds a record that is not empty. *)
Theorem unchecked_run_passes (lib : libs)
    (assemble : string -> bool -> Bs4.node -> Bs4.node -> string)
    (uuid4 : world -> string) (java : string -> world -> Both.completed)
    (w w' : world) (ok : bool) :
  no_checker w ->
  Both.main lib assemble uuid4 java w = Returns (ok, w') ->
  (ok = true
   <-> exists md, Both.load_metadata lib w = Returns (Some md, w) /\ md <> ∅).
Proof.
  intros HP. unfold Both.main. rewrite bind_unfold.
  destruct (Both.load_metadata lib w) as [[[md|] w0]|e w0] eqn:Hload; [| |done].
  - apply load_metadata_some in Hload as Hw. subst w0.
    destruct (decide (md = ∅)) as [Hmd|Hmd].
    { rewrite bind_unfold. cbn [print]. intros [= <- _]. split; [done|].
      intros (md' & [= <-] & Hne). done. }
    intros H.
    apply bind_returns in H as (? & w1 & H1 & H).
    apply (frames_returns no_checker) in H1;
      [|apply stays_print, no_checker_stdout|done].
    apply bind_returns in H as (? & w2 & H2 & H).
    apply (frames_returns no_checker) in H2;
      [|apply stays_print, no_checker_stdout|done].
    apply bind_returns in H as (? & w3 & H3 & H).
    apply (frames_returns no_checker) in H3;
      [|apply stays_print, no_checker_stdout|done].
    apply bind_returns in H as ([gumroad_file gumroad_check] & w4 & H4 & H).
    apply version_unchecked in H4 as [-> H4]; [|done].
    apply bind_returns in H as ([kdp_file kdp_check] & w5 & H5 & H).
    apply version_unchecked in H5 as [-> H5]; [|done].
    cbn [print] in H. rewrite !bind_unfold in H. injection H as <- _.
    split; [|done]. intros _. by exists md.
  - rewrite bind_unfold. cbn [print]. intros [= <- _]. split; [done|].
    intros (md' & [=] & _).
Qed.

Lemma unchecked_run_passes_witness :
  match Both.main sample_libs assembled sample_uuid checker_passes stale_project with
  | Returns (ok, w') =>
      ok = true
      <-> exists md,
            Both.load_metadata sample_libs stale_project = Returns (Some md, stale_project)
            /\ md <> ∅
  | Raises _ _ => False
  end.
Proof.
  destruct (Both.main sample_libs assembled sample_uuid checker_passes stale_project)
    as [[ok w']|e w'] eqn:H.
  - refine (unchecked_run_passes _ _ _ _ stale_project w' ok _ H). reflexivity.
  - vm_compute in H. discriminate H.
Defined.


(** *** The two archives of a run *)

Lemma lookup_archive_append_entry (o q : string) (e : zip_entry)
    (l : list (string * list zip_entry)) :
  o <> q ->
  Store.lookup_archive q (Complete.append_entry o e l) = Store.lookup_archive q l.
Proof.
  intros Hne. unfold Complete.append_entry.
  induction l as [|[r c] l IH]; [done|]. cbn [List.map fst snd].
  destruct (String.eqb_spec r o) as [->|Hr]; cbn [Store.lookup_archive].
  - apply String.eqb_neq in Hne as ->. apply IH.
  - by rewrite IH.
Qed.

Lemma outputs_differ (metadata : gmap string string) :
  output_filename metadata "KDP" <> output_filename metadata "Gumroad".
Proof.
  unfold output_filename. intros H%ManifestFacts.append_inj_l. discriminate H.
Qed.

(** The build of a version leaves the archive of another name alone. *)
Lemma stays_other_archive (lib : libs)
    (assemble : string -> bool -> Bs4.node -> Bs4.node -> string)
    (uuid4 : world -> string) (java : string -> world -> Both.completed)
    (metadata : gmap string string) (version_name : string) (kdp_mode : bool)
    (q : string) (entries : option (list zip_entry)) :
  output_filename metadata version_name <> q ->
  frames (fun w => Store.lookup_archive q (archives w) = entries)
    (Both.create_epub_version lib assemble uuid4 java metadata version_name kdp_mode).
Proof.
  intros Hne.
  apply (stays_create_epub_version lib assemble uuid4 java _ (base_dir version_name)
           (fun o => o <> q)); try done.
  - intros w o Ho <-. cbn [archives]. by apply lookup_archive_remove_ne.
  - intros w o Ho <-. cbn [archives].
    rewrite lookup_archive_app_ne by done. by apply lookup_archive_remove_ne.
  - intros w o e Ho <-. cbn [archives]. by apply lookup_archive_append_entry.
Qed.

(** X24.  When the metadata is loaded and [main] of [create_both_epubs.py]
    returns, whatever the checker has said, both archives are there, the
    build for KDP has left the archive for Gumroad as it was written,
    and each archive starts with the stored entry [mimetype] and the
    container file. *)
Theorem both_main_leaves_two_archives (lib : libs)
    (assemble : string -> bool -> Bs4.node -> Bs4.node -> string)
    (uuid4 : world -> string) (java : string -> world -> Both.completed)
    (w w' : world) (ok : bool) (md : gmap string string) :
  Both.load_metadata lib w = Returns (Some md, w) -> md <> ∅ ->
  Both.main lib assemble uuid4 java w = Returns (ok, w') ->
  forall version_name, version_name = "Gumroad" \/ version_name = "KDP" ->
    exists mimetype others,
      Store.lookup_archive (output_filename md version_name) (archives w')
      = Some (ZipEntry "mimetype" ZIP_STORED mimetype
              :: ZipEntry "META-INF/container.xml" ZIP_DEFLATED Both.container_xml
              :: others).
Proof.
  intros Hload Hmd. unfold Both.main. rewrite bind_unfold, Hload.
  destruct (decide (md = ∅)); [done|]. intros H.
  apply bind_returns in H as (? & w1 & H1 & H).
  apply bind_returns in H as (? & w2 & H2 & H).
  apply bind_returns in H as (? & w3 & H3 & H).
  apply bind_returns in H as ([gumroad_file gumroad_check] & w4 & H4 & H).
  apply bind_returns in H as ([kdp_file kdp_check] & w5 & H5 & H).
  cbn [print] in H. rewrite !bind_unfold in H. injection H as _ <-. cbn [archives].
  apply create_epub_version_returns in H4 as Hg. destruct Hg as (-> & Hg & _).
  apply create_epub_version_returns in H5 as Hk. destruct Hk as (-> & Hk & _).
  pose proof (stays_other_archive lib assemble uuid4 java md "KDP" true
                (output_filename md "Gumroad") _ (outputs_differ md) w4 Hg) as Hkeep.
  rewrite H5 in Hkeep.
  intros version_name [-> | ->]; eexists _, _.
  - exact Hkeep.
  - exact Hk.
Qed.

Lemma both_main_leaves_two_archives_witness :
  match Both.main sample_libs assembled sample_uuid checker_passes stale_project with
  | Returns (ok, w') =>
      forall version_name, version_name = "Gumroad" \/ version_name = "KDP" ->
        exists mimetype others,
          Store.lookup_archive (output_filename Samples.metadata version_name)
            (archives w')
          = Some (ZipEntry "mimetype" ZIP_STORED mimetype
                  :: ZipEntry "META-INF/container.xml" ZIP_DEFLATED Both.container_xml
                  :: others)
  | Raises _ _ => False
  end.
Proof.
  destruct (Both.main sample_libs assembled sample_uuid checker_passes stale_project)
    as [[ok w']|e w'] eqn:H.
  - refine (both_main_leaves_two_archives _ _ _ _ stale_project w' ok Samples.metadata
              _ _ H).
    + reflexivity.
    + apply map_non_empty_singleton.
  - vm_compute in H. discriminate H.
Defined.


(** *** Images and styles *)

Lemma head_split_on_plain (sep : ascii) (s x : string) :
  List.head (PyPath.split_on sep s) = Some x -> ~ PyStr.mem sep x.
Proof.
  revert x. induction s as [|c s IH]; intros x; cbn [PyPath.split_on].
  - cbn [hd_error]. intros [= <-]. cbn [PyStr.mem]. tauto.
  - destruct (Ascii.eqb_spec c sep) as [->|Hne];
      [cbn [hd_error]; intros [= <-]; cbn [PyStr.mem]; tauto|].
    destruct (PyPath.split_on sep s) as [|h t]; cbn [hd_error]; intros [= <-];
      cbn [PyStr.mem].
    + intros [H|H]; [by destruct Hne|done].
    + specialize (IH h eq_refl). intros [H|H]; [by destruct Hne|done].
Qed.

Lemma dedup_In (x : string) (l : list string) : forall seen,
  In x (Store.dedup seen l) -> In x l.
Proof.
  induction l as [|y l IH]; intros seen; [done|]. cbn [Store.dedup].
  destruct (existsb _ seen); [intros H%IH; by right|].
  intros [->|H%IH]; [by left|by right].
Qed.

(** An entry of a directory listing is a name, not a path. *)
Lemma listdir_plain (dir x : string) (fs : list (string * string)) :
  In x (Store.listdir dir fs) -> ~ PyStr.mem "/" x.
Proof.
  unfold Store.listdir.
  intros ([p c] & Hin & Hx)%dedup_In%list_elem_of_In%list_elem_of_omap.
  destruct (Store.relative_to dir _) as [r|]; [|done].
  by apply head_split_on_plain in Hx.
Qed.

Lemma joined_not_plain (dest_dir file x : string) :
  ~ PyStr.mem "/" x -> dest_dir +:+ "/" +:+ file <> x.
Proof.
  intros Hx <-. apply Hx. apply mem_append. right.
  rewrite append_cons. by left.
Qed.

(** The loop of [copy_images]: the names copied so far are in the
    destination with the content of their sources, which are as they
    were. *)
Lemma copy_each_copies (dest_dir : string) (fs : list (string * string))
    (l : list string) :
  forall (done_ : list string) (copied_count : nat) (w w' : world) (n : nat),
    (forall x, In x l -> ~ PyStr.mem "/" x) ->
    (forall x, ~ PyStr.mem "/" x -> Store.lookup x (files w) = Store.lookup x fs) ->
    (forall x, In x done_ -> Complete.is_image x = true ->
               is_Some (Store.lookup x fs)
               /\ Store.lookup (dest_dir +:+ "/" +:+ x) (files w) = Store.lookup x fs) ->
    Both.copy_each "." dest_dir l copied_count w = Returns (n, w') ->
    n = copied_count + length (List.filter Complete.is_image l)
    /\ forall x, In x (done_ ++ l) -> Complete.is_image x = true ->
                 is_Some (Store.lookup x fs)
                 /\ Store.lookup (dest_dir +:+ "/" +:+ x) (files w') = Store.lookup x fs.
Proof.
  induction l as [|file l IH]; intros done_ copied_count w w' n Hplain Hsrc Hdone.
  - cbn [Both.copy_each]. intros [= <- <-]. cbn [List.filter length].
    rewrite app_nil_r. split; [lia|done].
  - cbn [Both.copy_each List.filter].
    replace (done_ ++ file :: l) with ((done_ ++ [file]) ++ l)
      by (by rewrite <- app_assoc).
    destruct (Complete.is_image file) eqn:Himg.
    + intros (u & w1 & H1 & H)%bind_returns.
      unfold Both.shutil_copy2, Both.path_join in H1. cbn [String.eqb Ascii.eqb Bool.eqb] in H1.
      destruct (String.eqb file _); [done|].
      apply bind_returns in H1 as (c & w0 & Hread & Hwrite).
      unfold read_file in Hread.
      destruct (Store.lookup file (files w)) as [c'|] eqn:Hfile; [|done].
      injection Hread as <- <-.
      unfold write_file in Hwrite. destruct (Store.is_dir _ _); [done|].
      injection Hwrite as _ <-.
      rewrite Hsrc in Hfile by (apply Hplain; by left).
      apply (IH (done_ ++ [file]) (S copied_count)) in H.
      * destruct H as [-> H]. cbn [length]. split; [lia|done].
      * intros x Hx. apply Hplain. by right.
      * intros x Hx. cbn [files]. rewrite lookup_write_ne by by apply joined_not_plain.
        by apply Hsrc.
      * intros x [Hx|[<-|[]]]%in_app_iff Hi; cbn [files].
        -- destruct (Hdone x Hx Hi) as [Hsome Hdest]. split; [done|].
           destruct (decide (dest_dir +:+ "/" +:+ file = dest_dir +:+ "/" +:+ x))
             as [Heq|Hne].
           ++ rewrite Heq, lookup_write_eq.
              apply ManifestFacts.append_inj_l, ManifestFacts.append_inj_l in Heq.
              by subst x.
           ++ by rewrite lookup_write_ne.
        -- rewrite Hfile. split; [by eexists|apply lookup_write_eq].
    + intros H. apply (IH (done_ ++ [file]) copied_count) in H.
      * done.
      * intros x Hx. apply Hplain. by right.
      * done.
      * intros x [Hx|[<-|[]]]%in_app_iff Hi; [by apply Hdone|congruence].
Qed.

(** X25.  When [copy_images] returns, every image of the project
    directory is in the destination under its own name and with its
    content, and the count is the number of these images. *)
Theorem copy_images_copies_each (dest_dir : string) (w w' : world) (copied_count : nat) :
  Both.copy_images "." dest_dir w = Returns (copied_count, w') ->
  copied_count
  = length (List.filter Complete.is_image (Store.listdir "." (files w)))
  /\ forall file, In file (Store.listdir "." (files w)) -> Complete.is_image file = true ->
        exists content,
          Store.lookup file (files w) = Some content
          /\ Store.lookup (dest_dir +:+ "/" +:+ file) (files w') = Some content.
Proof.
  intros (l & w1 & Hl & H)%bind_returns. unfold listdir in Hl.
  destruct (Store.is_file (files w) "."); [done|]. injection Hl as <- <-.
  apply (copy_each_copies dest_dir (files w) _ []) in H.
  - destruct H as [-> H]. split; [done|]. intros file Hin Himg.
    destruct (H file Hin Himg) as [[content Hc] Hd]. exists content. by rewrite Hd.
  - intros x. apply listdir_plain.
  - done.
  - by intros x [].
Qed.

Lemma copy_images_copies_each_witness :
  match Both.copy_images "." "epub_gumroad/OEBPS/Images" Samples.project with
  | Returns (copied_count, w') =>
      copied_count
      = length (List.filter Complete.is_image (Store.listdir "." (files Samples.project)))
      /\ forall file,
           In file (Store.listdir "." (files Samples.project)) ->
           Complete.is_image file = true ->
           exists content,
             Store.lookup file (files Samples.project) = Some content
             /\ Store.lookup ("epub_gumroad/OEBPS/Images" +:+ "/" +:+ file) (files w')
                = Some content
  | Raises _ _ => False
  end.
Proof.
  destruct (Both.copy_images "." "epub_gumroad/OEBPS/Images" Samples.project)
    as [[copied_count w']|e w'] eqn:H.
  - exact (copy_images_copies_each _ _ _ _ H).
  - vm_compute in H. discriminate H.
Defined.

Lemma contains_append_r (sub s t : string) :
  Both.contains sub t = true -> Both.contains sub (s +:+ t) = true.
Proof.
  intros Ht. induction s as [|c s IH]; [by rewrite append_nil_l|].
  rewrite append_cons. cbn [Both.contains]. rewrite IH. apply orb_true_r.
Qed.

(** X26.  When [copy_styles_file] returns, the stylesheet of the build
    directory is the stylesheet of [epub/OEBPS], or the basic styles
    when there is none; in KDP mode the rules for [.kdp-mode] follow
    unless the text has [.kdp-mode] already, so that the stylesheet of a
    KDP build always names [.kdp-mode]. *)
Theorem copy_styles_file_result (base : string) (kdp_mode : bool) (w w' : world)
    (a : unit) :
  Both.copy_styles_file base kdp_mode w = Returns (a, w') ->
  exists styles,
    let source :=
      default Both.basic_styles (Store.lookup "epub/OEBPS/styles.css" (files w)) in
    Store.lookup (base +:+ "/OEBPS/Styles/style.css") (files w') = Some styles
    /\ (kdp_mode = false -> styles = source)
    /\ (kdp_mode = true ->
        Both.contains ".kdp-mode" styles = true
        /\ styles = if Both.contains ".kdp-mode" source then source
                    else source +:+ Both.kdp_styles).
Proof.
  unfold Both.copy_styles_file. cbv zeta.
  set (dest := base +:+ "/OEBPS/Styles/style.css").
  set (source := default Both.basic_styles _).
  intros (e & w0 & He & H)%bind_returns. cbn [path_exists] in He.
  injection He as <- <-.
  apply bind_returns in H as (? & w1 & H1 & H).
  assert (Hdest : Store.lookup dest (files w1) = Some source).
  { destruct (_ || _ || _) eqn:He.
    - unfold Both.shutil_copy2 in H1. destruct (String.eqb _ dest); [done|].
      apply bind_returns in H1 as (c & w2 & Hread & Hwrite).
      unfold read_file in Hread. unfold source.
      destruct (Store.lookup "epub/OEBPS/styles.css" (files w)) as [c'|]; [|done].
      injection Hread as <- <-.
      unfold write_file in Hwrite. destruct (Store.is_dir (files w) dest); [done|].
      injection Hwrite as _ <-. apply lookup_write_eq.
    - apply orb_false_iff in He as [[He _]%orb_false_iff _].
      unfold Store.is_file in He. unfold source.
      destruct (Store.lookup "epub/OEBPS/styles.css" (files w)); [done|].
      unfold write_file in H1. destruct (Store.is_dir (files w) dest); [done|].
      injection H1 as _ <-. apply lookup_write_eq. }
  destruct kdp_mode.
  - apply bind_returns in H as (existing_styles & w2 & Hread & H).
    unfold read_file in Hread. rewrite Hdest in Hread. injection Hread as <- <-.
    destruct (Both.contains ".kdp-mode" source) eqn:Hc.
    + injection H as _ <-. exists source. cbv zeta. fold source. done.
    + unfold Both.append_file, write_file in H.
      destruct (Store.is_dir (files w1) dest); [done|].
      injection H as _ <-. rewrite Hdest. cbn [default files].
      exists (source +:+ Both.kdp_styles). cbv zeta. fold source.
      rewrite lookup_write_eq.
      split; [done|]. split; [done|]. intros _. split; [|done].
      by apply contains_append_r.
  - injection H as _ <-. exists source. cbv zeta. fold source. by rewrite Hdest.
Qed.

Lemma copy_styles_file_result_witness :
  match Both.copy_styles_file "epub_kdp" true Samples.project with
  | Returns (a, w') =>
      exists styles,
        let source :=
          default Both.basic_styles
            (Store.lookup "epub/OEBPS/styles.css" (files Samples.project)) in
        Store.lookup ("epub_kdp" +:+ "/OEBPS/Styles/style.css") (files w') = Some styles
        /\ (true = false -> styles = source)
        /\ (true = true ->
            Both.contains ".kdp-mode" styles = true
            /\ styles = if Both.contains ".kdp-mode" source then source
                        else source +:+ Both.kdp_styles)
  | Raises _ _ => False
  end.
Proof.
  destruct (Both.copy_styles_file "epub_kdp" true Samples.project)
    as [[a w']|e w'] eqn:H.
  - exact (copy_styles_file_result _ _ _ _ _ H).
  - vm_compute in H. discriminate H.
Defined.

End BothFacts.

(** ** The navigation file and the spine *)

Module NavFacts.
Import Complete ArchiveFacts PyStrFacts.

Lemma map_filter_agree {A B : Type} (f : A -> B) (g : A -> bool) (h : B -> bool)
    (l : list A) :
  Forall (fun e => g e = h (f e)) l ->
  List.map f (List.filter g l) = List.filter h (List.map f l).
Proof.
  induction 1 as [|e l He _ IH]; [done|]. cbn [List.filter List.map].
  rewrite He. destruct (h (f e)); cbn [List.map]; by rewrite IH.
Qed.

(** Writing a file changes the presence of no path that is another file
    and not a directory above it. *)
Lemma present_write (w : world) (q d : string) (out : list message)
    (entries : list (string * string * string)) :
  forallb (fun e => negb (String.eqb q ("epub_build/OEBPS/" +:+ snd e))
                    && negb (String.prefix (("epub_build/OEBPS/" +:+ snd e) +:+ "/") q))
    entries = true ->
  present (World (Store.write q d (files w)) (archives w) out) entries
  = present w entries.
Proof.
  unfold present. cbn [files].
  induction entries as [|e l IH]; [done|]. cbn [forallb List.filter].
  intros [[Hne Hpre]%andb_true_iff Hl]%andb_true_iff. rewrite (IH Hl). cbv zeta.
  apply negb_true_iff in Hne, Hpre. apply String.eqb_neq in Hne.
  unfold Store.is_file at 1. rewrite lookup_write_ne by done.
  rewrite BothFacts.is_dir_write, Hpre, orb_false_r. done.
Qed.

(** The entries of [nav_structure] behind the cover: the file of an
    entry is the document of the text directory that carries its id. *)
Lemma text_entries_agree (fs : list (string * string)) (cover_exists : bool)
    (entries : list (string * string * string)) :
  forallb (fun e => negb (String.eqb (fst (fst e)) "cover")
                    && String.eqb ("epub_build/OEBPS/" +:+ snd e)
                         ("epub_build/OEBPS/Text/" +:+ fst (fst e) +:+ ".xhtml"))
    entries = true ->
  Forall (fun e =>
            Store.is_file fs ("epub_build/OEBPS/" +:+ snd e)
            || Store.is_dir fs ("epub_build/OEBPS/" +:+ snd e)
            = String.eqb (fst (fst e)) "cover" && cover_exists
              || (Store.is_file fs ("epub_build/OEBPS/Text/" +:+ fst (fst e) +:+ ".xhtml")
                  || Store.is_dir fs
                       ("epub_build/OEBPS/Text/" +:+ fst (fst e) +:+ ".xhtml")))
    entries.
Proof.
  induction entries as [|e l IH]; [by constructor|]. cbn [forallb].
  intros [[Hid Hsrc]%andb_true_iff Hl]%andb_true_iff.
  constructor; [|by apply IH].
  apply negb_true_iff in Hid. apply String.eqb_eq in Hsrc. by rewrite Hid, Hsrc.
Qed.

(** The entries of [nav_structure] that are present are those whose
    id the spine loop keeps. *)
Lemma nav_structure_agree (fs : list (string * string)) :
  Store.is_file fs "epub_build/OEBPS/Text/cover.xhtml"
  || Store.is_dir fs "epub_build/OEBPS/Text/cover.xhtml" = false ->
  Forall (fun e : string * string * string =>
            Store.is_file fs ("epub_build/OEBPS/" +:+ snd e)
            || Store.is_dir fs ("epub_build/OEBPS/" +:+ snd e)
            = String.eqb (fst (fst e)) "cover"
              && (Store.is_file fs "epub_build/OEBPS/cover.xhtml"
                  || Store.is_dir fs "epub_build/OEBPS/cover.xhtml")
              || (Store.is_file fs ("epub_build/OEBPS/Text/" +:+ fst (fst e) +:+ ".xhtml")
                  || Store.is_dir fs
                       ("epub_build/OEBPS/Text/" +:+ fst (fst e) +:+ ".xhtml")))
    nav_structure.
Proof.
  intros Hcover. unfold nav_structure. constructor.
  - cbn [fst snd].
    change ("epub_build/OEBPS/" +:+ "cover.xhtml") with "epub_build/OEBPS/cover.xhtml".
    change ("epub_build/OEBPS/Text/" +:+ "cover" +:+ ".xhtml")
      with "epub_build/OEBPS/Text/cover.xhtml".
    rewrite Hcover, String.eqb_refl. cbn [andb]. by rewrite orb_false_r.
  - apply text_entries_agree. vm_compute. reflexivity.
Qed.

Lemma nav_ids : List.map (fun e : string * string * string => fst (fst e)) nav_structure
                = SPINE_ORDER.
Proof. vm_compute. reflexivity. Qed.

(** The spine and the entries of the navigation file in one build tree. *)
Lemma spine_of_present (fs : list (string * string)) :
  Store.is_file fs "epub_build/OEBPS/Text/cover.xhtml"
  || Store.is_dir fs "epub_build/OEBPS/Text/cover.xhtml" = false ->
  spine_items
    (Store.is_file fs "epub_build/OEBPS/cover.xhtml"
     || Store.is_dir fs "epub_build/OEBPS/cover.xhtml")
    (fun item_id =>
       Store.is_file fs ("epub_build/OEBPS/Text/" +:+ item_id +:+ ".xhtml")
       || Store.is_dir fs ("epub_build/OEBPS/Text/" +:+ item_id +:+ ".xhtml"))
    SPINE_ORDER
  = List.map (fun e => safe_id (fst (fst e)))
      (List.filter
         (fun e : string * string * string =>
            let p := "epub_build/OEBPS/" +:+ snd e in
            Store.is_file fs p || Store.is_dir fs p)
         nav_structure).
Proof.
  intros Hcover. cbv zeta. rewrite ManifestFacts.spine_items_filter.
  rewrite <- (map_map (fun e : string * string * string => fst (fst e)) safe_id).
  f_equal. rewrite <- nav_ids. symmetry.
  apply (map_filter_agree (fun e : string * string * string => fst (fst e))
           (fun e => Store.is_file fs ("epub_build/OEBPS/" +:+ snd e)
                     || Store.is_dir fs ("epub_build/OEBPS/" +:+ snd e))
           (fun item_id =>
              String.eqb item_id "cover"
              && (Store.is_file fs "epub_build/OEBPS/cover.xhtml"
                  || Store.is_dir fs "epub_build/OEBPS/cover.xhtml")
              || (Store.is_file fs ("epub_build/OEBPS/Text/" +:+ item_id +:+ ".xhtml")
                  || Store.is_dir fs
                       ("epub_build/OEBPS/Text/" +:+ item_id +:+ ".xhtml")))).
  by apply nav_structure_agree.
Qed.

Lemma present_write_opf (w : world) (d : string) (out : list message) :
  present (World (Store.write "epub_build/OEBPS/content.opf" d (files w)) (archives w) out)
    nav_structure
  = present w nav_structure.
Proof. apply present_write. vm_compute. reflexivity. Qed.

(** The spine of the package document, as the loop computes it. *)
Lemma package_spine (metadata : gmap string string) (w : world) (pkg : package) :
  package_document metadata w = Some pkg ->
  spine pkg
  = spine_items
      (Store.is_file (files w) "epub_build/OEBPS/cover.xhtml"
       || Store.is_dir (files w) "epub_build/OEBPS/cover.xhtml")
      (fun item_id =>
         Store.is_file (files w) ("epub_build/OEBPS/Text/" +:+ item_id +:+ ".xhtml")
         || Store.is_dir (files w) ("epub_build/OEBPS/Text/" +:+ item_id +:+ ".xhtml"))
      SPINE_ORDER.
Proof.
  unfold package_document, manifest_and_spine. cbv zeta.
  destruct (manifest_items _ _ _ _) as [items|]; [|done].
  cbn [mbind option_bind]. intros H. apply (inj Some) in H. by subst pkg.
Qed.

(** Writing the package document changes the presence of no entry of
    the navigation file. *)
Lemma opf_keeps_present (lib : libs) (metadata : gmap string string) (is_kdp : bool)
    (w w' : world) :
  create_content_opf lib metadata is_kdp w = Returns (tt, w') ->
  present w' nav_structure = present w nav_structure.
Proof.
  unfold create_content_opf.
  destruct (manifest_and_spine metadata w) as [[items spine_ids]|]; [|done].
  intros (u & w1 & Hwrite & Hprint)%bind_returns.
  unfold write_file in Hwrite.
  destruct (Store.is_dir (files w) "epub_build/OEBPS/content.opf"); [done|].
  apply (f_equal FrameDefs.final) in Hwrite. cbn [FrameDefs.final] in Hwrite.
  subst w1. unfold print in Hprint.
  apply (f_equal FrameDefs.final) in Hprint. cbn [FrameDefs.final] in Hprint.
  subst w'. cbn [files archives stdout]. apply present_write_opf.
Qed.

(** X18.  The navigation control file of [create_epub_complete.py] lists
    the documents of the spine, in the order of the spine: when no
    [Text/cover.xhtml] is in the build tree, the spine that
    [create_content_opf] writes names exactly the entries of
    [nav_structure] that [create_toc_ncx], which runs next, finds in the
    build tree, each by its sanitized id. *)
Theorem ncx_follows_spine (lib : libs) (metadata : gmap string string) (is_kdp : bool)
    (w w' : world) (pkg : package) :
  Store.is_file (files w) "epub_build/OEBPS/Text/cover.xhtml"
  || Store.is_dir (files w) "epub_build/OEBPS/Text/cover.xhtml" = false ->
  package_document metadata w = Some pkg ->
  create_content_opf lib metadata is_kdp w = Returns (tt, w') ->
  spine pkg = List.map (fun e => safe_id (fst (fst e))) (present w' nav_structure).
Proof.
  intros Hcover Hpkg Hopf.
  rewrite (opf_keeps_present lib metadata is_kdp w w' Hopf).
  rewrite (package_spine metadata w pkg Hpkg).
  by apply spine_of_present.
Qed.

Lemma ncx_follows_spine_witness :
  match package_document Samples.metadata Samples.build_tree,
        create_content_opf BothDefs.sample_libs Samples.metadata false Samples.build_tree
  with
  | Some pkg, Returns (_, w') =>
      spine pkg = List.map (fun e => safe_id (fst (fst e))) (present w' nav_structure)
  | _, _ => False
  end.
Proof.
  destruct (package_document Samples.metadata Samples.build_tree) as [pkg|] eqn:Hpkg.
  - destruct (create_content_opf BothDefs.sample_libs Samples.metadata false
                Samples.build_tree) as [[[] w']|e w'] eqn:Hopf.
    + refine (ncx_follows_spine _ _ _ Samples.build_tree w' pkg _ Hpkg Hopf). reflexivity.
    + vm_compute in Hopf. discriminate Hopf.
  - vm_compute in Hpkg. discriminate Hpkg.
Defined.

Lemma complete_spine_in_manifest_witness :
  match package_document Samples.metadata Samples.build_tree with
  | Some pkg =>
      NoDup (spine pkg)
      /\ forall idref, In idref (spine pkg) ->
           exists i, In i (manifest pkg) /\ item_id i = idref
  | None => False
  end.
Proof.
  destruct (package_document Samples.metadata Samples.build_tree) as [pkg|] eqn:Hpkg.
  - exact (ManifestFacts.complete_spine_in_manifest _ _ _ Hpkg).
  - vm_compute in Hpkg. discriminate Hpkg.
Defined.

End NavFacts.
